(** * Turbovets: authorization, organization scoping and audit trail

  A shallow embedding of the NestJS API services of the repository
  (apps/api/src and libs/data) and the properties of its role model,
  organization scope resolution and audit log.

  Conventions of the embedding.
  - Identifiers, e-mail addresses and messages are [string]s, as in the
    TypeScript source; nullable columns are [option]s.
  - An [async] service method is a computation in the monad [M]: it takes
    the state of the database ([World]) and returns either a value or the
    exception it threw, together with the new state.  Nothing is rolled
    back when an exception is thrown: the services use no transaction.
  - JavaScript truthiness is written out ([truthy], [orNull]).
  - Dates are natural numbers (a count of clock ticks). *)

From Stdlib Require Import List String Ascii Bool Arith ZArith Lia Sorted.
Import ListNotations.
Local Open Scope string_scope.
Local Open Scope list_scope.

(* ------------------------------------------------------------------ *)
(** ** JavaScript values used by the services *)

Module Js.

(** [if (s)] on a string: the empty string is falsy. *)
Definition truthy (s : string) : bool :=
  match s with
  | EmptyString => false
  | String _ _ => true
  end.

(** [x || null] where [x] is [string | null | undefined]. *)
Definition orNull (x : option string) : option string :=
  match x with
  | Some s => if truthy s then Some s else None
  | None => None
  end.

(** [String.prototype.toLowerCase] on the ASCII range; other bytes are
    left as they are. *)
Definition lower_ascii (c : ascii) : ascii :=
  let n := nat_of_ascii c in
  if Nat.leb 65 n && Nat.leb n 90 then ascii_of_nat (n + 32) else c.

Fixpoint toLowerCase (s : string) : string :=
  match s with
  | EmptyString => EmptyString
  | String c r => String (lower_ascii c) (toLowerCase r)
  end.

(** What a JavaScript number holds of an integer: the integer itself up
    to [2 ^ 53], and beyond that the nearest double, a multiple of a
    power of two with 53 significant bits, ties going to the even one.
    (The integers of a 64-bit column are far from the largest double.) *)
Definition toDouble (z : Z) : Z :=
  let a := Z.abs z in
  if (a <? 9007199254740992)%Z then z
  else
    let e := (Z.log2 a - 52)%Z in
    let q := Z.shiftr a e in
    let r := Z.land a (Z.ones e) in
    let half := Z.shiftl 1 (e - 1) in
    let up :=
      if (half <? r)%Z then true
      else if (r =? half)%Z then Z.odd q
      else false in
    (Z.sgn z * Z.shiftl (if up then q + 1 else q) e)%Z.

(** The strings on which the ASCII table above is all of
    [toLowerCase]: those without a byte outside the ASCII range. *)
Fixpoint isAscii (s : string) : bool :=
  match s with
  | EmptyString => true
  | String c r => Nat.ltb (nat_of_ascii c) 128 && isAscii r
  end.

(** [a === b] on optional strings ([null === null] holds). *)
Definition opt_eqb (a b : option string) : bool :=
  match a, b with
  | Some x, Some y => String.eqb x y
  | None, None => true
  | _, _ => false
  end.

(** [Array.prototype.includes] on an array of strings. *)
Definition includes (l : list string) (x : string) : bool :=
  existsb (String.eqb x) l.

(** [Array.prototype.join] on an array of strings. *)
Fixpoint join (sep : string) (l : list string) : string :=
  match l with
  | [] => EmptyString
  | [x] => x
  | x :: rest => x ++ sep ++ join sep rest
  end.

(** Decimal digits of a number, most significant first. *)
Fixpoint digits (fuel n : nat) (acc : string) : string :=
  match fuel with
  | O => acc
  | S fuel' =>
      let d := String (ascii_of_nat (48 + Nat.modulo n 10)) acc in
      match Nat.div n 10 with
      | O => d
      | q => digits fuel' q d
      end
  end.

(** [String(n)] for a natural number. *)
Definition numberToString (n : nat) : string := digits (S n) n EmptyString.

(** The values the services pass to [JSON.stringify]. *)
Inductive Json : Type :=
| JString (s : string)
| JNumber (n : nat)
| JNull
| JObject (fields : JsonFields)
with JsonFields : Type :=
| JEnd
| JField (key : string) (value : Json) (rest : JsonFields).

Definition quote : string := String (ascii_of_nat 34) EmptyString.

(** [JSON.stringify]; escaping inside string values is not modelled. *)
Fixpoint stringify (j : Json) : string :=
  match j with
  | JString s => quote ++ s ++ quote
  | JNumber n => numberToString n
  | JNull => "null"
  | JObject fields => "{" ++ join "," (stringifyFields fields) ++ "}"
  end
with stringifyFields (fields : JsonFields) : list string :=
  match fields with
  | JEnd => []
  | JField key value rest =>
      (quote ++ key ++ quote ++ ":" ++ stringify value)%string
      :: stringifyFields rest
  end.

End Js.

(* ------------------------------------------------------------------ *)
(** ** Exceptions and the service monad *)

Inductive Exception : Type :=
| NotFoundException (message : string)
| ForbiddenException (message : string)
| UnauthorizedException (message : string)
| ConflictException (message : string)
| BadRequestException (message : string)
| TypeError (message : string)
| TypeORMError (message : string)
| QueryFailedError (message : string).

Inductive Result (A : Type) : Type :=
| Ok (value : A)
| Throw (e : Exception).

Arguments Ok {A} value.
Arguments Throw {A} e.

Definition isOk {A} (r : Result A) : bool :=
  match r with Ok _ => true | Throw _ => false end.

(* ------------------------------------------------------------------ *)
(** ** libs/data: roles and permissions *)

(** [enum Role] (role.enum.ts). *)
Inductive Role : Type := OWNER | ADMIN | VIEWER.

Definition Role_value (r : Role) : string :=
  match r with
  | OWNER => "owner"
  | ADMIN => "admin"
  | VIEWER => "viewer"
  end.

Definition Role_eqb (a b : Role) : bool :=
  match a, b with
  | OWNER, OWNER | ADMIN, ADMIN | VIEWER, VIEWER => true
  | _, _ => false
  end.

(** [ROLE_HIERARCHY] and [isRoleHigherOrEqual]. *)
Definition ROLE_HIERARCHY (r : Role) : nat :=
  match r with
  | OWNER => 3
  | ADMIN => 2
  | VIEWER => 1
  end.

Definition isRoleHigherOrEqual (userRole requiredRole : Role) : bool :=
  Nat.leb (ROLE_HIERARCHY requiredRole) (ROLE_HIERARCHY userRole).

(** [enum Permission] (permission.enum.ts). *)
Inductive Permission : Type :=
| TASK_CREATE | TASK_READ | TASK_UPDATE | TASK_DELETE
| USER_CREATE | USER_READ | USER_UPDATE | USER_DELETE
| ORG_READ | ORG_UPDATE | ORG_MANAGE
| AUDIT_READ.

Definition Permission_value (p : Permission) : string :=
  match p with
  | TASK_CREATE => "task:create"
  | TASK_READ => "task:read"
  | TASK_UPDATE => "task:update"
  | TASK_DELETE => "task:delete"
  | USER_CREATE => "user:create"
  | USER_READ => "user:read"
  | USER_UPDATE => "user:update"
  | USER_DELETE => "user:delete"
  | ORG_READ => "org:read"
  | ORG_UPDATE => "org:update"
  | ORG_MANAGE => "org:manage"
  | AUDIT_READ => "audit:read"
  end.

Definition Permission_eqb (a b : Permission) : bool :=
  String.eqb (Permission_value a) (Permission_value b).

Module RoleModel.

(** What a property read [obj[key]] on the [ROLE_PERMISSIONS] object
    literal can evaluate to: [undefined], one of the permission arrays,
    or a member inherited from [Object.prototype]. *)
Inductive JsValue : Type :=
| JsUndefined
| JsArray (items : list Permission)
| JsInherited (name : string).

(** Own properties of [ROLE_PERMISSIONS], in source order. *)
Definition ROLE_PERMISSIONS : list (string * list Permission) :=
  [ ("owner",
     [ TASK_CREATE; TASK_READ; TASK_UPDATE; TASK_DELETE;
       USER_CREATE; USER_READ; USER_UPDATE; USER_DELETE;
       ORG_READ; ORG_UPDATE; ORG_MANAGE;
       AUDIT_READ ]);
    ("admin",
     [ TASK_CREATE; TASK_READ; TASK_UPDATE; TASK_DELETE;
       USER_CREATE; USER_READ; USER_UPDATE;
       ORG_READ;
       AUDIT_READ ]);
    ("viewer",
     [ TASK_READ; USER_READ; ORG_READ ]) ].

(** The members every object literal inherits from [Object.prototype];
    each of them is a function or an object, hence truthy, and none of
    them has an [includes] method. *)
Definition Object_prototype : list string :=
  [ "constructor"; "__defineGetter__"; "__defineSetter__";
    "hasOwnProperty"; "__lookupGetter__"; "__lookupSetter__";
    "isPrototypeOf"; "propertyIsEnumerable"; "toString"; "valueOf";
    "__proto__"; "toLocaleString" ].

Fixpoint own (o : list (string * list Permission)) (key : string)
  : option (list Permission) :=
  match o with
  | [] => None
  | (k, v) :: rest => if String.eqb k key then Some v else own rest key
  end.

(** [ROLE_PERMISSIONS[key]]: own properties first, then the prototype. *)
Definition get (key : string) : JsValue :=
  match own ROLE_PERMISSIONS key with
  | Some items => JsArray items
  | None =>
      if Js.includes Object_prototype key then JsInherited key
      else JsUndefined
  end.

Definition includes (items : list Permission) (p : Permission) : bool :=
  existsb (Permission_eqb p) items.

(** [hasPermission(role, permission)]:
    [const permissions = ROLE_PERMISSIONS[role.toLowerCase()];
     return permissions ? permissions.includes(permission) : false;] *)
Definition hasPermission (role : string) (permission : Permission)
  : Result bool :=
  let permissions := get (Js.toLowerCase role) in
  match permissions with
  | JsUndefined => Ok false
  | JsArray items => Ok (includes items permission)
  | JsInherited _ =>
      Throw (TypeError "permissions.includes is not a function")
  end.

(** The permission table as the specification words it (section 4.1),
    row by row; [hasPermission] above is compared with it. *)
Definition spec_permission_table (r : Role) (p : Permission) : bool :=
  match r, p with
  | OWNER, _ => true
  | ADMIN, (USER_DELETE | ORG_UPDATE | ORG_MANAGE) => false
  | ADMIN, _ => true
  | VIEWER, (TASK_READ | USER_READ | ORG_READ) => true
  | VIEWER, _ => false
  end.

End RoleModel.

(* ------------------------------------------------------------------ *)
(** ** apps/api/src/entities *)

Module Organization.
Record t : Type := mk {
  organizationId : string;
  name : string;
  description : option string;
  parentId : option string;
  createdAt : nat;
  updatedAt : nat }.
End Organization.

Module User.
Record t : Type := mk {
  userId : string;
  email : string;
  password : string;
  firstName : string;
  lastName : string;
  role : Role;
  organizationId : string;
  isActive : bool;
  createdAt : nat;
  updatedAt : nat }.
End User.

Module Task.
Record t : Type := mk {
  taskId : string;
  title : string;
  description : option string;
  status : string;
  priority : string;
  category : string;
  position : Z;
  dueDate : option nat;
  userId : string;
  organizationId : string;
  createdAt : nat;
  updatedAt : nat }.
End Task.

Module AuditLog.
Record t : Type := mk {
  auditLogId : string;
  action : string;
  resource : string;
  resourceId : option string;
  userId : option string;
  userEmail : option string;
  organizationId : option string;
  details : option string;
  ipAddress : option string;
  userAgent : option string;
  success : bool;
  errorMessage : option string;
  createdAt : nat }.
End AuditLog.

(** [IUser]: the authenticated principal handed to every service method. *)
Module IUser.
Record t : Type := mk {
  id : string;
  email : string;
  role : Role;
  organizationId : string }.
End IUser.

(* ------------------------------------------------------------------ *)
(** ** The database and the service monad *)

(** One line written by [console.log] in [AuditService.log]. *)
Record ConsoleLine : Type := mkConsoleLine {
  line_ok : bool;
  line_action : string;
  line_resource : string;
  line_user : string }.

(** The state the services act on: the four tables, whether the audit
    table accepts writes, the clock that stamps rows, the counter behind
    generated primary keys, and the console. *)
Record World : Type := mkWorld {
  organizations : list Organization.t;
  users : list User.t;
  tasks : list Task.t;
  audit_logs : list AuditLog.t;
  auditStoreAvailable : bool;
  clock : nat;
  nextId : nat;
  console : list ConsoleLine }.

Definition set_users (us : list User.t) (w : World) : World :=
  mkWorld (organizations w) us (tasks w) (audit_logs w)
          (auditStoreAvailable w) (clock w) (nextId w) (console w).

Definition set_tasks (ts : list Task.t) (w : World) : World :=
  mkWorld (organizations w) (users w) ts (audit_logs w)
          (auditStoreAvailable w) (clock w) (nextId w) (console w).

Definition set_audit_logs (ls : list AuditLog.t) (w : World) : World :=
  mkWorld (organizations w) (users w) (tasks w) ls
          (auditStoreAvailable w) (clock w) (nextId w) (console w).

Definition set_nextId (n : nat) (w : World) : World :=
  mkWorld (organizations w) (users w) (tasks w) (audit_logs w)
          (auditStoreAvailable w) (clock w) n (console w).

Definition set_console (c : list ConsoleLine) (w : World) : World :=
  mkWorld (organizations w) (users w) (tasks w) (audit_logs w)
          (auditStoreAvailable w) (clock w) (nextId w) c.

(** A service computation: state in, value or exception and state out. *)
Definition M (A : Type) : Type := World -> Result A * World.

Definition ret {A} (a : A) : M A := fun w => (Ok a, w).

Definition throw {A} (e : Exception) : M A := fun w => (Throw e, w).

Definition bind {A B} (c : M A) (k : A -> M B) : M B :=
  fun w =>
    match c w with
    | (Ok a, w') => k a w'
    | (Throw e, w') => (Throw e, w')
    end.

Definition gets {A} (f : World -> A) : M A := fun w => (Ok (f w), w).

Definition modify (f : World -> World) : M unit := fun w => (Ok tt, f w).

Declare Scope service_scope.
Delimit Scope service_scope with service.
Notation "x <- c ;; k" := (bind c (fun x => k))
  (at level 61, c at next level, right associativity) : service_scope.
Notation "c ;; k" := (bind c (fun _ => k))
  (at level 61, right associativity) : service_scope.
Local Open Scope service_scope.

(** Primary keys made by [@PrimaryGeneratedColumn('uuid')]: the counter
    written in decimal after a fixed prefix. *)
Definition uuid (n : nat) : string := "uuid-" ++ Js.numberToString n.

Definition freshId : M string :=
  n <- gets nextId ;;
  modify (set_nextId (S n)) ;;
  ret (uuid n).

(** [ORDER BY column DESC] on a date column: an insertion sort, newest
    first. *)
Fixpoint insertDesc {A} (key : A -> nat) (e : A) (l : list A) : list A :=
  match l with
  | [] => [e]
  | x :: rest =>
      if Nat.ltb (key x) (key e)
      then e :: x :: rest
      else x :: insertDesc key e rest
  end.

Definition orderByDesc {A} (key : A -> nat) (l : list A) : list A :=
  fold_right (insertDesc key) [] l.

(** [ORDER BY column ASC] on a numeric column. *)
Fixpoint insertAsc {A} (key : A -> Z) (e : A) (l : list A) : list A :=
  match l with
  | [] => [e]
  | x :: rest =>
      if Z.ltb (key e) (key x)
      then e :: x :: rest
      else x :: insertAsc key e rest
  end.

Definition orderByAsc {A} (key : A -> Z) (l : list A) : list A :=
  fold_right (insertAsc key) [] l.

(** [.skip((page - 1) * limit).take(limit)], which reaches SQLite as
    [LIMIT limit OFFSET (page - 1) * limit]: an offset below zero is read
    as zero, and a limit below zero is no limit at all (every row from the
    offset on is returned); a limit of zero returns no row. *)
Definition paginate {A} (page limit : Z) (rows : list A) : list A :=
  let rest := skipn (Z.to_nat ((page - 1) * limit)) rows in
  if (limit <? 0)%Z then rest else firstn (Z.to_nat limit) rest.

(* ------------------------------------------------------------------ *)
(** ** External libraries *)

Module IJwtPayload.
Record t : Type := mk {
  sub : string;
  email : string;
  role : Role;
  organizationId : string }.
End IJwtPayload.

(** What the services call and this repository does not define:
    [bcrypt.hash(p, await bcrypt.genSalt(10))], [bcrypt.compare],
    [JwtService.sign] and the [LIKE] operator of the database. *)
Class Libraries : Type := {
  bcrypt_hash : string -> string;
  bcrypt_compare : string -> string -> bool;
  jwt_sign : IJwtPayload.t -> string;
  sql_like : string -> string -> bool }.

(* ------------------------------------------------------------------ *)
(** ** Repository calls on the organizations table *)

Module OrganizationRepository.

(** [organizationRepository.find()] *)
Definition find : M (list Organization.t) := gets organizations.

Definition hasParent (parentId : string) (o : Organization.t) : bool :=
  Js.opt_eqb (Organization.parentId o) (Some parentId).

(** [organizationRepository.find({ where: { parentId } })] *)
Definition find_where_parentId (parentId : string)
  : M (list Organization.t) :=
  gets (fun w => filter (hasParent parentId) (organizations w)).

Definition hasId (organizationId : string) (o : Organization.t) : bool :=
  String.eqb (Organization.organizationId o) organizationId.

(** [organizationRepository.findOne({ where: { organizationId } })] *)
Definition findOne_where_organizationId (organizationId : string)
  : M (option Organization.t) :=
  gets (fun w => List.find (hasId organizationId) (organizations w)).

End OrganizationRepository.

(* ------------------------------------------------------------------ *)
(** ** apps/api/src/audit/audit.service.ts *)

Module LogEntry.
Record t : Type := mk {
  action : string;
  resource : string;
  resourceId : option string;
  userId : option string;
  userEmail : option string;
  organizationId : option string;
  details : option string;
  ipAddress : option string;
  userAgent : option string;
  success : option bool;
  errorMessage : option string }.
End LogEntry.

Module AuditQueryOptions.
Record t : Type := mk {
  action : option string;
  resource : option string;
  userId : option string;
  startDate : option nat;
  endDate : option nat;
  page : option Z;
  limit : option Z }.

(** The same paging with every filter parameter left out. *)
Definition withoutFilters (o : t) : t :=
  mk None None None None None (page o) (limit o).

(** The same query at another page. *)
Definition withPage (p : Z) (o : t) : t :=
  mk (action o) (resource o) (userId o) (startDate o) (endDate o)
     (Some p) (limit o).

Definition empty : t := mk None None None None None None None.
End AuditQueryOptions.

Module AuditService.

(** [auditLogRepository.create({...})] of [log]: the row before the store
    gives it its key and its creation date. *)
Definition create (entry : LogEntry.t) (auditLogId : string) (createdAt : nat)
  : AuditLog.t :=
  AuditLog.mk auditLogId
    (LogEntry.action entry)
    (LogEntry.resource entry)
    (Js.orNull (LogEntry.resourceId entry))
    (Js.orNull (LogEntry.userId entry))
    (Js.orNull (LogEntry.userEmail entry))
    (Js.orNull (LogEntry.organizationId entry))
    (Js.orNull (LogEntry.details entry))
    (Js.orNull (LogEntry.ipAddress entry))
    (Js.orNull (LogEntry.userAgent entry))
    (match LogEntry.success entry with Some b => b | None => true end)
    (Js.orNull (LogEntry.errorMessage entry))
    createdAt.

(** [auditLogRepository.save(auditLog)]: appends the row, or rejects and
    writes nothing when the table is not available. *)
Definition auditLogRepository_save (row : string -> nat -> AuditLog.t)
  : M AuditLog.t :=
  fun w =>
    if auditStoreAvailable w then
      let saved := row (uuid (nextId w)) (clock w) in
      (Ok saved,
       set_nextId (S (nextId w)) (set_audit_logs (audit_logs w ++ [saved]) w))
    else (Throw (QueryFailedError "audit_logs: write failed"), w).

Definition console_log (l : ConsoleLine) : M unit :=
  modify (fun w => set_console (console w ++ [l]) w).

(** [async log(entry: LogEntry): Promise<AuditLog>] *)
Definition log (entry : LogEntry.t) : M AuditLog.t :=
  saved <- auditLogRepository_save (create entry) ;;
  console_log
    (mkConsoleLine
       (match LogEntry.success entry with Some false => false | _ => true end)
       (LogEntry.action entry)
       (LogEntry.resource entry)
       (match Js.orNull (LogEntry.userEmail entry) with
        | Some e => e
        | None => "anonymous"
        end)) ;;
  ret saved.

(** [ORDER BY audit.created_at DESC] *)
Definition orderByCreatedAtDesc (l : list AuditLog.t) : list AuditLog.t :=
  orderByDesc AuditLog.createdAt l.

(** [audit.organization_id = :orgId] *)
Definition inOrganization (orgId : string) (e : AuditLog.t) : bool :=
  Js.opt_eqb (AuditLog.organizationId e) (Some orgId).

(** The scope restriction of every query of the service:
    [if (currentUser.role !== Role.OWNER) where organization_id = orgId]. *)
Definition scopeClause (currentUser : IUser.t) (e : AuditLog.t) : bool :=
  if negb (Role_eqb (IUser.role currentUser) OWNER)
  then inOrganization (IUser.organizationId currentUser) e
  else true.

(** One [if (x) queryBuilder.andWhere(...)] on a string parameter. *)
Definition andWhereString (param : option string) (column : AuditLog.t -> option string)
  (e : AuditLog.t) : bool :=
  match param with
  | Some v => if Js.truthy v then Js.opt_eqb (column e) (Some v) else true
  | None => true
  end.

(** The [andWhere] clauses of [findAll], in source order.  The two date
    clauses compare text: the column [created_at] holds its default,
    [datetime('now')], written to the second, and the [Date] of the
    parameter is written with its milliseconds after the seconds; within
    one second the column is a proper prefix of the parameter and so the
    lesser text.  With dates counted in whole seconds,
    [created_at >= :startDate] therefore leaves out the entries of the
    second of [startDate], and [created_at <= :endDate] keeps those of
    the second of [endDate]. *)
Definition filterClause (options : AuditQueryOptions.t) (e : AuditLog.t) : bool :=
  andWhereString (AuditQueryOptions.action options)
    (fun e => Some (AuditLog.action e)) e
  && andWhereString (AuditQueryOptions.resource options)
    (fun e => Some (AuditLog.resource e)) e
  && andWhereString (AuditQueryOptions.userId options) AuditLog.userId e
  && match AuditQueryOptions.startDate options with
     | Some d => Nat.ltb d (AuditLog.createdAt e)
     | None => true
     end
  && match AuditQueryOptions.endDate options with
     | Some d => Nat.leb (AuditLog.createdAt e) d
     | None => true
     end.

(** The rows the query of [findAll] selects, ordered, before paging; their
    number is the [total] of [getManyAndCount]. *)
Definition findAll_rows (options : AuditQueryOptions.t) (currentUser : IUser.t)
  (w : World) : list AuditLog.t :=
  orderByCreatedAtDesc
    (filter (fun e => scopeClause currentUser e && filterClause options e)
       (audit_logs w)).

Definition pageOf (options : AuditQueryOptions.t) : Z :=
  match AuditQueryOptions.page options with Some p => p | None => 1%Z end.

Definition limitOf (options : AuditQueryOptions.t) : Z :=
  match AuditQueryOptions.limit options with Some l => l | None => 50%Z end.

(** [async findAll(options, currentUser)] returns [{ data, total }]. *)
Definition findAll (options : AuditQueryOptions.t) (currentUser : IUser.t)
  : M (list AuditLog.t * nat) :=
  rows <- gets (findAll_rows options currentUser) ;;
  ret (paginate (pageOf options) (limitOf options) rows, List.length rows).

(** [action = 'LOGIN_FAILED' AND success = false] *)
Definition isFailedLogin (e : AuditLog.t) : bool :=
  String.eqb (AuditLog.action e) "LOGIN_FAILED"
  && Bool.eqb (AuditLog.success e) false.

(** [async getFailedLogins(currentUser)] *)
Definition getFailedLogins (currentUser : IUser.t) : M (list AuditLog.t) :=
  rows <- gets (fun w =>
    orderByCreatedAtDesc
      (filter (fun e => isFailedLogin e && scopeClause currentUser e)
         (audit_logs w))) ;;
  ret (firstn 50 rows).

(** What a caller hands to a method for [currentUser].  The type
    [IUser] is erased at run time: [AuditController.getFailedLogins] hands
    over the [email] of the query string, a string or [undefined]. *)
Inductive CurrentUserArgument : Type :=
| ArgUndefined
| ArgString (s : string)
| ArgUser (user : IUser.t).

(** [currentUser.role]: reading a property of [undefined] throws; a
    string has no such property and the read gives [undefined] ([None]). *)
Definition roleOf (currentUser : CurrentUserArgument) : Result (option Role) :=
  match currentUser with
  | ArgUndefined =>
      Throw (TypeError "Cannot read properties of undefined (reading 'role')")
  | ArgString _ => Ok None
  | ArgUser user => Ok (Some (IUser.role user))
  end.

(** [currentUser.organizationId], read after [currentUser.role]. *)
Definition organizationIdOf (currentUser : CurrentUserArgument) : option string :=
  match currentUser with
  | ArgUser user => Some (IUser.organizationId user)
  | _ => None
  end.

(** [async getFailedLogins(currentUser)] as it runs on whatever it is
    called with.  [undefined !== Role.OWNER] holds, and with [orgId]
    [undefined] the clause [audit.organization_id = :orgId] compares with
    [NULL] and selects no row. *)
Definition getFailedLogins_at_run_time (currentUser : CurrentUserArgument)
  : M (list AuditLog.t) :=
  match roleOf currentUser with
  | Throw e => throw e
  | Ok role =>
      rows <- gets (fun w =>
        orderByCreatedAtDesc
          (filter
             (fun e =>
                isFailedLogin e
                && (if negb match role with
                            | Some r => Role_eqb r OWNER
                            | None => false
                            end
                    then match organizationIdOf currentUser with
                         | Some orgId => inOrganization orgId e
                         | None => false
                         end
                    else true))
             (audit_logs w))) ;;
      ret (firstn 50 rows)
  end.

(** [user_id = :userId], compared as SQL does: [NULL] equals nothing. *)
Definition byUser (userId : string) (e : AuditLog.t) : bool :=
  Js.opt_eqb (AuditLog.userId e) (Some userId).

(** [resource = :resourceType AND resource_id = :resourceId] *)
Definition ofResource (resourceType resourceId : string) (e : AuditLog.t) : bool :=
  String.eqb (AuditLog.resource e) resourceType
  && Js.opt_eqb (AuditLog.resourceId e) (Some resourceId).

(** [async findByResource(resourceType, resourceId, currentUser)] *)
Definition findByResource (resourceType resourceId : string)
  (currentUser : IUser.t) : M (list AuditLog.t) :=
  gets (fun w =>
    orderByCreatedAtDesc
      (filter (fun e => ofResource resourceType resourceId e
                        && scopeClause currentUser e)
         (audit_logs w))).

(** [async findByUser(userId, currentUser)] *)
Definition findByUser (userId : string) (currentUser : IUser.t)
  : M (list AuditLog.t) :=
  rows <- gets (fun w =>
    orderByCreatedAtDesc
      (filter (fun e => byUser userId e && scopeClause currentUser e)
         (audit_logs w))) ;;
  ret (firstn 100 rows).

(** [audit.action IN ('LOGIN', 'LOGOUT', 'LOGIN_FAILED')] *)
Definition isLoginEvent (e : AuditLog.t) : bool :=
  Js.includes ["LOGIN"; "LOGOUT"; "LOGIN_FAILED"] (AuditLog.action e).

(** [async getLoginHistory(userId, currentUser)] *)
Definition getLoginHistory (userId : string) (currentUser : IUser.t)
  : M (list AuditLog.t) :=
  rows <- gets (fun w =>
    orderByCreatedAtDesc
      (filter (fun e => byUser userId e && isLoginEvent e
                        && scopeClause currentUser e)
         (audit_logs w))) ;;
  ret (firstn 50 rows).

End AuditService.

(* ------------------------------------------------------------------ *)
(** ** libs/auth guards and the failed-logins route *)

Module Guards.

(** [Reflector.getAllAndOverride(key, [handler, class])]: the handler's
    metadata when it has some, else the class's. *)
Definition getAllAndOverride {A} (handler class : option A) : option A :=
  match handler with
  | Some m => Some m
  | None => class
  end.

(** What [JwtAuthGuard.handleRequest] does with the outcome of the
    strategy: no user, no request. *)
Definition JwtAuthGuard (requestUser : option IUser.t) : Result IUser.t :=
  match requestUser with
  | Some user => Ok user
  | None => Throw (UnauthorizedException "Authentication required")
  end.

(** [RolesGuard.canActivate] *)
Definition RolesGuard (requiredRoles : option (list Role))
  (requestUser : option IUser.t) : Result bool :=
  match requiredRoles with
  | None | Some [] => Ok true
  | Some roles =>
      match requestUser with
      | None => Throw (ForbiddenException "User not authenticated")
      | Some user =>
          let hasRole :=
            existsb (fun requiredRole =>
                       if Role_eqb (IUser.role user) requiredRole then true
                       else isRoleHigherOrEqual (IUser.role user) requiredRole)
                    roles in
          if negb hasRole then
            Throw (ForbiddenException
                     ("Access denied. Required role: "
                      ++ Js.join " or " (map Role_value roles)
                      ++ ". Your role: " ++ Role_value (IUser.role user)))
          else Ok true
      end
  end.

(** [PermissionsGuard.canActivate]: [ROLE_PERMISSIONS[user.role] || []],
    then every required permission must be in it. *)
Definition PermissionsGuard (requiredPermissions : option (list Permission))
  (requestUser : option IUser.t) : Result bool :=
  match requiredPermissions with
  | None | Some [] => Ok true
  | Some required =>
      match requestUser with
      | None => Throw (ForbiddenException "User not authenticated")
      | Some user =>
          match RoleModel.get (Role_value (IUser.role user)) with
          | RoleModel.JsInherited _ =>
              Throw (TypeError "userPermissions.includes is not a function")
          | permissions =>
              let userPermissions :=
                match permissions with
                | RoleModel.JsArray items => items
                | _ => []
                end in
              let hasAllPermissions :=
                forallb (RoleModel.includes userPermissions) required in
              if negb hasAllPermissions then
                let missingPermissions :=
                  filter (fun p => negb (RoleModel.includes userPermissions p))
                    required in
                Throw (ForbiddenException
                         ("Missing permissions: "
                          ++ Js.join ", " (map Permission_value missingPermissions)))
              else Ok true
          end
      end
  end.

(** [JwtStrategy.validate(payload)]: the principal attached to the
    request.  The role of the payload is one of the enum and so never
    falsy. *)
Definition JwtStrategy_validate (payload : IJwtPayload.t) : Result IUser.t :=
  if negb (Js.truthy (IJwtPayload.sub payload))
     || negb (Js.truthy (IJwtPayload.organizationId payload))
  then Throw (UnauthorizedException "Invalid token payload")
  else Ok (IUser.mk (IJwtPayload.sub payload) (IJwtPayload.email payload)
             (IJwtPayload.role payload) (IJwtPayload.organizationId payload)).

End Guards.

(** [IApiResponse<T>]: the envelope every controller answers with. *)
Module IApiResponse.
Record t (T : Type) : Type := mk {
  success : bool;
  data : T;
  message : string }.
Arguments mk {T} success data message.
Arguments success {T} t.
Arguments data {T} t.
Arguments message {T} t.
End IApiResponse.

Module AuditController.

(** [@Roles(Role.OWNER, Role.ADMIN)] on the controller class. *)
Definition classRoles : option (list Role) := Some [OWNER; ADMIN].

(** [@Roles(Role.OWNER)] on [getFailedLogins]. *)
Definition getFailedLogins_roles : option (list Role) := Some [OWNER].

(** [GET /audit-log/failed-logins] behind
    [@UseGuards(JwtAuthGuard, RolesGuard)]: the guards run in order, and
    the handler runs only when both let the request through.  The handler
    takes [email] and [hours] from the query string and calls
    [this.auditService.getFailedLogins(email, hoursNum)]: the method
    declares one parameter, [currentUser], and so runs with [email] in
    its place; [hoursNum] ([parseInt(hours)], or 24) is a second argument
    that the method never reads. *)
Definition getFailedLogins (requestUser : option IUser.t)
  (email hours : option string) : M (IApiResponse.t (list AuditLog.t)) :=
  match Guards.JwtAuthGuard requestUser with
  | Throw e => throw e
  | Ok user =>
      match Guards.RolesGuard
              (Guards.getAllAndOverride getFailedLogins_roles classRoles)
              (Some user) with
      | Throw e => throw e
      | Ok false => throw (ForbiddenException "Forbidden resource")
      | Ok true =>
          logs <- AuditService.getFailedLogins_at_run_time
                    match email with
                    | Some s => AuditService.ArgString s
                    | None => AuditService.ArgUndefined
                    end ;;
          ret (IApiResponse.mk true logs
                 "Failed login attempts retrieved successfully")
      end
  end.

End AuditController.

(* ------------------------------------------------------------------ *)
(** ** apps/api/src/tasks/tasks.service.ts *)

Module CreateTaskDto.
Record t : Type := mk {
  title : string;
  description : option string;
  priority : option string;
  category : option string;
  dueDate : option nat }.
End CreateTaskDto.

(** [UpdateTaskDto]: every field optional; [dueDate] and [assignedToId]
    may also be sent as [null]. *)
Module UpdateTaskDto.
Record t : Type := mk {
  title : option string;
  description : option string;
  status : option string;
  priority : option string;
  category : option string;
  dueDate : option (option nat);
  assignedToId : option (option string);
  position : option Z }.
End UpdateTaskDto.

(** [TaskQueryDto] with the fields [TasksService.findAll] reads. *)
Module TaskQueryDto.
Record t : Type := mk {
  status : option string;
  priority : option string;
  category : option string;
  search : option string;
  page : option Z;
  limit : option Z }.

Definition empty : t := mk None None None None None None.
End TaskQueryDto.

(** [TaskPositionDto] *)
Module TaskPositionDto.
Record t : Type := mk {
  id : string;
  position : Z }.
End TaskPositionDto.

(** The object [reorder] is called with.  The class [ReorderTasksDto]
    declares [tasks] only; [taskIds] is the property [reorder] reads, and
    [None] is [undefined]: what the read gives on an object of the class. *)
Module ReorderTasksDto.
Record t : Type := mk {
  tasks : list TaskPositionDto.t;
  taskIds : option (list string) }.
End ReorderTasksDto.

(** [ITask]: what [toTaskResponse] answers with. *)
Module ITask.
Record userRef : Type := mkOwner {
  owner_id : string;
  owner_email : string;
  owner_firstName : string;
  owner_lastName : string }.

Record organizationRef : Type := mkOrganization {
  organization_id : string;
  organization_name : string }.

Record t : Type := mk {
  id : string;
  title : string;
  description : option string;
  status : string;
  priority : string;
  category : string;
  position : Z;
  dueDate : option nat;
  userId : string;
  user : option userRef;
  organizationId : string;
  organization : option organizationRef;
  createdAt : nat;
  updatedAt : nat }.
End ITask.

(** What [getStats] answers with.  A [Record<string, number>] is kept as
    its own entries in insertion order; the value of an entry is a number
    or, once [+] has met a member inherited from [Object.prototype], a
    string. *)
Module TaskStats.
Inductive Count : Type :=
  | Number (n : nat)
  | Text (s : string).

Record t : Type := mk {
  total : nat;
  byStatus : list (string * Count);
  byPriority : list (string * Count);
  overdue : nat }.
End TaskStats.

Inductive TaskAction : Type := read | update | delete.

Definition TaskAction_eqb (a b : TaskAction) : bool :=
  match a, b with
  | read, read | update, update | delete, delete => true
  | _, _ => false
  end.

Module TasksService.

Definition inOrganization (orgId : string) (t : Task.t) : bool :=
  String.eqb (Task.organizationId t) orgId.

(** [SELECT MAX(task.position) ... WHERE task.organization_id = :orgId];
    [None] is SQL [NULL], the maximum of no row. *)
Definition maxPosition (orgId : string) (w : World) : option Z :=
  fold_left
    (fun acc t =>
       match acc with
       | None => Some (Task.position t)
       | Some m => Some (Z.max m (Task.position t))
       end)
    (filter (inOrganization orgId) (tasks w)) None.

(** [(maxPosition?.max || 0) + 1]: the maximum comes out of the driver
    as a JavaScript number and the sum is one. *)
Definition nextPosition (max : option Z) : Z :=
  Js.toDouble
    (match max with
     | Some m => if Z.eqb (Js.toDouble m) 0 then 0 else Js.toDouble m
     | None => 0
     end + 1)%Z.

(** [taskRepository.save(task)] of a new entity: the store gives the key
    and both dates, and the column defaults fill what the DTO left out. *)
Definition taskRepository_insert (dto : CreateTaskDto.t) (userId organizationId : string)
  (position : Z) : M Task.t :=
  taskId <- freshId ;;
  now <- gets clock ;;
  let saved :=
    Task.mk taskId
      (CreateTaskDto.title dto)
      (CreateTaskDto.description dto)
      "todo"
      (match CreateTaskDto.priority dto with Some p => p | None => "medium" end)
      (match CreateTaskDto.category dto with Some c => c | None => "work" end)
      position
      (CreateTaskDto.dueDate dto)
      userId organizationId now now in
  modify (fun w => set_tasks (tasks w ++ [saved]) w) ;;
  ret saved.

(** [JSON.stringify({ title: savedTask.title })] *)
Definition details_title (title : string) : option string :=
  Some (Js.stringify (Js.JObject (Js.JField "title" (Js.JString title) Js.JEnd))).

(** [async create(createTaskDto, user)] *)
Definition create (createTaskDto : CreateTaskDto.t) (user : IUser.t) : M Task.t :=
  max <- gets (maxPosition (IUser.organizationId user)) ;;
  savedTask <- taskRepository_insert createTaskDto (IUser.id user)
                 (IUser.organizationId user) (nextPosition max) ;;
  AuditService.log
    (LogEntry.mk "TASK_CREATED" "task"
       (Some (Task.taskId savedTask))
       (Some (IUser.id user))
       (Some (IUser.email user))
       (Some (IUser.organizationId user))
       (details_title (Task.title savedTask))
       None None
       (Some true)
       None) ;;
  ret savedTask.

(** [private async getAccessibleOrganizationIds(user)] *)
Definition getAccessibleOrganizationIds (user : IUser.t) : M (list string) :=
  if Role_eqb (IUser.role user) OWNER then
    orgs <- OrganizationRepository.find ;;
    ret (map Organization.organizationId orgs)
  else
    childOrgs <- OrganizationRepository.find_where_parentId
                   (IUser.organizationId user) ;;
    ret ([IUser.organizationId user]
         ++ map Organization.organizationId childOrgs).

(** [private async checkTaskAccess(task, user, action)] *)
Definition checkTaskAccess (task : Task.t) (user : IUser.t) (action : TaskAction)
  : M unit :=
  if Role_eqb (IUser.role user) OWNER then ret tt
  else if Role_eqb (IUser.role user) VIEWER then
    if negb (String.eqb (Task.userId task) (IUser.id user)) then
      throw (ForbiddenException "You do not have access to this task")
    else if negb (TaskAction_eqb action read) then
      throw (ForbiddenException "Viewers cannot modify tasks")
    else ret tt
  else
    accessibleOrgIds <- getAccessibleOrganizationIds user ;;
    if negb (Js.includes accessibleOrgIds (Task.organizationId task)) then
      throw (ForbiddenException "You do not have access to this task")
    else ret tt.

Definition hasId (taskId : string) (t : Task.t) : bool :=
  String.eqb (Task.taskId t) taskId.

(** [async findOne(taskId, user)] *)
Definition findOne (taskId : string) (user : IUser.t) : M Task.t :=
  task <- gets (fun w => List.find (hasId taskId) (tasks w)) ;;
  match task with
  | None => throw (NotFoundException "Task not found")
  | Some task =>
      checkTaskAccess task user read ;;
      ret task
  end.

Definition setPosition (position : Z) (now : nat) (t : Task.t) : Task.t :=
  Task.mk (Task.taskId t) (Task.title t) (Task.description t) (Task.status t)
    (Task.priority t) (Task.category t) position (Task.dueDate t)
    (Task.userId t) (Task.organizationId t) (Task.createdAt t) now.

(** [taskRepository.update(taskId, { position })]: with the empty
    string for criteria the call rejects; otherwise it is an
    [UPDATE ... WHERE task_id = :taskId], and a key that matches no row
    changes nothing. *)
Definition taskRepository_update (taskId : string) (position : Z) : M unit :=
  if negb (Js.truthy taskId) then
    throw (TypeORMError "Empty criteria(s) are not allowed for the update method.")
  else
    modify (fun w =>
      set_tasks
        (map (fun t => if hasId taskId t then setPosition position (clock w) t else t)
             (tasks w)) w).

(** The body of the [for] loop of [reorder], from index [i] on. *)
Fixpoint reorder_loop (i : nat) (taskIds : list string) : M unit :=
  match taskIds with
  | [] => ret tt
  | taskId :: rest =>
      taskRepository_update taskId (Z.of_nat i) ;;
      reorder_loop (S i) rest
  end.

(** [JSON.stringify({ count: taskIds.length })] *)
Definition details_count (n : nat) : option string :=
  Some (Js.stringify (Js.JObject (Js.JField "count" (Js.JNumber n) Js.JEnd))).

(** [async reorder(reorderDto, user)] with [{ taskIds } = reorderDto];
    on [undefined] the read of [taskIds.length] throws. *)
Definition reorder (reorderDto : ReorderTasksDto.t) (user : IUser.t) : M unit :=
  match ReorderTasksDto.taskIds reorderDto with
  | None =>
      throw (TypeError "Cannot read properties of undefined (reading 'length')")
  | Some taskIds =>
      reorder_loop 0 taskIds ;;
      AuditService.log
        (LogEntry.mk "TASKS_REORDERED" "task"
           None
           (Some (IUser.id user))
           (Some (IUser.email user))
           (Some (IUser.organizationId user))
           (details_count (List.length taskIds))
           None None
           (Some true)
           None) ;;
      ret tt
  end.

(** [leftJoinAndSelect('task.user', 'user')] *)
Definition joinUser (t : Task.t) (w : World) : option ITask.userRef :=
  option_map
    (fun u => ITask.mkOwner (User.userId u) (User.email u)
                (User.firstName u) (User.lastName u))
    (List.find (fun u => String.eqb (User.userId u) (Task.userId t)) (users w)).

(** [leftJoinAndSelect('task.organization', 'organization')] *)
Definition joinOrganization (t : Task.t) (w : World)
  : option ITask.organizationRef :=
  option_map
    (fun o => ITask.mkOrganization (Organization.organizationId o)
                (Organization.name o))
    (List.find (OrganizationRepository.hasId (Task.organizationId t))
       (organizations w)).

(** [private toTaskResponse(task)] for a task loaded with both
    relations. *)
Definition toTaskResponse (t : Task.t) (w : World) : ITask.t :=
  ITask.mk (Task.taskId t) (Task.title t) (Task.description t)
    (Task.status t) (Task.priority t) (Task.category t) (Task.position t)
    (Task.dueDate t) (Task.userId t) (joinUser t w)
    (Task.organizationId t) (joinOrganization t w)
    (Task.createdAt t) (Task.updatedAt t).

(** The first [where] of [findAll] and [getStats]: a VIEWER's own tasks,
    anybody else's accessible organizations. *)
Definition visibleTo (user : IUser.t) (accessibleOrgIds : list string)
  (t : Task.t) : bool :=
  if Role_eqb (IUser.role user) VIEWER
  then String.eqb (Task.userId t) (IUser.id user)
  else Js.includes accessibleOrgIds (Task.organizationId t).

(** One [if (x) queryBuilder.andWhere('task.column = :x')]. *)
Definition andWhereEq (param : option string) (column : Task.t -> string)
  (t : Task.t) : bool :=
  match param with
  | Some v => if Js.truthy v then String.eqb (column t) v else true
  | None => true
  end.

(** [(task.title LIKE :search OR task.description LIKE :search)]; a
    missing description matches nothing. *)
Definition matchesSearch `{Libraries} (search : option string) (t : Task.t)
  : bool :=
  match search with
  | Some s =>
      if Js.truthy s then
        let pattern := ("%" ++ s ++ "%")%string in
        sql_like pattern (Task.title t)
        || match Task.description t with
           | Some d => sql_like pattern d
           | None => false
           end
      else true
  | None => true
  end.

Definition matchesQuery `{Libraries} (query : TaskQueryDto.t) (t : Task.t)
  : bool :=
  andWhereEq (TaskQueryDto.status query) Task.status t
  && andWhereEq (TaskQueryDto.priority query) Task.priority t
  && andWhereEq (TaskQueryDto.category query) Task.category t
  && matchesSearch (TaskQueryDto.search query) t.

(** The rows the query of [findAll] selects, by position, before
    paging. *)
Definition findAll_rows `{Libraries} (query : TaskQueryDto.t) (user : IUser.t)
  (accessibleOrgIds : list string) (w : World) : list Task.t :=
  orderByAsc Task.position
    (filter (fun t => visibleTo user accessibleOrgIds t && matchesQuery query t)
       (tasks w)).

(** [async findAll(query, user)] returns [{ data, total }]. *)
Definition findAll `{Libraries} (query : TaskQueryDto.t) (user : IUser.t)
  : M (list ITask.t * nat) :=
  let page := match TaskQueryDto.page query with Some p => p | None => 1%Z end in
  let limit := match TaskQueryDto.limit query with Some l => l | None => 20%Z end in
  accessibleOrgIds <- getAccessibleOrganizationIds user ;;
  w <- gets (fun w => w) ;;
  let rows := findAll_rows query user accessibleOrgIds w in
  ret (map (fun t => toTaskResponse t w) (paginate page limit rows),
       List.length rows).

(** [Object.assign(task, updateTaskDto)].  The entity has no column for
    [assignedToId]: the property the assignment puts on the object is not
    written by [save] and not read by [toTaskResponse]. *)
Definition assign (task : Task.t) (dto : UpdateTaskDto.t) : Task.t :=
  Task.mk (Task.taskId task)
    (match UpdateTaskDto.title dto with Some x => x | None => Task.title task end)
    (match UpdateTaskDto.description dto with
     | Some x => Some x
     | None => Task.description task
     end)
    (match UpdateTaskDto.status dto with Some x => x | None => Task.status task end)
    (match UpdateTaskDto.priority dto with Some x => x | None => Task.priority task end)
    (match UpdateTaskDto.category dto with Some x => x | None => Task.category task end)
    (match UpdateTaskDto.position dto with Some x => x | None => Task.position task end)
    (match UpdateTaskDto.dueDate dto with Some x => x | None => Task.dueDate task end)
    (Task.userId task) (Task.organizationId task)
    (Task.createdAt task) (Task.updatedAt task).

Definition setUpdatedAt (now : nat) (t : Task.t) : Task.t :=
  Task.mk (Task.taskId t) (Task.title t) (Task.description t) (Task.status t)
    (Task.priority t) (Task.category t) (Task.position t) (Task.dueDate t)
    (Task.userId t) (Task.organizationId t) (Task.createdAt t) now.

(** [UPDATE tasks SET ... WHERE task_id = :taskId] on one row. *)
Definition replaceRow (taskId : string) (saved : Task.t) (t : Task.t) : Task.t :=
  if hasId taskId t then saved else t.

Definition date_eqb (a b : option nat) : bool :=
  match a, b with
  | Some x, Some y => Nat.eqb x y
  | None, None => true
  | _, _ => false
  end.

(** [save] compares the entity with the stored row, column by column,
    over the columns the entity can be assigned: the key, the relations
    and the two dates the store keeps are not among them. *)
Definition sameColumns (stored task : Task.t) : bool :=
  String.eqb (Task.title stored) (Task.title task)
  && Js.opt_eqb (Task.description stored) (Task.description task)
  && String.eqb (Task.status stored) (Task.status task)
  && String.eqb (Task.priority stored) (Task.priority task)
  && String.eqb (Task.category stored) (Task.category task)
  && Z.eqb (Task.position stored) (Task.position task)
  && date_eqb (Task.dueDate stored) (Task.dueDate task).

(** [taskRepository.save(task)].  [save] reads the row with the key of
    the entity.  When there is one and no column differs, it issues no
    statement and the entity is returned as it is, [updatedAt] included;
    when a column differs it issues the [UPDATE], which also sets
    [updated_at], and the entity comes back with the new date.  An entity
    whose key is in no row is inserted. *)
Definition taskRepository_save (task : Task.t) : M Task.t :=
  stored <- gets (fun w => List.find (hasId (Task.taskId task)) (tasks w)) ;;
  match stored with
  | Some row =>
      if sameColumns row task then ret task
      else
        now <- gets clock ;;
        let saved := setUpdatedAt now task in
        modify (fun w =>
          set_tasks (map (replaceRow (Task.taskId task) saved) (tasks w)) w) ;;
        ret saved
  | None =>
      modify (fun w => set_tasks (tasks w ++ [task]) w) ;;
      ret task
  end.

(** [taskRepository.remove(task)]: [DELETE FROM tasks WHERE task_id]. *)
Definition taskRepository_remove (task : Task.t) : M unit :=
  modify (fun w =>
    set_tasks (filter (fun t => negb (hasId (Task.taskId task) t)) (tasks w)) w).

Definition titleAndStatus (title status : string) : Js.Json :=
  Js.JObject
    (Js.JField "title" (Js.JString title)
    (Js.JField "status" (Js.JString status)
     Js.JEnd)).

(** [async update(taskId, updateTaskDto, user)] *)
Definition update (taskId : string) (updateTaskDto : UpdateTaskDto.t)
  (user : IUser.t) : M ITask.t :=
  task <- gets (fun w => List.find (hasId taskId) (tasks w)) ;;
  match task with
  | None => throw (NotFoundException "Task not found")
  | Some task =>
      checkTaskAccess task user update ;;
      let oldValues := titleAndStatus (Task.title task) (Task.status task) in
      let task := assign task updateTaskDto in
      updatedTask <- taskRepository_save task ;;
      AuditService.log
        (LogEntry.mk "TASK_UPDATED" "task"
           (Some (Task.taskId task))
           (Some (IUser.id user))
           (Some (IUser.email user))
           (Some (IUser.organizationId user))
           (Some (Js.stringify
                    (Js.JObject
                       (Js.JField "before" oldValues
                       (Js.JField "after"
                          (titleAndStatus (Task.title updatedTask)
                             (Task.status updatedTask))
                        Js.JEnd)))))
           None None
           (Some true)
           None) ;;
      w <- gets (fun w => w) ;;
      ret (toTaskResponse updatedTask w)
  end.

(** [async remove(taskId, user)] *)
Definition remove (taskId : string) (user : IUser.t) : M unit :=
  task <- gets (fun w => List.find (hasId taskId) (tasks w)) ;;
  match task with
  | None => throw (NotFoundException "Task not found")
  | Some task =>
      checkTaskAccess task user delete ;;
      let taskTitle := Task.title task in
      taskRepository_remove task ;;
      AuditService.log
        (LogEntry.mk "TASK_DELETED" "task"
           (Some taskId)
           (Some (IUser.id user))
           (Some (IUser.email user))
           (Some (IUser.organizationId user))
           (details_title taskTitle)
           None None
           (Some true)
           None) ;;
      ret tt
  end.

(** [record[key]] on own properties. *)
Fixpoint getOwn (key : string) (record : list (string * TaskStats.Count))
  : option TaskStats.Count :=
  match record with
  | [] => None
  | (k, v) :: rest => if String.eqb k key then Some v else getOwn key rest
  end.

(** [record[key] = v] on own properties; a new key goes last. *)
Fixpoint setOwn (key : string) (v : TaskStats.Count)
  (record : list (string * TaskStats.Count)) : list (string * TaskStats.Count) :=
  match record with
  | [] => [(key, v)]
  | (k, old) :: rest =>
      if String.eqb k key then (k, v) :: rest
      else (k, old) :: setOwn key v rest
  end.

(** [String(Object.prototype[key])] for the members an object literal
    inherits: the prototype itself under [__proto__], a native function
    under every other name. *)
Definition inherited (key : string) : option string :=
  if String.eqb key "__proto__" then Some "[object Object]"
  else if Js.includes RoleModel.Object_prototype key then
    Some ("function "
          ++ (if String.eqb key "constructor" then "Object" else key)
          ++ "() { [native code] }")%string
  else None.

(** [(v || 0) + 1] *)
Definition orZeroPlusOne (v : TaskStats.Count) : TaskStats.Count :=
  match v with
  | TaskStats.Number n => TaskStats.Number (S n)
  | TaskStats.Text s =>
      if Js.truthy s then TaskStats.Text (s ++ "1") else TaskStats.Number 1
  end.

(** [record[key] = (record[key] || 0) + 1].  A key that is not an own
    property is looked up on [Object.prototype]: what is found there is
    truthy, [+ 1] turns it into a string, and the assignment makes it an
    own property, except under [__proto__], whose setter ignores a
    string. *)
Definition increment (key : string) (record : list (string * TaskStats.Count))
  : list (string * TaskStats.Count) :=
  match getOwn key record with
  | Some v => setOwn key (orZeroPlusOne v) record
  | None =>
      match inherited key with
      | Some text =>
          if String.eqb key "__proto__" then record
          else setOwn key (TaskStats.Text (text ++ "1")) record
      | None => setOwn key (TaskStats.Number 1) record
      end
  end.

(** [task.dueDate && new Date(task.dueDate) < now
     && task.status !== TaskStatus.DONE] *)
Definition isOverdue (now : nat) (t : Task.t) : bool :=
  match Task.dueDate t with
  | Some d => Nat.ltb d now && negb (String.eqb (Task.status t) "done")
  | None => false
  end.

(** The [for (const task of tasks)] loop of [getStats]. *)
Fixpoint getStats_loop (now : nat) (tasks : list Task.t)
  (byStatus byPriority : list (string * TaskStats.Count)) (overdue : nat)
  : list (string * TaskStats.Count) * list (string * TaskStats.Count) * nat :=
  match tasks with
  | [] => (byStatus, byPriority, overdue)
  | task :: rest =>
      getStats_loop now rest
        (increment (Task.status task) byStatus)
        (increment (Task.priority task) byPriority)
        (if isOverdue now task then S overdue else overdue)
  end.

(** [async getStats(user)] *)
Definition getStats (user : IUser.t) : M TaskStats.t :=
  accessibleOrgIds <- getAccessibleOrganizationIds user ;;
  tasks <- gets (fun w => filter (visibleTo user accessibleOrgIds) (tasks w)) ;;
  now <- gets clock ;;
  match getStats_loop now tasks
          [("TODO", TaskStats.Number 0); ("IN_PROGRESS", TaskStats.Number 0);
           ("DONE", TaskStats.Number 0)]
          [("LOW", TaskStats.Number 0); ("MEDIUM", TaskStats.Number 0);
           ("HIGH", TaskStats.Number 0); ("URGENT", TaskStats.Number 0)]
          0 with
  | (byStatus, byPriority, overdue) =>
      ret (TaskStats.mk (List.length tasks) byStatus byPriority overdue)
  end.

End TasksService.

(* ------------------------------------------------------------------ *)
(** ** apps/api/src/organizations: OrganizationsService *)

(** [IOrganization]: what [toOrganizationResponse] answers with.  A
    relation that was not loaded, or is empty, is [None]. *)
Module IOrganization.
Record ref : Type := mkRef {
  ref_id : string;
  ref_name : string }.

Record t : Type := mk {
  id : string;
  name : string;
  description : option string;
  parentId : option string;
  parent : option ref;
  children : option (list ref);
  level : nat;
  createdAt : nat;
  updatedAt : nat }.
End IOrganization.

(** The body of [POST /organizations]. *)
Module CreateOrgDto.
Record t : Type := mk {
  name : string;
  description : option string;
  parentId : option string }.
End CreateOrgDto.

(** The body of [PUT /organizations/:id]. *)
Module UpdateOrgDto.
Record t : Type := mk {
  name : option string;
  description : option string }.
End UpdateOrgDto.

Module OrganizationsService.

(** [private async getAccessibleOrganizationIds(user)] *)
Definition getAccessibleOrganizationIds (user : IUser.t) : M (list string) :=
  let orgIds := [IUser.organizationId user] in
  userOrg <- OrganizationRepository.findOne_where_organizationId
               (IUser.organizationId user) ;;
  match userOrg with
  | Some userOrg =>
      children <- OrganizationRepository.find_where_parentId
                    (IUser.organizationId user) ;;
      let orgIds := orgIds ++ map Organization.organizationId children in
      match Organization.parentId userOrg with
      | Some parentId =>
          if Js.truthy parentId then ret (orgIds ++ [parentId])
          else ret orgIds
      | None => ret orgIds
      end
  | None => ret orgIds
  end.

(** [async findOne(organizationId, currentUser)] *)
Definition findOne (organizationId : string) (currentUser : IUser.t)
  : M Organization.t :=
  organization <- OrganizationRepository.findOne_where_organizationId
                    organizationId ;;
  match organization with
  | None => throw (NotFoundException "Organization not found")
  | Some organization =>
      (if negb (Role_eqb (IUser.role currentUser) OWNER) then
         accessibleOrgIds <- getAccessibleOrganizationIds currentUser ;;
         if negb (Js.includes accessibleOrgIds organizationId) then
           throw (ForbiddenException
                    "You do not have access to this organization")
         else ret tt
       else ret tt) ;;
      ret organization
  end.

Definition toRef (o : Organization.t) : IOrganization.ref :=
  IOrganization.mkRef (Organization.organizationId o) (Organization.name o).

(** The [parent] relation of a loaded organization. *)
Definition parentOf (org : Organization.t) (w : World) : option Organization.t :=
  match Organization.parentId org with
  | Some p => List.find (OrganizationRepository.hasId p) (organizations w)
  | None => None
  end.

(** The [children] relation of a loaded organization. *)
Definition childrenOf (org : Organization.t) (w : World) : list Organization.t :=
  filter (OrganizationRepository.hasParent (Organization.organizationId org))
    (organizations w).

(** [private toOrganizationResponse(org)], given the relations the
    query loaded. *)
Definition toOrganizationResponse (org : Organization.t)
  (parent : option Organization.t) (children : option (list Organization.t))
  : IOrganization.t :=
  IOrganization.mk (Organization.organizationId org) (Organization.name org)
    (Organization.description org) (Organization.parentId org)
    (option_map toRef parent)
    (option_map (map toRef) children)
    (match Organization.parentId org with None => 0 | Some _ => 1 end)
    (Organization.createdAt org) (Organization.updatedAt org).

(** The answer for an organization loaded with
    [relations: ['parent', 'children']]. *)
Definition withRelations (w : World) (org : Organization.t) : IOrganization.t :=
  toOrganizationResponse org (parentOf org w) (Some (childrenOf org w)).

Definition createdAtKey (o : Organization.t) : Z :=
  Z.of_nat (Organization.createdAt o).

(** [async findAll(currentUser)] *)
Definition findAll (currentUser : IUser.t) : M (list IOrganization.t) :=
  if Role_eqb (IUser.role currentUser) OWNER then
    w <- gets (fun w => w) ;;
    ret (map (withRelations w) (orderByAsc createdAtKey (organizations w)))
  else
    accessibleOrgIds <- getAccessibleOrganizationIds currentUser ;;
    w <- gets (fun w => w) ;;
    ret (map (withRelations w)
           (filter (fun o => Js.includes accessibleOrgIds
                               (Organization.organizationId o))
              (organizations w))).

Definition set_organizations (os : list Organization.t) (w : World) : World :=
  mkWorld os (users w) (tasks w) (audit_logs w)
    (auditStoreAvailable w) (clock w) (nextId w) (console w).

(** [organizationRepository.save(organization)] of a new entity. *)
Definition organizationRepository_insert (name : string)
  (description parentId : option string) : M Organization.t :=
  organizationId <- freshId ;;
  now <- gets clock ;;
  let saved := Organization.mk organizationId name description parentId now now in
  modify (fun w => set_organizations (organizations w ++ [saved]) w) ;;
  ret saved.

Definition jsonOption (x : option string) : Js.Json :=
  match x with
  | Some s => Js.JString s
  | None => Js.JNull
  end.

(** [async create(data, currentUser)] *)
Definition create (data : CreateOrgDto.t) (currentUser : IUser.t)
  : M IOrganization.t :=
  if negb (Role_eqb (IUser.role currentUser) OWNER) then
    throw (ForbiddenException "Only owners can create organizations")
  else
    (match CreateOrgDto.parentId data with
     | Some parentId =>
         if Js.truthy parentId then
           parent <- OrganizationRepository.findOne_where_organizationId
                       parentId ;;
           match parent with
           | None => throw (NotFoundException "Parent organization not found")
           | Some parent =>
               match Organization.parentId parent with
               | Some _ =>
                   throw (BadRequestException
                            "Cannot create organization under a child organization (max 2 levels)")
               | None => ret tt
               end
           end
         else ret tt
     | None => ret tt
     end) ;;
    savedOrg <- organizationRepository_insert (CreateOrgDto.name data)
                  (CreateOrgDto.description data)
                  (Js.orNull (CreateOrgDto.parentId data)) ;;
    AuditService.log
      (LogEntry.mk "ORGANIZATION_CREATED" "organization"
         (Some (Organization.organizationId savedOrg))
         (Some (IUser.id currentUser))
         (Some (IUser.email currentUser))
         (Some (IUser.organizationId currentUser))
         (Some (Js.stringify
                  (Js.JObject
                     (Js.JField "name" (Js.JString (Organization.name savedOrg))
                     (Js.JField "parentId"
                        (jsonOption (Organization.parentId savedOrg))
                      Js.JEnd)))))
         None None
         (Some true)
         None) ;;
    ret (toOrganizationResponse savedOrg None None).

Definition replaceRow (organizationId : string) (saved : Organization.t)
  (o : Organization.t) : Organization.t :=
  if OrganizationRepository.hasId organizationId o then saved else o.

(** [organizationRepository.save(organization)] of a loaded entity. *)
Definition organizationRepository_save (organization : Organization.t)
  : M Organization.t :=
  now <- gets clock ;;
  let saved :=
    Organization.mk (Organization.organizationId organization)
      (Organization.name organization) (Organization.description organization)
      (Organization.parentId organization)
      (Organization.createdAt organization) now in
  modify (fun w =>
    set_organizations
      (map (replaceRow (Organization.organizationId organization) saved)
           (organizations w)) w) ;;
  ret saved.

(** [async update(organizationId, data, currentUser)] *)
Definition update (organizationId : string) (data : UpdateOrgDto.t)
  (currentUser : IUser.t) : M IOrganization.t :=
  if negb (Role_eqb (IUser.role currentUser) OWNER) then
    throw (ForbiddenException "Only owners can update organizations")
  else
    organization <- OrganizationRepository.findOne_where_organizationId
                      organizationId ;;
    match organization with
    | None => throw (NotFoundException "Organization not found")
    | Some organization =>
        w0 <- gets (fun w => w) ;;
        let parent := parentOf organization w0 in
        let children := childrenOf organization w0 in
        let organization :=
          Organization.mk (Organization.organizationId organization)
            (match UpdateOrgDto.name data with
             | Some n => if Js.truthy n then n else Organization.name organization
             | None => Organization.name organization
             end)
            (match UpdateOrgDto.description data with
             | Some d => Some d
             | None => Organization.description organization
             end)
            (Organization.parentId organization)
            (Organization.createdAt organization)
            (Organization.updatedAt organization) in
        updatedOrg <- organizationRepository_save organization ;;
        AuditService.log
          (LogEntry.mk "ORGANIZATION_UPDATED" "organization"
             (Some organizationId)
             (Some (IUser.id currentUser))
             (Some (IUser.email currentUser))
             (Some (IUser.organizationId currentUser))
             (Some (Js.stringify
                      (Js.JObject
                         (Js.JField "name" (Js.JString (Organization.name updatedOrg))
                          Js.JEnd))))
             None None
             (Some true)
             None) ;;
        ret (toOrganizationResponse updatedOrg parent (Some children))
    end.

(** [userRepository.count({ where: { organizationId } })] *)
Definition userCount (organizationId : string) (w : World) : nat :=
  List.length
    (filter (fun u => String.eqb (User.organizationId u) organizationId)
       (users w)).

(** The rows that refer to an organization: users and tasks through
    [organization_id], organizations through [parent_id]. *)
Definition referenced (organizationId : string) (w : World) : bool :=
  existsb (fun u => String.eqb (User.organizationId u) organizationId) (users w)
  || existsb (fun t => String.eqb (Task.organizationId t) organizationId)
       (tasks w)
  || existsb (OrganizationRepository.hasParent organizationId) (organizations w).

(** [organizationRepository.remove(organization)]:
    [DELETE FROM organizations WHERE organization_id].  The store refuses
    to delete a row another row refers to. *)
Definition organizationRepository_remove (organization : Organization.t)
  : M unit :=
  inUse <- gets (referenced (Organization.organizationId organization)) ;;
  if (inUse : bool) then
    throw (QueryFailedError "FOREIGN KEY constraint failed")
  else
    modify (fun w =>
      set_organizations
        (filter (fun o =>
                   negb (OrganizationRepository.hasId
                           (Organization.organizationId organization) o))
           (organizations w)) w).

(** [async remove(organizationId, currentUser)] *)
Definition remove (organizationId : string) (currentUser : IUser.t) : M unit :=
  if negb (Role_eqb (IUser.role currentUser) OWNER) then
    throw (ForbiddenException "Only owners can delete organizations")
  else
    organization <- OrganizationRepository.findOne_where_organizationId
                      organizationId ;;
    match organization with
    | None => throw (NotFoundException "Organization not found")
    | Some organization =>
        children <- gets (childrenOf organization) ;;
        if Nat.ltb 0 (List.length children) then
          throw (BadRequestException
                   "Cannot delete organization with child organizations")
        else
          count <- gets (userCount organizationId) ;;
          if Nat.ltb 0 count then
            throw (BadRequestException "Cannot delete organization with users")
          else
            organizationRepository_remove organization ;;
            AuditService.log
              (LogEntry.mk "ORGANIZATION_DELETED" "organization"
                 (Some organizationId)
                 (Some (IUser.id currentUser))
                 (Some (IUser.email currentUser))
                 (Some (IUser.organizationId currentUser))
                 (Some (Js.stringify
                          (Js.JObject
                             (Js.JField "name"
                                (Js.JString (Organization.name organization))
                              Js.JEnd))))
                 None None
                 (Some true)
                 None) ;;
            ret tt
    end.

(** [parentId: IsNull()] *)
Definition isRoot (o : Organization.t) : bool :=
  match Organization.parentId o with
  | None => true
  | Some _ => false
  end.

(** [async getHierarchy(currentUser)] *)
Definition getHierarchy (currentUser : IUser.t) : M (list IOrganization.t) :=
  w <- gets (fun w => w) ;;
  let parents := orderByAsc createdAtKey (filter isRoot (organizations w)) in
  let response := fun org =>
    toOrganizationResponse org None (Some (childrenOf org w)) in
  if negb (Role_eqb (IUser.role currentUser) OWNER) then
    accessibleOrgIds <- getAccessibleOrganizationIds currentUser ;;
    ret (map response
           (filter (fun p => Js.includes accessibleOrgIds
                               (Organization.organizationId p)) parents))
  else ret (map response parents).

End OrganizationsService.

(* ------------------------------------------------------------------ *)
(** ** Repository calls on the users table (user.entity.ts) *)

Module UserRepository.

Definition hasId (userId : string) (u : User.t) : bool :=
  String.eqb (User.userId u) userId.

Definition hasEmail (email : string) (u : User.t) : bool :=
  String.eqb (User.email u) email.

(** [userRepository.findOne({ where: { userId } })] *)
Definition findOne_where_userId (userId : string) : M (option User.t) :=
  gets (fun w => List.find (hasId userId) (users w)).

(** [userRepository.findOne({ where: { email } })] *)
Definition findOne_where_email (email : string) : M (option User.t) :=
  gets (fun w => List.find (hasEmail email) (users w)).

Definition setPassword (password : string) (u : User.t) : User.t :=
  User.mk (User.userId u) (User.email u) password (User.firstName u)
    (User.lastName u) (User.role u) (User.organizationId u) (User.isActive u)
    (User.createdAt u) (User.updatedAt u).

Definition setUpdatedAt (now : nat) (u : User.t) : User.t :=
  User.mk (User.userId u) (User.email u) (User.password u) (User.firstName u)
    (User.lastName u) (User.role u) (User.organizationId u) (User.isActive u)
    (User.createdAt u) now.

(** [@BeforeInsert() hashPasswordBeforeInsert] *)
Definition hashPasswordBeforeInsert `{Libraries} (u : User.t) : User.t :=
  if Js.truthy (User.password u)
  then setPassword (bcrypt_hash (User.password u)) u
  else u.

(** [@BeforeUpdate() hashPasswordBeforeUpdate] *)
Definition hashPasswordBeforeUpdate `{Libraries} (u : User.t) : User.t :=
  if Js.truthy (User.password u)
     && negb (String.prefix "$2b$" (User.password u))
  then setPassword (bcrypt_hash (User.password u)) u
  else u.

(** [userRepository.save(user)] of a new entity.  The column
    [organization_id] is a foreign key into the organizations table, which
    SQLite enforces: the [INSERT] of a row whose organization is not in
    that table rejects, and nothing is written. *)
Definition insert `{Libraries}
  (row : string -> nat -> User.t) : M User.t :=
  userId <- freshId ;;
  now <- gets clock ;;
  let saved := hashPasswordBeforeInsert (row userId now) in
  referenced <- gets (fun w =>
    existsb (OrganizationRepository.hasId (User.organizationId saved))
      (organizations w)) ;;
  if negb referenced then
    throw (QueryFailedError "FOREIGN KEY constraint failed")
  else
    modify (fun w => set_users (users w ++ [saved]) w) ;;
    ret saved.

(** [UPDATE users SET ... WHERE user_id = :userId] on one row. *)
Definition replaceRow (userId : string) (saved : User.t) (u : User.t) : User.t :=
  if hasId userId u then saved else u.

(** [userRepository.save(user)] of an entity loaded from the table: the
    row with its key is rewritten, after the update hook, with a new
    [updatedAt]. *)
Definition save `{Libraries} (user : User.t) : M User.t :=
  now <- gets clock ;;
  let saved := setUpdatedAt now (hashPasswordBeforeUpdate user) in
  modify (fun w =>
    set_users (map (replaceRow (User.userId user) saved) (users w)) w) ;;
  ret saved.

End UserRepository.

(* ------------------------------------------------------------------ *)
(** ** apps/api/src/users/users.service.ts *)

Module IUserPublic.
Record t : Type := mk {
  id : string;
  email : string;
  firstName : string;
  lastName : string;
  role : Role;
  organizationId : string;
  organizationName : option string;
  isActive : bool;
  createdAt : nat;
  updatedAt : nat }.
End IUserPublic.

Module CreateUserDto.
Record t : Type := mk {
  email : string;
  password : string;
  firstName : string;
  lastName : string;
  role : Role;
  organizationId : string }.
End CreateUserDto.

(** [UpdateUserDto] with the fields [UsersService.update] reads. *)
Module UpdateUserDto.
Record t : Type := mk {
  firstName : option string;
  lastName : option string;
  role : option Role;
  isActive : option bool;
  password : option string }.
End UpdateUserDto.

(** [UserQueryDto] *)
Module UserQueryDto.
Record t : Type := mk {
  role : option Role;
  isActive : option bool;
  search : option string }.
End UserQueryDto.

Module UsersService.

(** [user.organization?.name] when the relation was loaded (a join on
    [organization_id]). *)
Definition organizationName (u : User.t) (w : World) : option string :=
  option_map Organization.name
    (List.find (OrganizationRepository.hasId (User.organizationId u))
       (organizations w)).

(** [private toPublicUser(user)] *)
Definition toPublicUser (u : User.t) (organizationName : option string)
  : IUserPublic.t :=
  IUserPublic.mk (User.userId u) (User.email u) (User.firstName u)
    (User.lastName u) (User.role u) (User.organizationId u)
    organizationName (User.isActive u) (User.createdAt u) (User.updatedAt u).

(** [private async getAccessibleOrganizationIds(user)] *)
Definition getAccessibleOrganizationIds (user : IUser.t) : M (list string) :=
  childOrgs <- OrganizationRepository.find_where_parentId
                 (IUser.organizationId user) ;;
  ret ([IUser.organizationId user]
       ++ map Organization.organizationId childOrgs).

(** [private async checkUserAccess(targetUser, currentUser, action)] *)
Definition checkUserAccess (targetUser : User.t) (currentUser : IUser.t)
  (action : TaskAction) : M unit :=
  if Role_eqb (IUser.role currentUser) OWNER then ret tt
  else if String.eqb (User.userId targetUser) (IUser.id currentUser) then ret tt
  else
    granted <-
      (if Role_eqb (IUser.role currentUser) ADMIN && TaskAction_eqb action read
       then
         accessibleOrgIds <- getAccessibleOrganizationIds currentUser ;;
         ret (Js.includes accessibleOrgIds (User.organizationId targetUser))
       else ret false) ;;
    if (granted : bool) then ret tt
    else throw (ForbiddenException "You do not have access to this user").

(** [async findAll(query, currentUser)] returns [{ data, total }].

    [query] is destructured into [role], [organizationId], [search],
    [page = 1] and [limit = 20].  The class [UserQueryDto] declares no
    [organizationId], [page] or [limit]: the first is [undefined] and the
    other two are their defaults, so the query is built with [skip(0)]
    and [take(20)].  It joins [user.organization] and is ordered by
    ['user.created_at'], which is the name of the column and not of the
    property ([createdAt]).  For a query with a join and a [take],
    [getManyAndCount] first selects the keys of the page and, for that,
    looks the order criterion up among the properties of the entity:
    ['created_at'] is none, and the call throws [TypeError].  The [where]
    clauses built from the role of the caller and from the filters are
    never run. *)
Definition findAll (query : UserQueryDto.t) (currentUser : IUser.t)
  : M (list IUserPublic.t * nat) :=
  accessibleOrgIds <-
    (if Role_eqb (IUser.role currentUser) ADMIN
     then getAccessibleOrganizationIds currentUser
     else ret []) ;;
  throw (TypeError
           "Cannot read properties of undefined (reading 'databaseName')").

(** [async findOne(userId, currentUser)] *)
Definition findOne (userId : string) (currentUser : IUser.t)
  : M IUserPublic.t :=
  user <- UserRepository.findOne_where_userId userId ;;
  match user with
  | None => throw (NotFoundException "User not found")
  | Some user =>
      checkUserAccess user currentUser read ;;
      name <- gets (organizationName user) ;;
      ret (toPublicUser user name)
  end.

(** [async create(createUserDto, currentUser)] *)
Definition create `{Libraries} (createUserDto : CreateUserDto.t)
  (currentUser : IUser.t) : M IUserPublic.t :=
  existingUser <- UserRepository.findOne_where_email
                    (Js.toLowerCase (CreateUserDto.email createUserDto)) ;;
  match existingUser with
  | Some _ => throw (ConflictException "Email already registered")
  | None =>
      if Role_eqb (CreateUserDto.role createUserDto) OWNER
         && negb (Role_eqb (IUser.role currentUser) OWNER)
      then throw (ForbiddenException "Only owners can create owner accounts")
      else
        let hashedPassword := bcrypt_hash (CreateUserDto.password createUserDto) in
        savedUser <- UserRepository.insert
          (fun userId now =>
             User.mk userId
               (Js.toLowerCase (CreateUserDto.email createUserDto))
               hashedPassword
               (CreateUserDto.firstName createUserDto)
               (CreateUserDto.lastName createUserDto)
               (CreateUserDto.role createUserDto)
               (CreateUserDto.organizationId createUserDto)
               true now now) ;;
        AuditService.log
          (LogEntry.mk "USER_CREATED" "user"
             (Some (User.userId savedUser))
             (Some (IUser.id currentUser))
             (Some (IUser.email currentUser))
             (Some (IUser.organizationId currentUser))
             (Some (Js.stringify
                      (Js.JObject
                         (Js.JField "newUserEmail" (Js.JString (User.email savedUser))
                         (Js.JField "role" (Js.JString (Role_value (User.role savedUser)))
                          Js.JEnd)))))
             None None
             (Some true)
             None) ;;
        ret (toPublicUser savedUser None)
  end.

(** [Object.assign(user, updateUserDto)] *)
Definition assign (user : User.t) (dto : UpdateUserDto.t) : User.t :=
  User.mk (User.userId user) (User.email user)
    (match UpdateUserDto.password dto with Some p => p | None => User.password user end)
    (match UpdateUserDto.firstName dto with Some f => f | None => User.firstName user end)
    (match UpdateUserDto.lastName dto with Some l => l | None => User.lastName user end)
    (match UpdateUserDto.role dto with Some r => r | None => User.role user end)
    (User.organizationId user)
    (match UpdateUserDto.isActive dto with Some a => a | None => User.isActive user end)
    (User.createdAt user) (User.updatedAt user).

Definition emailAndRole (u : User.t) : Js.Json :=
  Js.JObject
    (Js.JField "email" (Js.JString (User.email u))
    (Js.JField "role" (Js.JString (Role_value (User.role u)))
     Js.JEnd)).

(** [async update(userId, updateUserDto, currentUser)] *)
Definition update `{Libraries} (userId : string) (updateUserDto : UpdateUserDto.t)
  (currentUser : IUser.t) : M IUserPublic.t :=
  user <- UserRepository.findOne_where_userId userId ;;
  match user with
  | None => throw (NotFoundException "User not found")
  | Some user =>
      checkUserAccess user currentUser update ;;
      (match UpdateUserDto.role updateUserDto with
       | Some r =>
           if negb (Role_eqb r (User.role user))
              && negb (Role_eqb (IUser.role currentUser) OWNER)
           then throw (ForbiddenException "Only owners can change user roles")
           else ret tt
       | None => ret tt
       end) ;;
      let oldValues := user in
      let user := assign user updateUserDto in
      let user :=
        match UpdateUserDto.password updateUserDto with
        | Some p =>
            if Js.truthy p then UserRepository.setPassword (bcrypt_hash p) user
            else user
        | None => user
        end in
      updatedUser <- UserRepository.save user ;;
      AuditService.log
        (LogEntry.mk "USER_UPDATED" "user"
           (Some (User.userId user))
           (Some (IUser.id currentUser))
           (Some (IUser.email currentUser))
           (Some (IUser.organizationId currentUser))
           (Some (Js.stringify
                    (Js.JObject
                       (Js.JField "before" (emailAndRole oldValues)
                       (Js.JField "after" (emailAndRole updatedUser)
                        Js.JEnd)))))
           None None
           (Some true)
           None) ;;
      name <- gets (organizationName updatedUser) ;;
      ret (toPublicUser updatedUser name)
  end.

Definition setIsActive (isActive : bool) (u : User.t) : User.t :=
  User.mk (User.userId u) (User.email u) (User.password u) (User.firstName u)
    (User.lastName u) (User.role u) (User.organizationId u) isActive
    (User.createdAt u) (User.updatedAt u).

(** [async remove(userId, currentUser)] *)
Definition remove `{Libraries} (userId : string) (currentUser : IUser.t)
  : M unit :=
  user <- UserRepository.findOne_where_userId userId ;;
  match user with
  | None => throw (NotFoundException "User not found")
  | Some user =>
      if negb (Role_eqb (IUser.role currentUser) OWNER) then
        throw (ForbiddenException "Only owners can delete users")
      else
        let user := setIsActive false user in
        UserRepository.save user ;;
        AuditService.log
          (LogEntry.mk "USER_DELETED" "user"
             (Some userId)
             (Some (IUser.id currentUser))
             (Some (IUser.email currentUser))
             (Some (IUser.organizationId currentUser))
             (Some (Js.stringify
                      (Js.JObject
                         (Js.JField "deletedUserEmail" (Js.JString (User.email user))
                          Js.JEnd))))
             None None
             (Some true)
             None) ;;
        ret tt
  end.

End UsersService.

(* ------------------------------------------------------------------ *)
(** ** apps/api/src/auth/auth.service.ts *)

Module LoginDto.
Record t : Type := mk {
  email : string;
  password : string }.
End LoginDto.

Module ILoginResponse.
Record t : Type := mk {
  accessToken : string;
  user : IUserPublic.t;
  expiresIn : Z }.
End ILoginResponse.

(** [RegisterDto]; [register] does not read its optional [role]. *)
Module RegisterDto.
Record t : Type := mk {
  email : string;
  password : string;
  firstName : string;
  lastName : string;
  organizationId : string;
  role : option Role }.
End RegisterDto.

Module AuthService.

Definition reason (text : string) : option string :=
  Some (Js.stringify (Js.JObject (Js.JField "reason" (Js.JString text) Js.JEnd))).

(** [async login(loginDto)] *)
Definition login `{Libraries} (loginDto : LoginDto.t) : M ILoginResponse.t :=
  let email := LoginDto.email loginDto in
  let password := LoginDto.password loginDto in
  user <- UserRepository.findOne_where_email (Js.toLowerCase email) ;;
  match user with
  | None =>
      AuditService.log
        (LogEntry.mk "LOGIN_FAILED" "auth" None None (Some email) None
           (reason "User not found") None None (Some false)
           (Some "Invalid credentials")) ;;
      throw (UnauthorizedException "Invalid email or password")
  | Some user =>
      if negb (User.isActive user) then
        AuditService.log
          (LogEntry.mk "LOGIN_FAILED" "auth" None
             (Some (User.userId user)) (Some (User.email user))
             (Some (User.organizationId user))
             (reason "Account deactivated") None None (Some false)
             (Some "Account is deactivated")) ;;
        throw (UnauthorizedException "Account is deactivated")
      else if negb (bcrypt_compare password (User.password user)) then
        AuditService.log
          (LogEntry.mk "LOGIN_FAILED" "auth" None
             (Some (User.userId user)) (Some (User.email user))
             (Some (User.organizationId user))
             (reason "Invalid password") None None (Some false)
             (Some "Invalid credentials")) ;;
        throw (UnauthorizedException "Invalid email or password")
      else
        let payload :=
          IJwtPayload.mk (User.userId user) (User.email user) (User.role user)
            (User.organizationId user) in
        let accessToken := jwt_sign payload in
        AuditService.log
          (LogEntry.mk "LOGIN" "auth" None
             (Some (User.userId user)) (Some (User.email user))
             (Some (User.organizationId user))
             (Some (Js.stringify
                      (Js.JObject
                         (Js.JField "method" (Js.JString "password") Js.JEnd))))
             None None (Some true) None) ;;
        name <- gets (UsersService.organizationName user) ;;
        ret (ILoginResponse.mk accessToken
               (UsersService.toPublicUser user name) 86400%Z)
  end.

(** [async register(registerDto)]; the [role] column is left to its
    default, [Role.VIEWER]. *)
Definition register `{Libraries} (registerDto : RegisterDto.t)
  : M IUserPublic.t :=
  let email := RegisterDto.email registerDto in
  existingUser <- UserRepository.findOne_where_email (Js.toLowerCase email) ;;
  match existingUser with
  | Some _ => throw (ConflictException "Email already registered")
  | None =>
      savedUser <- UserRepository.insert
        (fun userId now =>
           User.mk userId (Js.toLowerCase email)
             (RegisterDto.password registerDto)
             (RegisterDto.firstName registerDto)
             (RegisterDto.lastName registerDto)
             VIEWER
             (RegisterDto.organizationId registerDto)
             true now now) ;;
      AuditService.log
        (LogEntry.mk "USER_REGISTERED" "user"
           (Some (User.userId savedUser))
           (Some (User.userId savedUser))
           (Some (User.email savedUser))
           (Some (User.organizationId savedUser))
           (Some (Js.stringify
                    (Js.JObject
                       (Js.JField "method" (Js.JString "self-registration")
                        Js.JEnd))))
           None None (Some true) None) ;;
      ret (UsersService.toPublicUser savedUser None)
  end.

(** [async validateUser(payload)]: [None] is [null]. *)
Definition validateUser (payload : IJwtPayload.t) : M (option User.t) :=
  user <- UserRepository.findOne_where_userId (IJwtPayload.sub payload) ;;
  match user with
  | Some user => if negb (User.isActive user) then ret None else ret (Some user)
  | None => ret None
  end.

(** [async getProfile(userId)] *)
Definition getProfile (userId : string) : M IUserPublic.t :=
  user <- UserRepository.findOne_where_userId userId ;;
  match user with
  | None => throw (UnauthorizedException "User not found")
  | Some user =>
      name <- gets (UsersService.organizationName user) ;;
      ret (UsersService.toPublicUser user name)
  end.

End AuthService.

(* ------------------------------------------------------------------ *)
(** ** Invariants of the tables *)

(** Primary key of the organizations table. *)
Definition organizationKey (w : World) : Prop :=
  NoDup (map Organization.organizationId (organizations w)).

(** The two-level invariant kept by [OrganizationsService.create]: an
    organization that has a parent has no child. *)
Definition twoLevels (w : World) : Prop :=
  forall o c,
    In o (organizations w) -> In c (organizations w) ->
    Organization.parentId o <> None ->
    Organization.parentId c <> Some (Organization.organizationId o).

(** The index, counted from [i], of the last occurrence of [taskId] in
    [taskIds]: the iteration of [reorder] whose write to that task is not
    overwritten by a later one. *)
Fixpoint lastIndexFrom (i : nat) (taskId : string) (taskIds : list string)
  : option nat :=
  match taskIds with
  | [] => None
  | x :: rest =>
      match lastIndexFrom (S i) taskId rest with
      | Some k => Some k
      | None => if String.eqb taskId x then Some i else None
      end
  end.

(** The keys of [taskIds] that come before the first empty one: those
    the loop of [reorder] gets to write. *)
Fixpoint untilEmpty (taskIds : list string) : list string :=
  match taskIds with
  | [] => []
  | x :: rest => if Js.truthy x then x :: untilEmpty rest else []
  end.

(** What [reorder] makes of one row of the tasks table. *)
Definition reordered (taskIds : list string) (i now : nat) (t : Task.t) : Task.t :=
  match lastIndexFrom i (Task.taskId t) taskIds with
  | Some k => TasksService.setPosition (Z.of_nat k) now t
  | None => t
  end.

(** The calls [UsersService] offers, and the database after one of them
    has run (whether it returned or threw). *)
Inductive UsersServiceCall : Type :=
| CallFindAll (query : UserQueryDto.t) (currentUser : IUser.t)
| CallFindOne (userId : string) (currentUser : IUser.t)
| CallCreate (createUserDto : CreateUserDto.t) (currentUser : IUser.t)
| CallUpdate (userId : string) (updateUserDto : UpdateUserDto.t)
    (currentUser : IUser.t)
| CallRemove (userId : string) (currentUser : IUser.t).

Definition afterCall `{Libraries} (c : UsersServiceCall) (w : World) : World :=
  match c with
  | CallFindAll query currentUser =>
      snd (UsersService.findAll query currentUser w)
  | CallFindOne userId currentUser =>
      snd (UsersService.findOne userId currentUser w)
  | CallCreate createUserDto currentUser =>
      snd (UsersService.create createUserDto currentUser w)
  | CallUpdate userId updateUserDto currentUser =>
      snd (UsersService.update userId updateUserDto currentUser w)
  | CallRemove userId currentUser =>
      snd (UsersService.remove userId currentUser w)
  end.


(** The primary keys held by the users table, in row order. *)
Definition userKeys (w : World) : list string := map User.userId (users w).


(** A computation that only appends to the audit table, and at most [n]
    entries. *)
Definition appendsAtMost {A} (n : nat) (c : M A) : Prop :=
  forall w, exists added,
    audit_logs (snd (c w)) = audit_logs w ++ added
    /\ List.length added <= n.

(** The calls of the five services, and the database after one of them
    has run (whether it returned or threw). *)
Inductive ServiceCall : Type :=
| Tasks_create (createTaskDto : CreateTaskDto.t) (user : IUser.t)
| Tasks_findAll (query : TaskQueryDto.t) (user : IUser.t)
| Tasks_findOne (taskId : string) (user : IUser.t)
| Tasks_update (taskId : string) (updateTaskDto : UpdateTaskDto.t) (user : IUser.t)
| Tasks_remove (taskId : string) (user : IUser.t)
| Tasks_reorder (reorderDto : ReorderTasksDto.t) (user : IUser.t)
| Tasks_getStats (user : IUser.t)
| Users_call (call : UsersServiceCall)
| Organizations_findAll (currentUser : IUser.t)
| Organizations_findOne (organizationId : string) (currentUser : IUser.t)
| Organizations_create (data : CreateOrgDto.t) (currentUser : IUser.t)
| Organizations_update (organizationId : string) (data : UpdateOrgDto.t)
    (currentUser : IUser.t)
| Organizations_remove (organizationId : string) (currentUser : IUser.t)
| Organizations_getHierarchy (currentUser : IUser.t)
| Auth_login (loginDto : LoginDto.t)
| Auth_register (registerDto : RegisterDto.t)
| Auth_validateUser (payload : IJwtPayload.t)
| Auth_getProfile (userId : string)
| Audit_findAll (options : AuditQueryOptions.t) (currentUser : IUser.t)
| Audit_findByResource (resourceType resourceId : string) (currentUser : IUser.t)
| Audit_findByUser (userId : string) (currentUser : IUser.t)
| Audit_getLoginHistory (userId : string) (currentUser : IUser.t)
| Audit_getFailedLogins (currentUser : IUser.t).

Definition afterService `{Libraries} (c : ServiceCall) (w : World) : World :=
  match c with
  | Tasks_create dto user => snd (TasksService.create dto user w)
  | Tasks_findAll query user => snd (TasksService.findAll query user w)
  | Tasks_findOne taskId user => snd (TasksService.findOne taskId user w)
  | Tasks_update taskId dto user => snd (TasksService.update taskId dto user w)
  | Tasks_remove taskId user => snd (TasksService.remove taskId user w)
  | Tasks_reorder reorderDto user =>
      snd (TasksService.reorder reorderDto user w)
  | Tasks_getStats user => snd (TasksService.getStats user w)
  | Users_call call => afterCall call w
  | Organizations_findAll u => snd (OrganizationsService.findAll u w)
  | Organizations_findOne id u => snd (OrganizationsService.findOne id u w)
  | Organizations_create data u => snd (OrganizationsService.create data u w)
  | Organizations_update id data u =>
      snd (OrganizationsService.update id data u w)
  | Organizations_remove id u => snd (OrganizationsService.remove id u w)
  | Organizations_getHierarchy u => snd (OrganizationsService.getHierarchy u w)
  | Auth_login dto => snd (AuthService.login dto w)
  | Auth_register dto => snd (AuthService.register dto w)
  | Auth_validateUser payload => snd (AuthService.validateUser payload w)
  | Auth_getProfile userId => snd (AuthService.getProfile userId w)
  | Audit_findAll options u => snd (AuditService.findAll options u w)
  | Audit_findByResource type id u =>
      snd (AuditService.findByResource type id u w)
  | Audit_findByUser userId u => snd (AuditService.findByUser userId u w)
  | Audit_getLoginHistory userId u =>
      snd (AuditService.getLoginHistory userId u w)
  | Audit_getFailedLogins u => snd (AuditService.getFailedLogins u w)
  end.

(** Newest first: no entry is older than one that follows it. *)
Definition newestFirst (l : list AuditLog.t) : Prop :=
  StronglySorted
    (fun a b => AuditLog.createdAt b <= AuditLog.createdAt a) l.

(** The [data] of [findAll] at page [page], every other option kept. *)
Definition pageData (options : AuditQueryOptions.t) (currentUser : IUser.t)
  (w : World) (page : Z) : list AuditLog.t :=
  match fst (AuditService.findAll (AuditQueryOptions.withPage page options)
               currentUser w) with
  | Ok (data, _) => data
  | Throw _ => []
  end.

(** The row [AuthService.register] inserts for [registerDto] when the
    key counter shows [n] and the clock [now]. *)
Definition registered `{Libraries} (registerDto : RegisterDto.t) (n now : nat)
  : User.t :=
  UserRepository.hashPasswordBeforeInsert
    (User.mk (uuid n) (Js.toLowerCase (RegisterDto.email registerDto))
       (RegisterDto.password registerDto)
       (RegisterDto.firstName registerDto)
       (RegisterDto.lastName registerDto)
       VIEWER
       (RegisterDto.organizationId registerDto)
       true now now).

(** The row [UsersService.create] inserts for [createUserDto]: the
    password is hashed by [create] and then again by the insert hook. *)
Definition created `{Libraries} (createUserDto : CreateUserDto.t) (n now : nat)
  : User.t :=
  UserRepository.hashPasswordBeforeInsert
    (User.mk (uuid n) (Js.toLowerCase (CreateUserDto.email createUserDto))
       (bcrypt_hash (CreateUserDto.password createUserDto))
       (CreateUserDto.firstName createUserDto)
       (CreateUserDto.lastName createUserDto)
       (CreateUserDto.role createUserDto)
       (CreateUserDto.organizationId createUserDto)
       true now now).

(** The principal on whose behalf a call of [UsersService] is made. *)
Definition callerOf (c : UsersServiceCall) : IUser.t :=
  match c with
  | CallFindAll _ currentUser => currentUser
  | CallFindOne _ currentUser => currentUser
  | CallCreate _ currentUser => currentUser
  | CallUpdate _ _ currentUser => currentUser
  | CallRemove _ currentUser => currentUser
  end.

(** The keys of the tasks table, row by row. *)
Definition taskKeys (w : World) : list string := map Task.taskId (tasks w).

(** The row [TasksService.create] inserts for [createTaskDto] on behalf of
    [user] in the database [w]. *)
Definition createdTask (createTaskDto : CreateTaskDto.t) (user : IUser.t)
  (w : World) : Task.t :=
  Task.mk (uuid (nextId w))
    (CreateTaskDto.title createTaskDto)
    (CreateTaskDto.description createTaskDto)
    "todo"
    (match CreateTaskDto.priority createTaskDto with
     | Some p => p
     | None => "medium"
     end)
    (match CreateTaskDto.category createTaskDto with
     | Some c => c
     | None => "work"
     end)
    (TasksService.nextPosition
       (TasksService.maxPosition (IUser.organizationId user) w))
    (CreateTaskDto.dueDate createTaskDto)
    (IUser.id user) (IUser.organizationId user) (clock w) (clock w).

(** The organizations [TasksService] resolves for a principal. *)
Definition taskScope (user : IUser.t) (w : World) : list string :=
  match fst (TasksService.getAccessibleOrganizationIds user w) with
  | Ok ids => ids
  | Throw _ => []
  end.

(** The sum of the counters of a record, when all of them are numbers. *)
Fixpoint sumCounts (record : list (string * TaskStats.Count)) : option nat :=
  match record with
  | [] => Some 0
  | (_, TaskStats.Number n) :: rest => option_map (Nat.add n) (sumCounts rest)
  | (_, TaskStats.Text _) :: _ => None
  end.

(** A computation that leaves one column of the database as it found
    it, whether it returns or throws. *)
Definition keeps {T A} (column : World -> T) (c : M A) : Prop :=
  forall w, column (snd (c w)) = column w.

(** The calls that write the organizations table: the three mutations of
    [OrganizationsService], made by an OWNER. *)
Definition writesOrganizations (c : ServiceCall) : bool :=
  match c with
  | Organizations_create _ currentUser
  | Organizations_update _ _ currentUser
  | Organizations_remove _ currentUser =>
      Role_eqb (IUser.role currentUser) OWNER
  | _ => false
  end.

(** The calls that write the tasks table. *)
Definition writesTasks (c : ServiceCall) : bool :=
  match c with
  | Tasks_create _ _ | Tasks_update _ _ _ | Tasks_remove _ _
  | Tasks_reorder _ _ => true
  | _ => false
  end.

(** The calls that write the users table. *)
Definition writesUsers (c : ServiceCall) : bool :=
  match c with
  | Users_call (CallCreate _ _) | Users_call (CallUpdate _ _ _)
  | Users_call (CallRemove _ _) | Auth_register _ => true
  | _ => false
  end.

(** The foreign key of [parentId]: a parent is a row of the table. *)
Definition parentsExist (w : World) : Prop :=
  forall c p,
    In c (organizations w) -> Organization.parentId c = Some p ->
    In p (map Organization.organizationId (organizations w)).

(** The organizations form a forest of depth two at most, with unique
    keys and no dangling parent. *)
Definition hierarchy (w : World) : Prop :=
  organizationKey w /\ twoLevels w /\ parentsExist w.

(** The row [OrganizationsService.create] inserts for [data] in the
    database [w]. *)
Definition createdOrganization (data : CreateOrgDto.t) (w : World)
  : Organization.t :=
  Organization.mk (uuid (nextId w)) (CreateOrgDto.name data)
    (CreateOrgDto.description data) (Js.orNull (CreateOrgDto.parentId data))
    (clock w) (clock w).

(** The organizations [OrganizationsService] resolves for a principal. *)
Definition organizationScope (user : IUser.t) (w : World) : list string :=
  match fst (OrganizationsService.getAccessibleOrganizationIds user w) with
  | Ok ids => ids
  | Throw _ => []
  end.

(** What [hasPermission] answers for a role of the enum, as a boolean. *)
Definition grants (r : Role) (p : Permission) : bool :=
  match RoleModel.hasPermission (Role_value r) p with
  | Ok b => b
  | Throw _ => false
  end.

(* ------------------------------------------------------------------ *)
(** ** A small database: Acme with its two departments *)

Module Sample.

Definition acme : Organization.t :=
  Organization.mk "org-acme" "Acme" None None 1 1.

Definition engineering : Organization.t :=
  Organization.mk "org-eng" "Engineering" None (Some "org-acme") 2 2.

Definition sales : Organization.t :=
  Organization.mk "org-sales" "Sales" None (Some "org-acme") 3 3.

Definition owner_eng : IUser.t :=
  IUser.mk "u-owner" "owner@engineering" OWNER "org-eng".

Definition admin_eng : IUser.t :=
  IUser.mk "u-admin" "admin@engineering" ADMIN "org-eng".

Definition admin_acme : IUser.t :=
  IUser.mk "u-root" "admin@acme" ADMIN "org-acme".

Definition viewer_eng : IUser.t :=
  IUser.mk "u-viewer" "viewer@engineering" VIEWER "org-eng".

Definition row_admin : User.t :=
  User.mk "u-admin" "admin@engineering" "$2b$10$adminhash" "Ada" "Min"
    ADMIN "org-eng" true 2 2.

Definition row_viewer : User.t :=
  User.mk "u-viewer" "viewer@engineering" "$2b$10$viewerhash" "Vi" "Ewer"
    VIEWER "org-eng" true 3 3.

Definition task_viewer : Task.t :=
  Task.mk "task-1" "Write report" None "todo" "medium" "work" 1 None
    "u-viewer" "org-sales" 4 4.

Definition task_admin : Task.t :=
  Task.mk "task-2" "Review report" None "todo" "high" "work" 2 None
    "u-admin" "org-eng" 5 5.

Definition task_acme : Task.t :=
  Task.mk "task-3" "Plan budget" None "todo" "high" "work" 1 None
    "u-root" "org-acme" 6 6.

Definition entry_eng : AuditLog.t :=
  AuditLog.mk "log-1" "TASK_CREATED" "task" (Some "task-2") (Some "u-admin")
    (Some "admin@engineering") (Some "org-eng") None None None true None 5.

Definition entry_anonymous : AuditLog.t :=
  AuditLog.mk "log-2" "LOGIN_FAILED" "auth" None None
    (Some "nobody@nowhere") None None None None false
    (Some "Invalid credentials") 6.

Definition entry_sales : AuditLog.t :=
  AuditLog.mk "log-3" "LOGIN_FAILED" "auth" None (Some "u-sales")
    (Some "rep@sales") (Some "org-sales") None None None false
    (Some "Invalid credentials") 7.

Definition entry_eng_login : AuditLog.t :=
  AuditLog.mk "log-4" "LOGIN" "auth" None (Some "u-admin")
    (Some "admin@engineering") (Some "org-eng") None None None true None 8.

Definition entry_acme : AuditLog.t :=
  AuditLog.mk "log-5" "TASK_CREATED" "task" (Some "task-3") (Some "u-root")
    (Some "admin@acme") (Some "org-acme") None None None true None 9.

Definition world : World :=
  mkWorld [acme; engineering; sales]
    [row_admin; row_viewer]
    [task_viewer; task_admin; task_acme]
    [entry_eng; entry_anonymous; entry_sales; entry_eng_login; entry_acme]
    true 10 100 [].


(** Stand-ins for the external libraries, for running the services. *)
Definition libraries : Libraries :=
  {| bcrypt_hash := fun p => ("$2b$10$" ++ p)%string;
     bcrypt_compare := fun p h => String.eqb ("$2b$10$" ++ p)%string h;
     jwt_sign := fun payload => ("jwt." ++ IJwtPayload.sub payload)%string;
     sql_like := fun pattern s => String.eqb pattern ("%" ++ s ++ "%")%string |}.

End Sample.

(* ================================================================== *)
(** * Properties *)

(** ** Equality tests *)

Lemma opt_eqb_eq (a b : option string) : Js.opt_eqb a b = true <-> a = b.
Proof.
  destruct a as [x|], b as [y|]; simpl; split; intros H;
    try discriminate; try reflexivity.
  - apply String.eqb_eq in H. now subst.
  - injection H as ->. apply String.eqb_refl.
Qed.

Lemma Role_eqb_eq (a b : Role) : Role_eqb a b = true <-> a = b.
Proof. destruct a, b; simpl; split; intros H; congruence. Qed.

Lemma Role_eqb_neq (a b : Role) : Role_eqb a b = false <-> a <> b.
Proof. destruct a, b; simpl; split; intros H; congruence. Qed.

(** ** The role model *)

(** On a role that is one of the three of the enum, in whatever letter
    case it is written, [hasPermission] returns the permission table. *)
Lemma hasPermission_table (role : string) (r : Role) (p : Permission) :
  Js.toLowerCase role = Role_value r ->
  RoleModel.hasPermission role p = Ok (RoleModel.spec_permission_table r p).
Proof.
  intros H. unfold RoleModel.hasPermission. rewrite H.
  destruct r, p; reflexivity.
Qed.

(** The two calls of the function's own documentation. *)
Example hasPermission_admin_task_delete :
  RoleModel.hasPermission "admin" TASK_DELETE = Ok true.
Proof. reflexivity. Qed.

Example hasPermission_viewer_task_delete :
  RoleModel.hasPermission "viewer" TASK_DELETE = Ok false.
Proof. reflexivity. Qed.

Example hasPermission_superuser :
  RoleModel.hasPermission "superuser" TASK_READ = Ok false.
Proof. reflexivity. Qed.

(** A role whose lower-case form is neither a key of [ROLE_PERMISSIONS]
    nor a member of [Object.prototype] has no permission. *)
Lemma hasPermission_unknown_role (role : string) (p : Permission) :
  RoleModel.own RoleModel.ROLE_PERMISSIONS (Js.toLowerCase role) = None ->
  Js.includes RoleModel.Object_prototype (Js.toLowerCase role) = false ->
  RoleModel.hasPermission role p = Ok false.
Proof.
  intros Hown Hproto. unfold RoleModel.hasPermission, RoleModel.get.
  now rewrite Hown, Hproto.
Qed.

(** C4.  [hasPermission] does not fail closed on every role outside the
    closed set: the role string ["constructor"] is none of the three roles,
    yet [ROLE_PERMISSIONS["constructor"]] is the truthy [Object] function
    inherited from the prototype, which has no [includes], so the call
    throws a [TypeError] where the role model promises [false]. *)
Theorem C4_hasPermission_throws_on_inherited_key :
  (forall r : Role, Js.toLowerCase "constructor" <> Role_value r)
  /\ RoleModel.hasPermission "constructor" TASK_READ
     = Throw (TypeError "permissions.includes is not a function").
Proof.
  split.
  - intros r; destruct r; discriminate.
  - reflexivity.
Qed.

(** ** Running a service computation *)

Ltac run :=
  unfold bind, gets, modify, ret, throw in *; simpl in *.

(** ** Organization scope *)

Lemma key_injective (w : World) (a b : Organization.t) :
  organizationKey w ->
  In a (organizations w) -> In b (organizations w) ->
  Organization.organizationId a = Organization.organizationId b -> a = b.
Proof.
  unfold organizationKey. induction (organizations w) as [|x l IH]; simpl.
  - intros _ [].
  - intros Hnd Ha Hb Heq. inversion Hnd as [|? ? Hnotin Hnd']; subst.
    destruct Ha as [<-|Ha], Hb as [<-|Hb].
    + reflexivity.
    + exfalso. apply Hnotin. rewrite Heq. now apply in_map.
    + exfalso. apply Hnotin. rewrite <- Heq. now apply in_map.
    + now apply IH.
Qed.

Lemma children_In (w : World) (parent id : string) :
  In id (map Organization.organizationId
           (filter (OrganizationRepository.hasParent parent) (organizations w)))
  <-> exists c, In c (organizations w)
                /\ Organization.parentId c = Some parent
                /\ Organization.organizationId c = id.
Proof.
  rewrite in_map_iff. split.
  - intros [c [Hid Hc]]. apply filter_In in Hc as [Hin Hp].
    apply opt_eqb_eq in Hp. now exists c.
  - intros [c [Hin [Hp Hid]]]. exists c. split; [assumption|].
    apply filter_In. split; [assumption|]. now apply opt_eqb_eq.
Qed.

Lemma no_children (w : World) (o : Organization.t) :
  twoLevels w -> In o (organizations w) ->
  Organization.parentId o <> None ->
  filter (OrganizationRepository.hasParent (Organization.organizationId o))
    (organizations w) = [].
Proof.
  intros H2 Hin Hchild.
  destruct (filter _ _) as [|c l] eqn:E; [reflexivity|exfalso].
  assert (Hc : In c (filter (OrganizationRepository.hasParent
                               (Organization.organizationId o))
                       (organizations w))) by (rewrite E; now left).
  apply filter_In in Hc as [Hcin Hp]. apply opt_eqb_eq in Hp.
  exact (H2 o c Hin Hcin Hchild Hp).
Qed.

Lemma TasksService_scope_nonOwner (user : IUser.t) (w : World) :
  IUser.role user <> OWNER ->
  TasksService.getAccessibleOrganizationIds user w
  = (Ok (IUser.organizationId user
         :: map Organization.organizationId
              (filter (OrganizationRepository.hasParent (IUser.organizationId user))
                 (organizations w))), w).
Proof.
  intros H. apply Role_eqb_neq in H.
  unfold TasksService.getAccessibleOrganizationIds. now rewrite H.
Qed.

Lemma TasksService_scope_owner (user : IUser.t) (w : World) :
  IUser.role user = OWNER ->
  TasksService.getAccessibleOrganizationIds user w
  = (Ok (map Organization.organizationId (organizations w)), w).
Proof.
  intros H. apply Role_eqb_eq in H.
  unfold TasksService.getAccessibleOrganizationIds. now rewrite H.
Qed.

Lemma UsersService_scope (user : IUser.t) (w : World) :
  UsersService.getAccessibleOrganizationIds user w
  = (Ok (IUser.organizationId user
         :: map Organization.organizationId
              (filter (OrganizationRepository.hasParent (IUser.organizationId user))
                 (organizations w))), w).
Proof. reflexivity. Qed.

Lemma OrganizationsService_scope (user : IUser.t) (w : World) (o : Organization.t) :
  organizationKey w -> In o (organizations w) ->
  Organization.organizationId o = IUser.organizationId user ->
  OrganizationsService.getAccessibleOrganizationIds user w
  = (Ok ((IUser.organizationId user
          :: map Organization.organizationId
               (filter (OrganizationRepository.hasParent (IUser.organizationId user))
                  (organizations w)))
         ++ match Organization.parentId o with
            | Some parentId => if Js.truthy parentId then [parentId] else []
            | None => []
            end), w).
Proof.
  intros Hkey Hin Hid.
  unfold OrganizationsService.getAccessibleOrganizationIds,
    OrganizationRepository.findOne_where_organizationId.
  run.
  destruct (find (OrganizationRepository.hasId (IUser.organizationId user))
              (organizations w)) as [o'|] eqn:E.
  - apply find_some in E as [Hin' Hid']. apply String.eqb_eq in Hid'.
    assert (o' = o) as -> by (apply (key_injective w); congruence).
    unfold OrganizationRepository.find_where_parentId. run.
    destruct (Organization.parentId o) as [p|]; [destruct (Js.truthy p)|];
      simpl; rewrite ?app_nil_r; reflexivity.
  - exfalso. apply (find_none _ _ E) in Hin.
    unfold OrganizationRepository.hasId in Hin.
    rewrite Hid, String.eqb_refl in Hin. discriminate.
Qed.

(** The organizations path adds the parent of a child organization: an
    ADMIN of Engineering gets Acme in scope and may read it. *)
Lemma OrganizationsService_child_scope_has_parent :
  fst (OrganizationsService.getAccessibleOrganizationIds
         Sample.admin_eng Sample.world)
  = Ok ["org-eng"; "org-acme"]
  /\ fst (OrganizationsService.findOne "org-acme" Sample.admin_eng Sample.world)
     = Ok Sample.acme.
Proof. split; reflexivity. Qed.

(** C1, as stated, fails: an OWNER whose organization is the child
    Engineering gets every organization from the tasks path, the parent
    Acme included. *)
Lemma C1_counterexample :
  In Sample.engineering (organizations Sample.world)
  /\ Organization.organizationId Sample.engineering
     = IUser.organizationId Sample.owner_eng
  /\ Organization.parentId Sample.engineering = Some "org-acme"
  /\ fst (TasksService.getAccessibleOrganizationIds
            Sample.owner_eng Sample.world)
     = Ok ["org-acme"; "org-eng"; "org-sales"].
Proof. repeat split. simpl. auto. Qed.

(** C1 (amended).  In a hierarchy of at most two levels, for a principal
    whose organization is a child: the users path resolves the scope to
    exactly the principal's organization; so does the tasks path for every
    role but OWNER, for whom it returns every organization; and an ADMIN of
    the child organization is refused every task of another organization,
    the parent's included. *)
Theorem C1_child_scope_is_own_organization
  (w : World) (user : IUser.t) (o : Organization.t) :
  twoLevels w ->
  In o (organizations w) ->
  Organization.organizationId o = IUser.organizationId user ->
  Organization.parentId o <> None ->
  UsersService.getAccessibleOrganizationIds user w
  = (Ok [IUser.organizationId user], w)
  /\ (IUser.role user <> OWNER ->
      TasksService.getAccessibleOrganizationIds user w
      = (Ok [IUser.organizationId user], w))
  /\ (IUser.role user = OWNER ->
      TasksService.getAccessibleOrganizationIds user w
      = (Ok (map Organization.organizationId (organizations w)), w))
  /\ (IUser.role user = ADMIN ->
      forall (task : Task.t) (action : TaskAction),
        Task.organizationId task <> IUser.organizationId user ->
        TasksService.checkTaskAccess task user action w
        = (Throw (ForbiddenException "You do not have access to this task"), w)).
Proof.
  intros H2 Hin Hid Hchild.
  pose proof (no_children w o H2 Hin Hchild) as Hnone. rewrite Hid in Hnone.
  repeat split.
  - rewrite UsersService_scope, Hnone. reflexivity.
  - intros Hrole. rewrite TasksService_scope_nonOwner, Hnone by assumption.
    reflexivity.
  - intros Hrole. now apply TasksService_scope_owner.
  - intros Hrole task action Hother.
    unfold TasksService.checkTaskAccess. rewrite Hrole. simpl.
    unfold bind. rewrite TasksService_scope_nonOwner, Hnone by congruence.
    simpl. destruct (String.eqb_spec (Task.organizationId task)
                       (IUser.organizationId user)) as [E|E];
      [contradiction|reflexivity].
Qed.

Lemma Sample_twoLevels : twoLevels Sample.world.
Proof.
  intros o c Ho Hc. simpl in Ho, Hc.
  destruct Ho as [<-|[<-|[<-|[]]]], Hc as [<-|[<-|[<-|[]]]];
    simpl; intros; congruence.
Qed.

Lemma Sample_organizationKey : organizationKey Sample.world.
Proof.
  unfold organizationKey. simpl.
  repeat constructor; simpl; intuition discriminate.
Qed.

Lemma C1_witness :
  UsersService.getAccessibleOrganizationIds Sample.admin_eng Sample.world
  = (Ok ["org-eng"], Sample.world)
  /\ TasksService.getAccessibleOrganizationIds Sample.admin_eng Sample.world
     = (Ok ["org-eng"], Sample.world)
  /\ TasksService.checkTaskAccess Sample.task_acme Sample.admin_eng read
       Sample.world
     = (Throw (ForbiddenException "You do not have access to this task"),
        Sample.world).
Proof.
  destruct (C1_child_scope_is_own_organization
              Sample.world Sample.admin_eng Sample.engineering
              Sample_twoLevels
              (or_intror (or_introl eq_refl)) eq_refl
              ltac:(discriminate))
    as [Husers [Htasks [_ Hdeny]]].
  split; [exact Husers|]. split.
  - apply Htasks. discriminate.
  - apply Hdeny; [reflexivity | discriminate].
Defined.

(** C5, as stated, fails: for an OWNER of Engineering the tasks path
    returns the sibling Sales. *)
Lemma C5_counterexample :
  Organization.parentId Sample.engineering
  = Some (Organization.organizationId Sample.acme)
  /\ Organization.parentId Sample.sales
     = Some (Organization.organizationId Sample.acme)
  /\ IUser.organizationId Sample.owner_eng
     = Organization.organizationId Sample.engineering
  /\ exists ids,
       fst (TasksService.getAccessibleOrganizationIds
              Sample.owner_eng Sample.world) = Ok ids
       /\ In (Organization.organizationId Sample.sales) ids.
Proof.
  repeat split. exists ["org-acme"; "org-eng"; "org-sales"].
  split; [reflexivity | simpl; auto].
Qed.

(** C5 (amended).  Let [b] and [c] be two children of the root [a].  For
    a principal of [b], the users path and the organizations path resolve
    a scope without [c], whatever the role, and so does the tasks path for
    every role but OWNER.  The statement is symmetric in [b] and [c]. *)
Theorem C5_sibling_isolation
  (w : World) (user : IUser.t) (a b c : Organization.t) :
  organizationKey w ->
  In a (organizations w) -> In b (organizations w) -> In c (organizations w) ->
  Organization.parentId a = None ->
  Organization.parentId b = Some (Organization.organizationId a) ->
  Organization.parentId c = Some (Organization.organizationId a) ->
  Organization.organizationId b <> Organization.organizationId c ->
  IUser.organizationId user = Organization.organizationId b ->
  (exists ids,
      UsersService.getAccessibleOrganizationIds user w = (Ok ids, w)
      /\ ~ In (Organization.organizationId c) ids)
  /\ (exists ids,
         OrganizationsService.getAccessibleOrganizationIds user w = (Ok ids, w)
         /\ ~ In (Organization.organizationId c) ids)
  /\ (IUser.role user <> OWNER ->
      exists ids,
        TasksService.getAccessibleOrganizationIds user w = (Ok ids, w)
        /\ ~ In (Organization.organizationId c) ids).
Proof.
  intros Hkey Ha Hb Hc Hroot Hbp Hcp Hbc Hu.
  assert (Hab : a <> b) by (intros ->; congruence).
  assert (Hac : Organization.organizationId c <> Organization.organizationId a).
  { intros E. apply (key_injective w) in E; try assumption. subst c. congruence. }
  assert (Hdown :
    ~ In (Organization.organizationId c)
        (IUser.organizationId user
         :: map Organization.organizationId
              (filter (OrganizationRepository.hasParent (IUser.organizationId user))
                 (organizations w)))).
  { intros [E|E].
    - congruence.
    - apply children_In in E as [c' [Hc' [Hp Hid]]].
      apply (key_injective w) in Hid; try assumption. subst c'.
      rewrite Hcp, Hu in Hp. injection Hp as Hp.
      apply (key_injective w) in Hp; try assumption. contradiction. }
  split; [|split].
  - eexists. split; [apply UsersService_scope | exact Hdown].
  - eexists. split.
    + apply (OrganizationsService_scope user w b); auto.
    + rewrite Hbp. intros E. apply in_app_or in E as [E|E]; [now apply Hdown|].
      destruct (Js.truthy (Organization.organizationId a)); simpl in E;
        [destruct E as [E|[]]; congruence | contradiction].
  - intros Hrole. eexists. split;
      [apply TasksService_scope_nonOwner; assumption | exact Hdown].
Qed.

Lemma C5_witness :
  (exists ids,
      UsersService.getAccessibleOrganizationIds Sample.admin_eng Sample.world
      = (Ok ids, Sample.world) /\ ~ In "org-sales" ids)
  /\ (exists ids,
         OrganizationsService.getAccessibleOrganizationIds
           Sample.admin_eng Sample.world
         = (Ok ids, Sample.world) /\ ~ In "org-sales" ids)
  /\ (exists ids,
         TasksService.getAccessibleOrganizationIds Sample.admin_eng Sample.world
         = (Ok ids, Sample.world) /\ ~ In "org-sales" ids).
Proof.
  destruct (C5_sibling_isolation
              Sample.world Sample.admin_eng
              Sample.acme Sample.engineering Sample.sales
              Sample_organizationKey
              (or_introl eq_refl)
              (or_intror (or_introl eq_refl))
              (or_intror (or_intror (or_introl eq_refl)))
              eq_refl eq_refl eq_refl
              ltac:(discriminate) eq_refl)
    as [Husers [Horgs Htasks]].
  split; [exact Husers|]. split; [exact Horgs|].
  apply Htasks. discriminate.
Defined.

(** ** The audit trail: appending *)

Lemma log_unavailable (entry : LogEntry.t) (w : World) :
  auditStoreAvailable w = false ->
  AuditService.log entry w
  = (Throw (QueryFailedError "audit_logs: write failed"), w).
Proof.
  intros H. unfold AuditService.log, AuditService.auditLogRepository_save.
  run. now rewrite H.
Qed.

Lemma log_available (entry : LogEntry.t) (w : World) :
  auditStoreAvailable w = true ->
  exists w',
    AuditService.log entry w
    = (Ok (AuditService.create entry (uuid (nextId w)) (clock w)), w')
    /\ audit_logs w'
       = audit_logs w ++ [AuditService.create entry (uuid (nextId w)) (clock w)]
    /\ users w' = users w /\ tasks w' = tasks w
    /\ organizations w' = organizations w
    /\ auditStoreAvailable w' = true
    /\ List.length (console w') = S (List.length (console w)).
Proof.
  intros H. unfold AuditService.log, AuditService.auditLogRepository_save,
    AuditService.console_log.
  run. rewrite H. simpl. eexists. split; [reflexivity|]. simpl.
  rewrite length_app. simpl. repeat split; auto. lia.
Qed.

Lemma log_frame (entry : LogEntry.t) (w : World) :
  users (snd (AuditService.log entry w)) = users w
  /\ tasks (snd (AuditService.log entry w)) = tasks w
  /\ organizations (snd (AuditService.log entry w)) = organizations w
  /\ auditStoreAvailable (snd (AuditService.log entry w))
     = auditStoreAvailable w
  /\ audit_logs (snd (AuditService.log entry w))
     = audit_logs w
       ++ (if auditStoreAvailable w
           then [AuditService.create entry (uuid (nextId w)) (clock w)]
           else []).
Proof.
  unfold AuditService.log, AuditService.auditLogRepository_save,
    AuditService.console_log.
  run. destruct (auditStoreAvailable w) eqn:E; simpl; rewrite ?app_nil_r; auto.
Qed.

Lemma log_then_ret {B} (b : B) (entry : LogEntry.t) (w : World) :
  snd (bind (AuditService.log entry) (fun _ => ret b) w)
  = snd (AuditService.log entry w)
  /\ fst (bind (AuditService.log entry) (fun _ => ret b) w)
     = if auditStoreAvailable w then Ok b
       else Throw (QueryFailedError "audit_logs: write failed").
Proof.
  unfold bind. destruct (auditStoreAvailable w) eqn:E.
  - destruct (log_available entry w E) as [w' [Hl _]]. rewrite Hl. now split.
  - rewrite (log_unavailable entry w E). now split.
Qed.




(** ** The audit trail: querying *)

Lemma insertDesc_In {A} (key : A -> nat) (e x : A) (l : list A) :
  In x (insertDesc key e l) <-> x = e \/ In x l.
Proof.
  induction l as [|y l IH]; simpl.
  - intuition.
  - destruct (Nat.ltb (key y) (key e)); simpl; [intuition|].
    rewrite IH. intuition.
Qed.

Lemma orderByDesc_In {A} (key : A -> nat) (x : A) (l : list A) :
  In x (orderByDesc key l) <-> In x l.
Proof.
  unfold orderByDesc. induction l as [|y l IH]; simpl; [reflexivity|].
  rewrite insertDesc_In, IH. intuition.
Qed.

Lemma insertDesc_length {A} (key : A -> nat) (e : A) (l : list A) :
  List.length (insertDesc key e l) = S (List.length l).
Proof.
  induction l as [|y l IH]; simpl; [reflexivity|].
  destruct (Nat.ltb (key y) (key e)); simpl; [reflexivity | now rewrite IH].
Qed.

Lemma orderByDesc_length {A} (key : A -> nat) (l : list A) :
  List.length (orderByDesc key l) = List.length l.
Proof.
  unfold orderByDesc. induction l as [|y l IH]; simpl; [reflexivity|].
  now rewrite insertDesc_length, IH.
Qed.

Lemma firstn_In {A} (n : nat) (l : list A) (x : A) :
  In x (firstn n l) -> In x l.
Proof.
  intros H. rewrite <- (firstn_skipn n l). apply in_or_app. now left.
Qed.

Lemma skipn_In {A} (n : nat) (l : list A) (x : A) :
  In x (skipn n l) -> In x l.
Proof.
  intros H. rewrite <- (firstn_skipn n l). apply in_or_app. now right.
Qed.

Lemma paginate_In {A} (page limit : Z) (rows : list A) (x : A) :
  In x (paginate page limit rows) -> In x rows.
Proof.
  unfold paginate. cbv zeta. destruct (limit <? 0)%Z; intros H.
  - eapply skipn_In, H.
  - eapply skipn_In, firstn_In, H.
Qed.

(** Every row is on some page. *)
Lemma In_some_page {A} (limit : Z) (rows : list A) (x : A) :
  (0 < limit)%Z -> In x rows ->
  exists page : Z, In x (paginate page limit rows).
Proof.
  intros Hpos Hin. apply In_nth_error in Hin as [i Hi].
  set (n := Z.to_nat limit).
  assert (Hn : n <> 0) by (unfold n; lia).
  exists (Z.of_nat (i / n) + 1)%Z. unfold paginate. cbv zeta.
  replace (limit <? 0)%Z with false by (symmetry; apply Z.ltb_ge; lia).
  replace (Z.to_nat ((Z.of_nat (i / n) + 1 - 1) * limit)) with (i / n * n).
  2:{ replace (Z.of_nat (i / n) + 1 - 1)%Z with (Z.of_nat (i / n)) by lia.
      rewrite Z2Nat.inj_mul by lia. now rewrite Nat2Z.id. }
  fold n. apply nth_error_In with (n := i mod n).
  rewrite nth_error_firstn.
  pose proof (Nat.mod_upper_bound i n Hn) as Hlt.
  apply Nat.ltb_lt in Hlt. rewrite Hlt.
  rewrite nth_error_skipn.
  replace (i / n * n + i mod n) with i; [assumption|].
  rewrite (Nat.div_mod_eq i n) at 1. lia.
Qed.

Lemma filter_length_mono {A} (f g : A -> bool) (l : list A) :
  (forall x, f x = true -> g x = true) ->
  List.length (filter f l) <= List.length (filter g l).
Proof.
  intros H. induction l as [|x l IH]; simpl; [lia|].
  destruct (f x) eqn:Ef.
  - rewrite (H x Ef). simpl. lia.
  - destruct (g x); simpl; lia.
Qed.

Lemma scopeClause_spec (currentUser : IUser.t) (e : AuditLog.t) :
  AuditService.scopeClause currentUser e = true
  <-> IUser.role currentUser = OWNER
      \/ AuditLog.organizationId e = Some (IUser.organizationId currentUser).
Proof.
  unfold AuditService.scopeClause, AuditService.inOrganization.
  destruct (Role_eqb (IUser.role currentUser) OWNER) eqn:E; simpl.
  - apply Role_eqb_eq in E. intuition.
  - apply Role_eqb_neq in E. rewrite opt_eqb_eq. intuition.
Qed.

Lemma andWhereString_spec (param : option string)
  (column : AuditLog.t -> option string) (e : AuditLog.t) :
  AuditService.andWhereString param column e = true
  <-> forall v, param = Some v -> Js.truthy v = true -> column e = Some v.
Proof.
  unfold AuditService.andWhereString. destruct param as [v|].
  - destruct (Js.truthy v) eqn:T.
    + rewrite opt_eqb_eq. split.
      * intros H v' [= <-] _. exact H.
      * intros H. now apply H.
    + split; [|reflexivity]. intros _ v' [= <-] T'. congruence.
  - split; [|reflexivity]. intros _ v' [=].
Qed.

(** The filter of [findAll], clause by clause: a parameter that is absent
    (or an empty string) puts no condition on the entry. *)
Lemma filterClause_spec (options : AuditQueryOptions.t) (e : AuditLog.t) :
  AuditService.filterClause options e = true
  <-> (forall v, AuditQueryOptions.action options = Some v ->
                 Js.truthy v = true -> AuditLog.action e = v)
      /\ (forall v, AuditQueryOptions.resource options = Some v ->
                    Js.truthy v = true -> AuditLog.resource e = v)
      /\ (forall v, AuditQueryOptions.userId options = Some v ->
                    Js.truthy v = true -> AuditLog.userId e = Some v)
      /\ (forall d, AuditQueryOptions.startDate options = Some d ->
                    d < AuditLog.createdAt e)
      /\ (forall d, AuditQueryOptions.endDate options = Some d ->
                    AuditLog.createdAt e <= d).
Proof.
  unfold AuditService.filterClause.
  rewrite !andb_true_iff, !andWhereString_spec.
  assert (Hs : match AuditQueryOptions.startDate options with
               | Some d => Nat.ltb d (AuditLog.createdAt e)
               | None => true
               end = true
               <-> forall d, AuditQueryOptions.startDate options = Some d ->
                             d < AuditLog.createdAt e).
  { destruct (AuditQueryOptions.startDate options) as [d|].
    - rewrite Nat.ltb_lt. split; [intros H d' [= <-]; exact H | auto].
    - split; [intros _ d' [=] | reflexivity]. }
  assert (He : match AuditQueryOptions.endDate options with
               | Some d => Nat.leb (AuditLog.createdAt e) d
               | None => true
               end = true
               <-> forall d, AuditQueryOptions.endDate options = Some d ->
                             AuditLog.createdAt e <= d).
  { destruct (AuditQueryOptions.endDate options) as [d|].
    - rewrite Nat.leb_le. split; [intros H d' [= <-]; exact H | auto].
    - split; [intros _ d' [=] | reflexivity]. }
  rewrite Hs, He. clear Hs He.
  split.
  - intros [[[[Ha Hr] Hu] Hs] He]. repeat split; try assumption.
    + intros v Hv Tv. specialize (Ha v Hv Tv). now injection Ha.
    + intros v Hv Tv. specialize (Hr v Hv Tv). now injection Hr.
  - intros [Ha [Hr [Hu [Hs He]]]]. repeat split; try assumption.
    + intros v Hv Tv. f_equal. now apply Ha.
    + intros v Hv Tv. f_equal. now apply Hr.
Qed.

Lemma findAll_rows_In (options : AuditQueryOptions.t) (currentUser : IUser.t)
  (w : World) (e : AuditLog.t) :
  In e (AuditService.findAll_rows options currentUser w)
  <-> In e (audit_logs w)
      /\ AuditService.scopeClause currentUser e = true
      /\ AuditService.filterClause options e = true.
Proof.
  unfold AuditService.findAll_rows, AuditService.orderByCreatedAtDesc.
  rewrite orderByDesc_In, filter_In, andb_true_iff. reflexivity.
Qed.

(** C3, as stated, fails: for an ADMIN of the root Acme the resolved
    scope holds the child Engineering, and the entry of Engineering matches
    the empty filter, yet the query returns the entry of Acme alone. *)
Lemma C3_counterexample :
  IUser.role Sample.admin_acme <> OWNER
  /\ In Sample.entry_eng (audit_logs Sample.world)
  /\ fst (UsersService.getAccessibleOrganizationIds
            Sample.admin_acme Sample.world)
     = Ok ["org-acme"; "org-eng"; "org-sales"]
  /\ AuditLog.organizationId Sample.entry_eng = Some "org-eng"
  /\ AuditService.filterClause AuditQueryOptions.empty Sample.entry_eng = true
  /\ fst (AuditService.findAll AuditQueryOptions.empty
            Sample.admin_acme Sample.world)
     = Ok ([Sample.entry_acme], 1).
Proof. repeat split; simpl; auto. discriminate. Qed.

Lemma insertDesc_sorted {A} (key : A -> nat) (e : A) (l : list A) :
  StronglySorted (fun a b => key b <= key a) l ->
  StronglySorted (fun a b => key b <= key a) (insertDesc key e l).
Proof.
  induction l as [|x l IH]; simpl; intros Hs.
  - repeat constructor.
  - inversion Hs as [|? ? Hl Hx]; subst.
    destruct (Nat.ltb_spec (key x) (key e)) as [Hlt|Hge].
    + constructor; [assumption|]. constructor; [lia|].
      rewrite Forall_forall in *. intros y Hy. specialize (Hx y Hy). lia.
    + constructor; [now apply IH|].
      rewrite Forall_forall in *. intros y Hy.
      apply insertDesc_In in Hy as [->|Hy]; [assumption | now apply Hx].
Qed.

Lemma orderByDesc_sorted {A} (key : A -> nat) (l : list A) :
  StronglySorted (fun a b => key b <= key a) (orderByDesc key l).
Proof.
  unfold orderByDesc. induction l as [|x l IH]; simpl.
  - constructor.
  - now apply insertDesc_sorted.
Qed.

Lemma insertDesc_NoDup {A} (key : A -> nat) (e : A) (l : list A) :
  NoDup l -> ~ In e l -> NoDup (insertDesc key e l).
Proof.
  induction l as [|x l IH]; simpl; intros Hnd Hnot.
  - constructor; [intros []|constructor].
  - destruct (Nat.ltb (key x) (key e)).
    + constructor; [exact Hnot | exact Hnd].
    + inversion Hnd as [|? ? Hx Hl]; subst. constructor.
      * rewrite insertDesc_In. intros [->|C]; [|contradiction].
        apply Hnot. now left.
      * apply IH; [exact Hl|]. intros C. apply Hnot. now right.
Qed.

Lemma orderByDesc_NoDup {A} (key : A -> nat) (l : list A) :
  NoDup l -> NoDup (orderByDesc key l).
Proof.
  unfold orderByDesc. induction l as [|x l IH]; simpl; intros Hnd.
  - constructor.
  - inversion Hnd as [|? ? Hx Hl]; subst.
    apply insertDesc_NoDup; [now apply IH|].
    fold (orderByDesc key l). now rewrite orderByDesc_In.
Qed.

(** A page is a run of consecutive rows: the rows before it are the
    offset (or all rows, when there are fewer), and it holds [limit] rows
    (or what is left), or everything that is left when [limit] is below
    zero. *)
Lemma paginate_segment {A} (page limit : Z) (rows : list A) :
  exists before after,
    rows = before ++ paginate page limit rows ++ after
    /\ List.length before
       = Nat.min (Z.to_nat ((page - 1) * limit)) (List.length rows)
    /\ ((limit < 0)%Z -> after = [])
    /\ ((0 <= limit)%Z ->
        List.length (paginate page limit rows)
        = Nat.min (Z.to_nat limit) (List.length rows - List.length before)).
Proof.
  unfold paginate. cbv zeta.
  set (offset := Z.to_nat ((page - 1) * limit)).
  exists (firstn offset rows).
  destruct (Z.ltb_spec limit 0) as [Hneg|Hpos].
  - exists []. rewrite app_nil_r, firstn_skipn, length_firstn.
    split; [reflexivity|]. split; [reflexivity|].
    split; [reflexivity | lia].
  - exists (skipn (Z.to_nat limit) (skipn offset rows)).
    rewrite (firstn_skipn (Z.to_nat limit)), firstn_skipn.
    rewrite !length_firstn, length_skipn.
    split; [reflexivity|]. split; [reflexivity|].
    split; [lia | lia].
Qed.

(** C3 (amended).  [findAll] reads the table and changes nothing.  The
    rows it selects are exactly the appended entries that satisfy the
    scope clause and every filter clause: an OWNER is not restricted; any
    other principal sees an entry only when the entry's organizationId
    equals the principal's own organizationId (entries of child
    organizations and entries without organization are not selected); a
    filter parameter that is absent or empty puts no condition; [action],
    [resource] and [userId] select by equality, [startDate] keeps the
    entries created after its second and [endDate] those created up to
    and in its second.  An entry is selected as often as it is in the
    table.  [total] is the number of selected rows; the selected rows are
    ordered newest first, and [data] is the run of consecutive rows that
    starts after [(page - 1) * limit] rows (an offset below zero is zero)
    and holds [limit] rows, or what is left, or everything that is left
    when [limit] is below zero.  The defaults are page 1 and limit 50. *)
Theorem C3_audit_query_own_organization
  (options : AuditQueryOptions.t) (currentUser : IUser.t) (w : World) :
  let page :=
    match AuditQueryOptions.page options with Some p => p | None => 1%Z end in
  let limit :=
    match AuditQueryOptions.limit options with Some l => l | None => 50%Z end in
  exists rows data before after,
    AuditService.findAll options currentUser w = (Ok (data, List.length rows), w)
    /\ (forall e,
           In e rows
           <-> In e (audit_logs w)
               /\ (IUser.role currentUser = OWNER
                   \/ AuditLog.organizationId e
                      = Some (IUser.organizationId currentUser))
               /\ (forall v, AuditQueryOptions.action options = Some v ->
                              Js.truthy v = true -> AuditLog.action e = v)
               /\ (forall v, AuditQueryOptions.resource options = Some v ->
                              Js.truthy v = true -> AuditLog.resource e = v)
               /\ (forall v, AuditQueryOptions.userId options = Some v ->
                              Js.truthy v = true -> AuditLog.userId e = Some v)
               /\ (forall d, AuditQueryOptions.startDate options = Some d ->
                              d < AuditLog.createdAt e)
               /\ (forall d, AuditQueryOptions.endDate options = Some d ->
                              AuditLog.createdAt e <= d))
    /\ (NoDup (audit_logs w) -> NoDup rows)
    /\ StronglySorted
         (fun a b => AuditLog.createdAt b <= AuditLog.createdAt a) rows
    /\ rows = before ++ data ++ after
    /\ List.length before
       = Nat.min (Z.to_nat ((page - 1) * limit)) (List.length rows)
    /\ ((limit < 0)%Z -> after = [])
    /\ ((0 <= limit)%Z ->
        List.length data
        = Nat.min (Z.to_nat limit) (List.length rows - List.length before)).
Proof.
  intros page limit.
  set (rows := AuditService.findAll_rows options currentUser w).
  destruct (paginate_segment page limit rows)
    as [before [after [Hrows [Hbefore [Hneg Hpos]]]]].
  exists rows, (paginate page limit rows), before, after.
  split; [reflexivity|]. split; [|split; [|split; [|repeat split; assumption]]].
  - intros e. unfold rows.
    rewrite findAll_rows_In, scopeClause_spec, filterClause_spec. reflexivity.
  - intros Hnd. unfold rows, AuditService.findAll_rows,
      AuditService.orderByCreatedAtDesc.
    apply orderByDesc_NoDup. now apply NoDup_filter.
  - apply (orderByDesc_sorted AuditLog.createdAt).
Qed.

Lemma C3_witness :
  exists rows data before after,
    AuditService.findAll AuditQueryOptions.empty Sample.admin_eng Sample.world
    = (Ok (data, List.length rows), Sample.world)
    /\ rows = before ++ data ++ after.
Proof.
  destruct (C3_audit_query_own_organization
              AuditQueryOptions.empty Sample.admin_eng Sample.world)
    as [rows [data [before [after [Hrun [_ [_ [_ [Hrows _]]]]]]]]].
  exists rows, data, before, after. split; [exact Hrun | exact Hrows].
Defined.

(** C8.  For a principal who is not OWNER, whatever filter parameters and
    paging are supplied, every entry [findAll] returns belongs to the
    principal's own organization and is a row of the same query without
    filter parameters; the filtered [total] is at most the unfiltered one;
    and, for a positive [limit], each returned entry is on some page of
    the query without filter parameters. *)
Theorem C8_filters_only_narrow
  (options : AuditQueryOptions.t) (currentUser : IUser.t) (w : World)
  (data : list AuditLog.t) (total : nat) :
  IUser.role currentUser <> OWNER ->
  fst (AuditService.findAll options currentUser w) = Ok (data, total) ->
  (forall e,
      In e data ->
      AuditLog.organizationId e = Some (IUser.organizationId currentUser)
      /\ In e (AuditService.findAll_rows
                 (AuditQueryOptions.withoutFilters options) currentUser w)
      /\ AuditService.filterClause options e = true)
  /\ total
     <= List.length (AuditService.findAll_rows
                       (AuditQueryOptions.withoutFilters options) currentUser w)
  /\ ((0 < AuditService.limitOf options)%Z ->
      forall e,
        In e data ->
        exists page data' total',
          fst (AuditService.findAll
                 (AuditQueryOptions.withPage page
                    (AuditQueryOptions.withoutFilters options))
                 currentUser w) = Ok (data', total')
          /\ In e data').
Proof.
  intros Hrole Hrun. simpl in Hrun. injection Hrun as <- <-.
  assert (Hsub : forall e,
    In e (paginate (AuditService.pageOf options) (AuditService.limitOf options)
            (AuditService.findAll_rows options currentUser w)) ->
    AuditLog.organizationId e = Some (IUser.organizationId currentUser)
    /\ In e (AuditService.findAll_rows
               (AuditQueryOptions.withoutFilters options) currentUser w)
    /\ AuditService.filterClause options e = true).
  { intros e He. apply paginate_In, findAll_rows_In in He as [Hin [Hs Hf]].
    split; [|split; [|exact Hf]].
    - apply scopeClause_spec in Hs as [Hs|Hs]; [contradiction | exact Hs].
    - apply findAll_rows_In. repeat split; assumption. }
  split; [exact Hsub|]. split.
  - unfold AuditService.findAll_rows, AuditService.orderByCreatedAtDesc.
    rewrite !orderByDesc_length. apply filter_length_mono.
    intros x Hx. apply andb_true_iff in Hx as [Hs _]. now rewrite Hs.
  - intros Hpos e He. apply Hsub in He as [_ [He _]].
    destruct (In_some_page (AuditService.limitOf options) _ e Hpos He)
      as [page Hpage].
    exists page. eexists. eexists. split; [reflexivity|]. exact Hpage.
Qed.

Lemma C8_witness :
  let options :=
    AuditQueryOptions.mk (Some "LOGIN") None None None None None (Some 1%Z) in
  fst (AuditService.findAll options Sample.admin_eng Sample.world)
  = Ok ([Sample.entry_eng_login], 1)
  /\ (forall e,
         In e [Sample.entry_eng_login] ->
         AuditLog.organizationId e = Some "org-eng"
         /\ In e (AuditService.findAll_rows
                    (AuditQueryOptions.withoutFilters options)
                    Sample.admin_eng Sample.world)
         /\ AuditService.filterClause options e = true)
  /\ 1 <= List.length (AuditService.findAll_rows
                         (AuditQueryOptions.withoutFilters options)
                         Sample.admin_eng Sample.world).
Proof.
  intros options.
  destruct (C8_filters_only_narrow options Sample.admin_eng Sample.world
              [Sample.entry_eng_login] 1
              ltac:(discriminate) eq_refl)
    as [Hsub [Htotal _]].
  split; [reflexivity|]. split; [exact Hsub | exact Htotal].
Defined.

(** ** The failed-logins route *)

Lemma scopeClause_owner (currentUser : IUser.t) (e : AuditLog.t) :
  IUser.role currentUser = OWNER ->
  AuditService.scopeClause currentUser e = true.
Proof. intros H. apply scopeClause_spec. now left. Qed.

Lemma getFailedLogins_owner (currentUser : IUser.t) (w : World) :
  IUser.role currentUser = OWNER ->
  AuditService.getFailedLogins currentUser w
  = (Ok (firstn 50
           (AuditService.orderByCreatedAtDesc
              (filter AuditService.isFailedLogin (audit_logs w)))), w).
Proof.
  intros H. unfold AuditService.getFailedLogins, bind, gets, ret.
  rewrite (filter_ext
             (fun e => AuditService.isFailedLogin e
                       && AuditService.scopeClause currentUser e)
             AuditService.isFailedLogin); [reflexivity|].
  intros e. rewrite (scopeClause_owner currentUser e H). apply andb_true_r.
Qed.

Lemma filter_none {A} (l : list A) : filter (fun _ => false) l = [].
Proof. induction l as [|x l IH]; [reflexivity | exact IH]. Qed.

(** The method run with a principal is the method as it is declared. *)
Lemma getFailedLogins_at_run_time_typed (currentUser : IUser.t) (w : World) :
  AuditService.getFailedLogins_at_run_time (AuditService.ArgUser currentUser) w
  = AuditService.getFailedLogins currentUser w.
Proof. reflexivity. Qed.

(** C6.  The failed-logins route lets only an OWNER through, and gives
    the OWNER no entry.  Without an authenticated principal it throws
    [UnauthorizedException] and for an ADMIN or a VIEWER the roles guard
    throws [ForbiddenException]: no principal who is not OWNER obtains a
    result.  For an OWNER the handler calls the service with the [email]
    of the query string where the method expects the principal: without
    [email] the method throws [TypeError], and with one it answers with the
    empty list, whatever failed logins the table holds.  The method as
    declared, run with the OWNER as principal, would return the fifty
    newest failed-login entries of all organizations.  The database is
    never changed. *)
Theorem C6_failed_logins_route_gives_an_owner_no_entry
  (requestUser : option IUser.t) (email hours : option string) (w : World) :
  AuditController.getFailedLogins requestUser email hours w
  = (match requestUser with
     | None => Throw (UnauthorizedException "Authentication required")
     | Some user =>
         match IUser.role user with
         | OWNER =>
             match email with
             | None =>
                 Throw (TypeError
                          "Cannot read properties of undefined (reading 'role')")
             | Some _ =>
                 Ok (IApiResponse.mk true []
                       "Failed login attempts retrieved successfully")
             end
         | ADMIN =>
             Throw (ForbiddenException
                      "Access denied. Required role: owner. Your role: admin")
         | VIEWER =>
             Throw (ForbiddenException
                      "Access denied. Required role: owner. Your role: viewer")
         end
     end, w)
  /\ (forall user,
         IUser.role user = OWNER ->
         exists failed,
           AuditService.getFailedLogins user w = (Ok (firstn 50 failed), w)
           /\ StronglySorted
                (fun a b => AuditLog.createdAt b <= AuditLog.createdAt a) failed
           /\ forall e,
                In e failed
                <-> In e (audit_logs w)
                    /\ AuditLog.action e = "LOGIN_FAILED"%string
                    /\ AuditLog.success e = false).
Proof.
  split.
  - destruct requestUser as [user|]; [|reflexivity].
    unfold AuditController.getFailedLogins. simpl.
    destruct (IUser.role user) eqn:E; simpl; try reflexivity.
    destruct email as [s|]; [|reflexivity].
    unfold bind, AuditService.getFailedLogins_at_run_time. cbn [AuditService.roleOf].
    unfold bind, gets, ret. cbn [AuditService.organizationIdOf negb].
    rewrite (filter_ext _ (fun _ => false))
      by (intros e; apply andb_false_r).
    rewrite filter_none. reflexivity.
  - intros user Hrole. eexists. split; [apply (getFailedLogins_owner user w Hrole)|].
    split; [apply (orderByDesc_sorted AuditLog.createdAt)|].
    intros e. unfold AuditService.orderByCreatedAtDesc.
    rewrite orderByDesc_In, filter_In. unfold AuditService.isFailedLogin.
    rewrite andb_true_iff, String.eqb_eq, Bool.eqb_true_iff. reflexivity.
Qed.

(** A request of the OWNER of Engineering, with and without [email],
    while the table holds two failed logins. *)
Example failed_logins_route_on_sample :
  fst (AuditController.getFailedLogins (Some Sample.owner_eng)
         (Some "viewer@engineering"%string) None Sample.world)
  = Ok (IApiResponse.mk true [] "Failed login attempts retrieved successfully")
  /\ fst (AuditController.getFailedLogins (Some Sample.owner_eng) None None
            Sample.world)
     = Throw (TypeError "Cannot read properties of undefined (reading 'role')")
  /\ fst (AuditService.getFailedLogins Sample.owner_eng Sample.world)
     = Ok [Sample.entry_sales; Sample.entry_anonymous].
Proof. repeat split. Qed.

(** ** Access to one task *)

(** C7.  A VIEWER reads a task exactly when the task is their own: the
    check passes for every task whose userId is the principal's id, in
    whatever organization the task lies, and for a task of another user it
    throws [ForbiddenException] from the viewer branch, the principal's own
    organization included.  [findOne] gives the same verdict on a stored
    task. *)
Theorem C7_viewer_reads_own_tasks_only
  (task : Task.t) (user : IUser.t) (w : World) :
  IUser.role user = VIEWER ->
  (Task.userId task = IUser.id user ->
   TasksService.checkTaskAccess task user read w = (Ok tt, w))
  /\ (Task.userId task <> IUser.id user ->
      TasksService.checkTaskAccess task user read w
      = (Throw (ForbiddenException "You do not have access to this task"), w))
  /\ (forall taskId,
         List.find (TasksService.hasId taskId) (tasks w) = Some task ->
         TasksService.findOne taskId user w
         = (if String.eqb (Task.userId task) (IUser.id user)
            then Ok task
            else Throw (ForbiddenException "You do not have access to this task"),
            w)).
Proof.
  intros Hrole.
  assert (Hcheck :
    TasksService.checkTaskAccess task user read w
    = (if String.eqb (Task.userId task) (IUser.id user)
       then Ok tt
       else Throw (ForbiddenException "You do not have access to this task"),
       w)).
  { unfold TasksService.checkTaskAccess. rewrite Hrole. simpl.
    destruct (String.eqb (Task.userId task) (IUser.id user)); reflexivity. }
  split; [|split].
  - intros Hown. rewrite Hcheck. apply String.eqb_eq in Hown.
    now rewrite Hown.
  - intros Hother. rewrite Hcheck. apply String.eqb_neq in Hother.
    now rewrite Hother.
  - intros taskId Hfind. unfold TasksService.findOne, bind, gets.
    rewrite Hfind, Hcheck.
    destruct (String.eqb (Task.userId task) (IUser.id user)); reflexivity.
Qed.

Lemma C7_witness :
  Task.organizationId Sample.task_viewer <> IUser.organizationId Sample.viewer_eng
  /\ TasksService.checkTaskAccess Sample.task_viewer Sample.viewer_eng read
       Sample.world = (Ok tt, Sample.world)
  /\ Task.organizationId Sample.task_admin = IUser.organizationId Sample.viewer_eng
  /\ TasksService.checkTaskAccess Sample.task_admin Sample.viewer_eng read
       Sample.world
     = (Throw (ForbiddenException "You do not have access to this task"),
        Sample.world).
Proof.
  destruct (C7_viewer_reads_own_tasks_only
              Sample.task_viewer Sample.viewer_eng Sample.world eq_refl)
    as [Hown _].
  destruct (C7_viewer_reads_own_tasks_only
              Sample.task_admin Sample.viewer_eng Sample.world eq_refl)
    as [_ [Hother _]].
  split; [discriminate|]. split; [apply Hown; reflexivity|].
  split; [reflexivity|]. apply Hother. discriminate.
Defined.

(** ** Reordering tasks *)

Lemma set_tasks_same (w : World) : set_tasks (tasks w) w = w.
Proof. now destruct w. Qed.

Lemma truthy_false (x : string) : Js.truthy x = false <-> x = EmptyString.
Proof. destruct x; simpl; split; intros H; congruence. Qed.

Lemma untilEmpty_spec (taskIds : list string) :
  ~ In EmptyString (untilEmpty taskIds)
  /\ (forallb Js.truthy taskIds = true -> taskIds = untilEmpty taskIds)
  /\ (forallb Js.truthy taskIds = false ->
      exists rest, taskIds = untilEmpty taskIds ++ EmptyString :: rest).
Proof.
  induction taskIds as [|x rest [IH1 [IH2 IH3]]]; simpl.
  - split; [intros []|]. split; [reflexivity | discriminate].
  - destruct (Js.truthy x) eqn:E; simpl.
    + split; [|split].
      * intros [C|C]; [subst x; discriminate | contradiction].
      * intros H. f_equal. now apply IH2.
      * intros H. destruct (IH3 H) as [rest' Hrest]. exists rest'.
        now rewrite <- Hrest.
    + split; [intros []|]. split; [discriminate|].
      intros _. apply truthy_false in E. subst x. now exists rest.
Qed.

Lemma reorder_loop_run (taskIds : list string) :
  forall (i : nat) (w : World),
    TasksService.reorder_loop i taskIds w
    = (if forallb Js.truthy taskIds then Ok tt
       else Throw (TypeORMError
                     "Empty criteria(s) are not allowed for the update method."),
       set_tasks (map (reordered (untilEmpty taskIds) i (clock w)) (tasks w)) w).
Proof.
  induction taskIds as [|x rest IH]; intros i w.
  - simpl. unfold ret. f_equal. unfold reordered. simpl.
    rewrite map_id. symmetry. apply set_tasks_same.
  - cbn [TasksService.reorder_loop forallb untilEmpty]. unfold bind at 1.
    unfold TasksService.taskRepository_update.
    destruct (Js.truthy x) eqn:E; cbn [negb andb].
    + unfold modify. rewrite IH. cbn [clock set_tasks]. f_equal.
      unfold set_tasks. cbn [tasks organizations users audit_logs
        auditStoreAvailable clock nextId console]. f_equal.
      rewrite map_map. apply map_ext. intros t.
      unfold reordered, TasksService.hasId. cbn [lastIndexFrom].
      destruct (String.eqb (Task.taskId t) x) eqn:Ex; simpl;
        destruct (lastIndexFrom (S i) (Task.taskId t) (untilEmpty rest));
        reflexivity.
    + unfold throw. f_equal. unfold reordered. cbn [lastIndexFrom].
      rewrite map_id. symmetry. apply set_tasks_same.
Qed.

Lemma lastIndexFrom_prefix (taskIds : list string) :
  forall (s i : nat) (taskId : string),
    nth_error taskIds i = Some taskId ->
    lastIndexFrom s taskId (firstn (S i) taskIds) = Some (s + i).
Proof.
  induction taskIds as [|x rest IH]; intros s i taskId H.
  - destruct i; discriminate.
  - destruct i as [|i].
    + simpl in H. injection H as ->. simpl.
      rewrite String.eqb_refl. f_equal. lia.
    + simpl in H. change (firstn (S (S i)) (x :: rest))
        with (x :: firstn (S i) rest).
      cbn [lastIndexFrom]. rewrite (IH (S s) i taskId H). f_equal. lia.
Qed.

Lemma lastIndexFrom_absent (taskIds : list string) :
  forall (s : nat) (taskId : string),
    ~ In taskId taskIds -> lastIndexFrom s taskId taskIds = None.
Proof.
  induction taskIds as [|x rest IH]; intros s taskId H; [reflexivity|].
  simpl. rewrite IH by (intros C; apply H; now right).
  destruct (String.eqb_spec taskId x) as [->|]; [|reflexivity].
  exfalso. apply H. now left.
Qed.

Lemma lastIndexFrom_last (taskIds : list string) :
  forall (s i : nat) (taskId : string),
    nth_error taskIds i = Some taskId ->
    ~ In taskId (skipn (S i) taskIds) ->
    lastIndexFrom s taskId taskIds = Some (s + i).
Proof.
  induction taskIds as [|x rest IH]; intros s i taskId H Hlater.
  - destruct i; discriminate.
  - destruct i as [|i].
    + simpl in H. injection H as ->. simpl in Hlater. simpl.
      rewrite (lastIndexFrom_absent rest (S s) taskId Hlater).
      rewrite String.eqb_refl. f_equal. lia.
    + simpl in H. cbn [lastIndexFrom].
      rewrite (IH (S s) i taskId H Hlater). f_equal. lia.
Qed.

Lemma reorder_tasks (reorderDto : ReorderTasksDto.t) (taskIds : list string)
  (user : IUser.t) (w : World) :
  ReorderTasksDto.taskIds reorderDto = Some taskIds ->
  tasks (snd (TasksService.reorder reorderDto user w))
  = map (reordered (untilEmpty taskIds) 0 (clock w)) (tasks w).
Proof.
  intros Hids. unfold TasksService.reorder. rewrite Hids. unfold bind at 1.
  rewrite reorder_loop_run.
  destruct (forallb Js.truthy taskIds); [|reflexivity].
  unfold bind.
  match goal with |- context [AuditService.log ?e ?w0] =>
    pose proof (log_frame e w0) as [_ [Ht _]];
    destruct (AuditService.log e w0) as [[a|ex] w1] end;
    simpl in *; exact Ht.
Qed.

(** C9, as stated, fails: with an empty string at index 1 the loop stops
    there, so the task named at index 2 keeps the position it had, and
    [reorder] throws; and an object of the class [ReorderTasksDto], which
    has no [taskIds], makes [reorder] throw before any write. *)
Lemma C9_counterexample :
  let taskIds := ["task-2"%string; EmptyString; "task-1"%string] in
  let r := TasksService.reorder (ReorderTasksDto.mk [] (Some taskIds))
             Sample.viewer_eng Sample.world in
  nth_error taskIds 2 = Some (Task.taskId Sample.task_viewer)
  /\ In Sample.task_viewer (tasks (snd r))
  /\ Task.position Sample.task_viewer <> 2%Z
  /\ fst r = Throw (TypeORMError
                      "Empty criteria(s) are not allowed for the update method.")
  /\ TasksService.reorder
       (ReorderTasksDto.mk [TaskPositionDto.mk "task-1" 0] None)
       Sample.viewer_eng Sample.world
     = (Throw (TypeError "Cannot read properties of undefined (reading 'length')"),
        Sample.world).
Proof.
  cbv zeta. split; [reflexivity|]. split; [simpl; tauto|].
  split; [discriminate|]. split; reflexivity.
Qed.

(** C9 (amended).  [reorder] checks nothing about the caller: the rows
    after the call do not depend on the principal and no
    [ForbiddenException] is ever thrown.  Called with an object that has
    no [taskIds] it throws [TypeError] and changes nothing.  Otherwise the
    keys before the first empty string are written, in order: the table
    keeps its rows in place, with every column but [position] and
    [updatedAt] as it was; a task whose key is [taskIds[i]] gets position
    [i], for the last such [i] among the written keys, and the time of the
    call for [updatedAt]; a task whose key is not written is untouched.
    When no key is empty, all are written, and the call then returns
    and appends one [TASKS_REORDERED] entry whenever the audit table
    accepts the write.  When a key is empty, [update] rejects it: [reorder]
    throws [TypeORMError] after the writes before it, and nothing is put
    in the audit trail. *)
Theorem C9_reorder_sets_positions_without_check
  (reorderDto : ReorderTasksDto.t) (user : IUser.t) (w : World) :
  let r := TasksService.reorder reorderDto user w in
  let w' := snd r in
  match ReorderTasksDto.taskIds reorderDto with
  | None =>
      r = (Throw (TypeError
                    "Cannot read properties of undefined (reading 'length')"), w)
  | Some taskIds =>
      exists written,
        ~ In EmptyString written
        /\ (taskIds = written
            \/ exists rest, taskIds = written ++ EmptyString :: rest)
        /\ List.length (tasks w') = List.length (tasks w)
        /\ (forall n t,
               nth_error (tasks w) n = Some t ->
               exists t',
                 nth_error (tasks w') n = Some t'
                 /\ Task.taskId t' = Task.taskId t
                 /\ Task.title t' = Task.title t
                 /\ Task.description t' = Task.description t
                 /\ Task.status t' = Task.status t
                 /\ Task.priority t' = Task.priority t
                 /\ Task.category t' = Task.category t
                 /\ Task.dueDate t' = Task.dueDate t
                 /\ Task.userId t' = Task.userId t
                 /\ Task.organizationId t' = Task.organizationId t
                 /\ Task.createdAt t' = Task.createdAt t
                 /\ (forall i,
                        nth_error written i = Some (Task.taskId t) ->
                        ~ In (Task.taskId t) (skipn (S i) written) ->
                        Task.position t' = Z.of_nat i
                        /\ Task.updatedAt t' = clock w)
                 /\ (~ In (Task.taskId t) written -> t' = t))
        /\ (forall user',
               tasks (snd (TasksService.reorder reorderDto user' w)) = tasks w')
        /\ (forall message, fst r <> Throw (ForbiddenException message))
        /\ (taskIds = written ->
            auditStoreAvailable w = true ->
            fst r = Ok tt
            /\ exists entry,
                 audit_logs w' = audit_logs w ++ [entry]
                 /\ AuditLog.action entry = "TASKS_REORDERED"%string)
        /\ (taskIds <> written ->
            fst r = Throw (TypeORMError
                             "Empty criteria(s) are not allowed for the update method.")
            /\ audit_logs w' = audit_logs w)
  end.
Proof.
  intros r w'.
  destruct (ReorderTasksDto.taskIds reorderDto) as [taskIds|] eqn:Hids.
  2:{ unfold r, TasksService.reorder. now rewrite Hids. }
  destruct (untilEmpty_spec taskIds) as [Hnone [Hall Hsome]].
  exists (untilEmpty taskIds).
  assert (Hrows : forall u,
    tasks (snd (TasksService.reorder reorderDto u w))
    = map (reordered (untilEmpty taskIds) 0 (clock w)) (tasks w)).
  { intros u. now apply reorder_tasks. }
  assert (Hrun : r
    = (if forallb Js.truthy taskIds
       then bind (AuditService.log
                    (LogEntry.mk "TASKS_REORDERED" "task" None
                       (Some (IUser.id user)) (Some (IUser.email user))
                       (Some (IUser.organizationId user))
                       (TasksService.details_count (List.length taskIds))
                       None None (Some true) None))
              (fun _ => ret tt)
              (set_tasks (map (reordered (untilEmpty taskIds) 0 (clock w))
                            (tasks w)) w)
       else (Throw (TypeORMError
                      "Empty criteria(s) are not allowed for the update method."),
             set_tasks (map (reordered (untilEmpty taskIds) 0 (clock w))
                          (tasks w)) w))).
  { unfold r, TasksService.reorder. rewrite Hids. unfold bind at 1.
    rewrite reorder_loop_run. now destruct (forallb Js.truthy taskIds). }
  split; [exact Hnone|]. split; [|split; [|split; [|split; [|split; [|split]]]]].
  - destruct (forallb Js.truthy taskIds) eqn:E.
    + left. now apply Hall.
    + right. now apply Hsome.
  - unfold w', r. now rewrite Hrows, length_map.
  - intros n t Hn. unfold w', r. rewrite Hrows.
    exists (reordered (untilEmpty taskIds) 0 (clock w) t).
    split; [now apply map_nth_error|].
    unfold reordered.
    destruct (lastIndexFrom 0 (Task.taskId t) (untilEmpty taskIds)) as [k|] eqn:Ek.
    + cbn. repeat split.
      * pose proof (lastIndexFrom_last (untilEmpty taskIds) 0 i _ H H0) as Hl.
        rewrite Hl in Ek. injection Ek as <-. reflexivity.
      * intros Hnot.
        rewrite (lastIndexFrom_absent (untilEmpty taskIds) 0 _ Hnot) in Ek.
        discriminate.
    + repeat split.
      * pose proof (lastIndexFrom_last (untilEmpty taskIds) 0 i _ H H0) as Hl.
        rewrite Hl in Ek. discriminate.
      * pose proof (lastIndexFrom_last (untilEmpty taskIds) 0 i _ H H0) as Hl.
        rewrite Hl in Ek. discriminate.
  - intros user'. unfold w', r. now rewrite !Hrows.
  - intros message. rewrite Hrun.
    destruct (forallb Js.truthy taskIds); [|discriminate].
    match goal with |- context [bind (AuditService.log ?e) _ ?w0] =>
      destruct (log_then_ret tt e w0) as [_ Hfst]; rewrite Hfst;
      destruct (auditStoreAvailable w0) end; discriminate.
  - intros Hwritten Hup. unfold w'. rewrite Hrun.
    destruct (forallb Js.truthy taskIds) eqn:E.
    + match goal with |- context [bind (AuditService.log ?e) _ ?w0] =>
        destruct (log_then_ret tt e w0) as [Hsnd Hfst]; rewrite Hfst, Hsnd;
        destruct (log_frame e w0) as [_ [_ [_ [_ Hlogs]]]]; rewrite Hlogs end.
      cbn [auditStoreAvailable set_tasks audit_logs]. rewrite Hup.
      split; [reflexivity|]. eexists. split; [reflexivity|]. reflexivity.
    + exfalso. destruct (Hsome eq_refl) as [rest Hrest].
      rewrite Hwritten in Hrest at 1.
      apply (f_equal (@List.length string)) in Hrest.
      rewrite length_app in Hrest. simpl in Hrest. lia.
  - intros Hne. unfold w'. rewrite Hrun.
    destruct (forallb Js.truthy taskIds) eqn:E.
    + exfalso. apply Hne. now apply Hall.
    + split; reflexivity.
Qed.

Lemma C9_witness :
  let taskIds := ["task-3"%string; "task-1"%string; "task-3"%string] in
  let r := TasksService.reorder (ReorderTasksDto.mk [] (Some taskIds))
             Sample.viewer_eng Sample.world in
  Task.organizationId Sample.task_acme <> IUser.organizationId Sample.viewer_eng
  /\ fst r = Ok tt
  /\ map Task.position (tasks (snd r)) = [1%Z; 2%Z; 2%Z].
Proof.
  intros taskIds r.
  pose proof (C9_reorder_sets_positions_without_check
                (ReorderTasksDto.mk [] (Some taskIds))
                Sample.viewer_eng Sample.world) as H.
  cbv zeta in H. cbn [ReorderTasksDto.taskIds] in H.
  destruct H as [written [_ [_ [_ [_ [_ [_ [_ _]]]]]]]].
  split; [discriminate|]. split; reflexivity.
Defined.

(** ** Users: soft delete and login *)

Section UsersAndAuth.

Context {libraries : Libraries}.

Lemma save_run (user : User.t) (w : World) :
  UserRepository.save user w
  = (Ok (UserRepository.setUpdatedAt (clock w)
           (UserRepository.hashPasswordBeforeUpdate user)),
     set_users
       (map (UserRepository.replaceRow (User.userId user)
               (UserRepository.setUpdatedAt (clock w)
                  (UserRepository.hashPasswordBeforeUpdate user)))
            (users w)) w).
Proof. reflexivity. Qed.

Lemma userId_saved (now : nat) (u : User.t) :
  User.userId (UserRepository.setUpdatedAt now
                 (UserRepository.hashPasswordBeforeUpdate u))
  = User.userId u.
Proof.
  unfold UserRepository.hashPasswordBeforeUpdate.
  destruct (Js.truthy (User.password u)
            && negb (String.prefix "$2b$" (User.password u))); reflexivity.
Qed.


Lemma replaceRow_find (userId : string) (saved target : User.t) (l : list User.t) :
  User.userId saved = userId ->
  List.find (UserRepository.hasId userId) l = Some target ->
  List.find (UserRepository.hasId userId) (map (UserRepository.replaceRow userId saved) l)
  = Some saved.
Proof.
  intros Hs.
  assert (Hm : UserRepository.hasId userId saved = true)
    by (unfold UserRepository.hasId; now rewrite Hs, String.eqb_refl).
  induction l as [|u l IH]; simpl; [discriminate|].
  unfold UserRepository.replaceRow at 1 2.
  destruct (UserRepository.hasId userId u) eqn:E.
  - intros _. now rewrite Hm.
  - rewrite E. exact IH.
Qed.



Lemma checkUserAccess_reads (target : User.t) (currentUser : IUser.t)
  (action : TaskAction) (w : World) :
  snd (UsersService.checkUserAccess target currentUser action w) = w.
Proof.
  unfold UsersService.checkUserAccess.
  destruct (Role_eqb (IUser.role currentUser) OWNER); [reflexivity|].
  destruct (String.eqb (User.userId target) (IUser.id currentUser));
    [reflexivity|].
  unfold bind.
  destruct (Role_eqb (IUser.role currentUser) ADMIN && TaskAction_eqb action read).
  - rewrite UsersService_scope. cbv beta iota. unfold ret at 1.
    cbv beta iota. destruct (Js.includes _ _); reflexivity.
  - reflexivity.
Qed.

Lemma remove_run (userId : string) (currentUser : IUser.t) (w : World)
  (target : User.t) :
  IUser.role currentUser = OWNER ->
  List.find (UserRepository.hasId userId) (users w) = Some target ->
  exists entry,
    UsersService.remove userId currentUser w
    = bind (AuditService.log entry) (fun _ => ret tt)
        (set_users
           (map (UserRepository.replaceRow userId
                   (UserRepository.setUpdatedAt (clock w)
                      (UserRepository.hashPasswordBeforeUpdate
                         (UsersService.setIsActive false target))))
                (users w)) w).
Proof.
  intros Hrole Hfind.
  assert (Hid : User.userId target = userId).
  { apply find_some in Hfind as [_ Hid]. now apply String.eqb_eq in Hid. }
  unfold UsersService.remove. unfold bind at 1.
  unfold UserRepository.findOne_where_userId, gets. rewrite Hfind, Hrole.
  cbn [Role_eqb negb]. unfold bind at 1. rewrite save_run.
  cbn [User.userId UsersService.setIsActive]. rewrite Hid.
  eexists. reflexivity.
Qed.


















End UsersAndAuth.

(** A login with an e-mail nobody has appends one anonymous
    [LOGIN_FAILED] entry that carries the submitted e-mail. *)
Example login_unknown_email :
  @AuthService.login Sample.libraries
    (LoginDto.mk "ghost@nowhere" "secret") Sample.world
  = (Throw (UnauthorizedException "Invalid email or password"),
     set_console
       [mkConsoleLine false "LOGIN_FAILED" "auth" "ghost@nowhere"]
       (set_nextId 101
          (set_audit_logs
             (audit_logs Sample.world
              ++ [AuditLog.mk "uuid-100" "LOGIN_FAILED" "auth" None None
                    (Some "ghost@nowhere") None
                    (AuthService.reason "User not found") None None false
                    (Some "Invalid credentials") 10])
             Sample.world))).
Proof. reflexivity. Qed.


(* ================================================================== *)
(** * Further properties of the services *)

(** ** Roles, permissions and the two metadata guards *)

(** X1.  [isRoleHigherOrEqual] is a linear order on the three roles, with
    OWNER on top and VIEWER at the bottom. *)
Theorem X1_role_hierarchy_is_linear (a b c : Role) :
  isRoleHigherOrEqual a a = true
  /\ (isRoleHigherOrEqual a b = true -> isRoleHigherOrEqual b c = true ->
      isRoleHigherOrEqual a c = true)
  /\ (isRoleHigherOrEqual a b = true \/ isRoleHigherOrEqual b a = true)
  /\ (isRoleHigherOrEqual a b = true -> isRoleHigherOrEqual b a = true -> a = b)
  /\ isRoleHigherOrEqual OWNER a = true
  /\ isRoleHigherOrEqual a VIEWER = true.
Proof.
  destruct a, b, c; cbv; repeat split; intros; try congruence; auto.
Qed.

Lemma X1_witness :
  isRoleHigherOrEqual OWNER VIEWER = true
  /\ (isRoleHigherOrEqual ADMIN OWNER = true \/ isRoleHigherOrEqual OWNER ADMIN = true).
Proof.
  destruct (X1_role_hierarchy_is_linear OWNER ADMIN VIEWER)
    as [_ [Htrans _]].
  destruct (X1_role_hierarchy_is_linear ADMIN OWNER VIEWER)
    as [_ [_ [Htotal _]]].
  split; [apply Htrans; reflexivity | exact Htotal].
Defined.

Lemma RolesGuard_hasRole (roles : list Role) (user : IUser.t) :
  existsb (fun requiredRole =>
             if Role_eqb (IUser.role user) requiredRole then true
             else isRoleHigherOrEqual (IUser.role user) requiredRole) roles
  = true
  <-> exists r, In r roles
                /\ ROLE_HIERARCHY r <= ROLE_HIERARCHY (IUser.role user).
Proof.
  rewrite existsb_exists. split; intros [r [Hin Hr]]; exists r; (split; [exact Hin|]).
  - destruct (IUser.role user), r; simpl in *; try discriminate; lia.
  - destruct (IUser.role user), r; simpl in *; try reflexivity; lia.
Qed.

(** X2.  [RolesGuard] lets a request through exactly when the principal's
    rank reaches the rank of one of the required roles; so a principal of
    higher rank passes wherever one of lower rank does.  With no required
    role every request passes, an unauthenticated one included; with
    required roles an unauthenticated request is refused. *)
Theorem X2_RolesGuard_admits_by_rank (roles : list Role) (user user' : IUser.t) :
  roles <> [] ->
  (Guards.RolesGuard (Some roles) (Some user) = Ok true
   <-> exists r, In r roles
                 /\ ROLE_HIERARCHY r <= ROLE_HIERARCHY (IUser.role user))
  /\ (Guards.RolesGuard (Some roles) (Some user) <> Ok true ->
      exists message,
        Guards.RolesGuard (Some roles) (Some user)
        = Throw (ForbiddenException message))
  /\ (Guards.RolesGuard (Some roles) (Some user) = Ok true ->
      ROLE_HIERARCHY (IUser.role user) <= ROLE_HIERARCHY (IUser.role user') ->
      Guards.RolesGuard (Some roles) (Some user') = Ok true)
  /\ Guards.RolesGuard (Some roles) None
     = Throw (ForbiddenException "User not authenticated")
  /\ Guards.RolesGuard None None = Ok true
  /\ Guards.RolesGuard (Some []) None = Ok true.
Proof.
  intros Hne.
  assert (Hrun : forall u,
    Guards.RolesGuard (Some roles) (Some u) = Ok true
    <-> exists r, In r roles /\ ROLE_HIERARCHY r <= ROLE_HIERARCHY (IUser.role u)).
  { intros u. rewrite <- RolesGuard_hasRole.
    destruct roles as [|r0 rest]; [contradiction|].
    unfold Guards.RolesGuard.
    destruct (existsb _ (r0 :: rest)); simpl; split; intros H;
      try reflexivity; discriminate. }
  split; [apply Hrun|]. split; [|split; [|split; [|split]]].
  - intros Hno. destruct roles as [|r0 rest]; [contradiction|].
    unfold Guards.RolesGuard in *.
    destruct (existsb _ (r0 :: rest)); simpl in *;
      [contradiction | eexists; reflexivity].
  - intros Hok Hrank. apply Hrun. apply Hrun in Hok as [r [Hin Hr]].
    exists r. split; [assumption | lia].
  - destruct roles; [contradiction | reflexivity].
  - reflexivity.
  - reflexivity.
Qed.

Lemma X2_witness :
  Guards.RolesGuard (Some [ADMIN]) (Some Sample.owner_eng) = Ok true
  /\ exists message,
       Guards.RolesGuard (Some [ADMIN]) (Some Sample.viewer_eng)
       = Throw (ForbiddenException message).
Proof.
  destruct (X2_RolesGuard_admits_by_rank [ADMIN] Sample.admin_eng Sample.owner_eng
              ltac:(discriminate)) as [_ [_ [Hup _]]].
  destruct (X2_RolesGuard_admits_by_rank [ADMIN] Sample.viewer_eng Sample.owner_eng
              ltac:(discriminate)) as [_ [Hdeny _]].
  split.
  - apply Hup; [reflexivity | simpl; lia].
  - apply Hdeny. discriminate.
Defined.

(** X3.  Permissions grow with rank: whatever [hasPermission] grants a
    role it grants every role of equal or higher rank, and OWNER. *)
Theorem X3_permissions_grow_with_rank (r r' : Role) (p : Permission) :
  isRoleHigherOrEqual r' r = true ->
  RoleModel.hasPermission (Role_value r) p = Ok true ->
  RoleModel.hasPermission (Role_value r') p = Ok true
  /\ RoleModel.hasPermission (Role_value OWNER) p = Ok true.
Proof.
  destruct r, r', p; cbv; intros; try discriminate; split; reflexivity.
Qed.

Lemma X3_witness :
  RoleModel.hasPermission (Role_value ADMIN) USER_READ = Ok true
  /\ RoleModel.hasPermission (Role_value OWNER) USER_READ = Ok true.
Proof.
  exact (X3_permissions_grow_with_rank VIEWER ADMIN USER_READ eq_refl eq_refl).
Defined.

Lemma RoleModel_get_role (r : Role) :
  exists items,
    RoleModel.get (Role_value r) = RoleModel.JsArray items
    /\ forall p, RoleModel.includes items p = RoleModel.spec_permission_table r p.
Proof.
  destruct r; eexists; (split; [reflexivity|]); intros p; destruct p; reflexivity.
Qed.

(** X4.  [PermissionsGuard] and [hasPermission] agree: with required
    permissions, an authenticated principal passes exactly when
    [hasPermission] grants its role every one of them; otherwise the guard
    throws [ForbiddenException] naming the permissions that are missing,
    in the order they were required. *)
Theorem X4_PermissionsGuard_agrees_with_hasPermission
  (required : list Permission) (user : IUser.t) :
  required <> [] ->
  (Guards.PermissionsGuard (Some required) (Some user) = Ok true
   <-> forall p, In p required ->
                 RoleModel.hasPermission (Role_value (IUser.role user)) p = Ok true)
  /\ (Guards.PermissionsGuard (Some required) (Some user) <> Ok true ->
      Guards.PermissionsGuard (Some required) (Some user)
      = Throw (ForbiddenException
                 ("Missing permissions: "
                  ++ Js.join ", "
                       (map Permission_value
                          (filter (fun p => negb (grants (IUser.role user) p))
                             required))))).
Proof.
  intros Hne. destruct required as [|p0 rest]; [contradiction|].
  destruct (RoleModel_get_role (IUser.role user)) as [items [Hget Hinc]].
  unfold Guards.PermissionsGuard. rewrite Hget.
  assert (Ht : forall p,
    RoleModel.hasPermission (Role_value (IUser.role user)) p
    = Ok (RoleModel.includes items p)).
  { intros p. rewrite Hinc. apply hasPermission_table.
    destruct (IUser.role user); reflexivity. }
  assert (Hall : forallb (RoleModel.includes items) (p0 :: rest) = true
                 <-> forall p, In p (p0 :: rest) ->
                       RoleModel.hasPermission (Role_value (IUser.role user)) p
                       = Ok true).
  { rewrite forallb_forall.
    split; intros H p Hp.
    - now rewrite Ht, (H p Hp).
    - specialize (H p Hp). rewrite Ht in H. now injection H. }
  destruct (forallb (RoleModel.includes items) (p0 :: rest)) eqn:E;
    cbn [negb]; cbv zeta.
  - split; [|intros C; contradiction].
    split; [intros _; now apply Hall | reflexivity].
  - split.
    + split; [discriminate|]. intros H. apply Hall in H. discriminate.
    + intros _.
      rewrite (filter_ext
                 (fun p => negb (RoleModel.includes items p))
                 (fun p => negb (grants (IUser.role user) p)));
        [reflexivity|].
      intros p. unfold grants. now rewrite Ht.
Qed.

Lemma X4_witness :
  Guards.PermissionsGuard (Some [TASK_READ; USER_DELETE; AUDIT_READ])
    (Some Sample.viewer_eng)
  = Throw (ForbiddenException "Missing permissions: user:delete, audit:read").
Proof.
  destruct (X4_PermissionsGuard_agrees_with_hasPermission
              [TASK_READ; USER_DELETE; AUDIT_READ] Sample.viewer_eng
              ltac:(discriminate)) as [_ Hdeny].
  apply Hdeny. discriminate.
Defined.

(** ** The audit trail is append-only *)

Lemma appendsAtMost_ret {A} (n : nat) (a : A) : appendsAtMost n (ret a).
Proof. intros w. exists []. rewrite app_nil_r. simpl. split; [reflexivity|lia]. Qed.

Lemma appendsAtMost_throw {A} (n : nat) (e : Exception) :
  appendsAtMost n (@throw A e).
Proof. intros w. exists []. rewrite app_nil_r. simpl. split; [reflexivity|lia]. Qed.

Lemma appendsAtMost_gets {A} (n : nat) (f : World -> A) :
  appendsAtMost n (gets f).
Proof. intros w. exists []. rewrite app_nil_r. simpl. split; [reflexivity|lia]. Qed.

Lemma appendsAtMost_modify (n : nat) (f : World -> World) :
  (forall w, audit_logs (f w) = audit_logs w) -> appendsAtMost n (modify f).
Proof.
  intros H w. exists []. rewrite app_nil_r. simpl. split; [apply H|lia].
Qed.

Lemma appendsAtMost_bind {A B} (n : nat) (c : M A) (k : A -> M B) :
  appendsAtMost 0 c -> (forall a, appendsAtMost n (k a)) ->
  appendsAtMost n (bind c k).
Proof.
  intros Hc Hk w. unfold bind. destruct (Hc w) as [added1 [H1 L1]].
  destruct added1; [|simpl in L1; lia]. rewrite app_nil_r in H1.
  destruct (c w) as [[a|e] w1]; simpl in H1.
  - destruct (Hk a w1) as [added2 [H2 L2]]. exists added2.
    now rewrite H2, H1.
  - exists []. rewrite app_nil_r. simpl. split; [assumption|lia].
Qed.

Lemma appendsAtMost_log {B} (n : nat) (entry : LogEntry.t) (k : AuditLog.t -> M B) :
  (forall a, appendsAtMost 0 (k a)) ->
  appendsAtMost (S n) (bind (AuditService.log entry) k).
Proof.
  intros Hk w. unfold bind.
  destruct (log_frame entry w) as [_ [_ [_ [_ Hl]]]].
  destruct (AuditService.log entry w) as [[a|e] w1]; simpl in Hl.
  - destruct (Hk a w1) as [added2 [H2 L2]].
    destruct added2; [|simpl in L2; lia]. rewrite app_nil_r in H2.
    eexists. split; [rewrite H2; exact Hl|].
    destruct (auditStoreAvailable w); simpl; lia.
  - eexists. split; [exact Hl|].
    destruct (auditStoreAvailable w); simpl; lia.
Qed.

Ltac audit :=
  repeat first
    [ apply appendsAtMost_ret
    | apply appendsAtMost_throw
    | apply appendsAtMost_gets
    | apply appendsAtMost_modify; intros; reflexivity
    | apply appendsAtMost_log; intros
    | apply appendsAtMost_bind; [|intros]
    | match goal with
      | |- appendsAtMost _ (match ?x with _ => _ end) => destruct x
      | |- appendsAtMost _ (let _ := _ in _) => cbv zeta
      end ].

Lemma appendsAtMost_freshId (n : nat) : appendsAtMost n freshId.
Proof. unfold freshId. audit. Qed.

Lemma appendsAtMost_reorder_loop (taskIds : list string) :
  forall i, appendsAtMost 0 (TasksService.reorder_loop i taskIds).
Proof.
  induction taskIds as [|x rest IH]; intros i; simpl.
  - audit.
  - apply appendsAtMost_bind; [|intros; apply IH].
    unfold TasksService.taskRepository_update. audit.
Qed.

Lemma appendsAtMost_Tasks_scope (n : nat) (user : IUser.t) :
  appendsAtMost n (TasksService.getAccessibleOrganizationIds user).
Proof.
  unfold TasksService.getAccessibleOrganizationIds,
    OrganizationRepository.find, OrganizationRepository.find_where_parentId.
  audit.
Qed.

Lemma appendsAtMost_checkTaskAccess (n : nat) (task : Task.t) (user : IUser.t)
  (action : TaskAction) :
  appendsAtMost n (TasksService.checkTaskAccess task user action).
Proof.
  unfold TasksService.checkTaskAccess.
  audit; try apply appendsAtMost_Tasks_scope; audit.
Qed.

Lemma appendsAtMost_Users_scope (n : nat) (user : IUser.t) :
  appendsAtMost n (UsersService.getAccessibleOrganizationIds user).
Proof.
  unfold UsersService.getAccessibleOrganizationIds,
    OrganizationRepository.find_where_parentId.
  audit.
Qed.

Lemma appendsAtMost_checkUserAccess (n : nat) (target : User.t)
  (currentUser : IUser.t) (action : TaskAction) :
  appendsAtMost n (UsersService.checkUserAccess target currentUser action).
Proof.
  unfold UsersService.checkUserAccess.
  audit; try apply appendsAtMost_Users_scope; audit.
Qed.

Lemma appendsAtMost_Organizations_scope (n : nat) (user : IUser.t) :
  appendsAtMost n (OrganizationsService.getAccessibleOrganizationIds user).
Proof.
  unfold OrganizationsService.getAccessibleOrganizationIds,
    OrganizationRepository.findOne_where_organizationId,
    OrganizationRepository.find_where_parentId.
  audit.
Qed.

Section AppendOnly.

Context {libraries : Libraries}.

Ltac audit_with :=
  audit;
  try first
    [ apply appendsAtMost_Tasks_scope
    | apply appendsAtMost_Users_scope
    | apply appendsAtMost_Organizations_scope
    | apply appendsAtMost_checkTaskAccess
    | apply appendsAtMost_checkUserAccess
    | apply appendsAtMost_freshId
    | apply appendsAtMost_reorder_loop ];
  audit.

Lemma appendsAtMost_Tasks (c : ServiceCall) :
  match c with
  | Tasks_create dto user => appendsAtMost 1 (TasksService.create dto user)
  | Tasks_findAll query user => appendsAtMost 1 (TasksService.findAll query user)
  | Tasks_findOne taskId user => appendsAtMost 1 (TasksService.findOne taskId user)
  | Tasks_update taskId dto user =>
      appendsAtMost 1 (TasksService.update taskId dto user)
  | Tasks_remove taskId user => appendsAtMost 1 (TasksService.remove taskId user)
  | Tasks_reorder taskIds user =>
      appendsAtMost 1 (TasksService.reorder taskIds user)
  | Tasks_getStats user => appendsAtMost 1 (TasksService.getStats user)
  | _ => True
  end.
Proof.
  destruct c; try exact I.
  - unfold TasksService.create, TasksService.taskRepository_insert. audit_with.
  - unfold TasksService.findAll. audit_with.
  - unfold TasksService.findOne. audit_with.
  - unfold TasksService.update, TasksService.taskRepository_save. audit_with.
  - unfold TasksService.remove, TasksService.taskRepository_remove. audit_with.
  - unfold TasksService.reorder. audit_with.
  - unfold TasksService.getStats. audit_with.
Qed.

Lemma appendsAtMost_Users (c : UsersServiceCall) :
  match c with
  | CallFindAll query u => appendsAtMost 1 (UsersService.findAll query u)
  | CallFindOne userId u => appendsAtMost 1 (UsersService.findOne userId u)
  | CallCreate dto u => appendsAtMost 1 (UsersService.create dto u)
  | CallUpdate userId dto u => appendsAtMost 1 (UsersService.update userId dto u)
  | CallRemove userId u => appendsAtMost 1 (UsersService.remove userId u)
  end.
Proof.
  destruct c.
  - unfold UsersService.findAll. audit_with.
  - unfold UsersService.findOne, UserRepository.findOne_where_userId. audit_with.
  - unfold UsersService.create, UserRepository.findOne_where_email,
      UserRepository.insert. audit_with.
  - unfold UsersService.update, UserRepository.findOne_where_userId,
      UserRepository.save. audit_with.
  - unfold UsersService.remove, UserRepository.findOne_where_userId,
      UserRepository.save. audit_with.
Qed.

Lemma appendsAtMost_Organizations (c : ServiceCall) :
  match c with
  | Organizations_findAll u => appendsAtMost 1 (OrganizationsService.findAll u)
  | Organizations_findOne id u =>
      appendsAtMost 1 (OrganizationsService.findOne id u)
  | Organizations_create data u =>
      appendsAtMost 1 (OrganizationsService.create data u)
  | Organizations_update id data u =>
      appendsAtMost 1 (OrganizationsService.update id data u)
  | Organizations_remove id u =>
      appendsAtMost 1 (OrganizationsService.remove id u)
  | Organizations_getHierarchy u =>
      appendsAtMost 1 (OrganizationsService.getHierarchy u)
  | _ => True
  end.
Proof.
  destruct c; try exact I.
  - unfold OrganizationsService.findAll. audit_with.
  - unfold OrganizationsService.findOne,
      OrganizationRepository.findOne_where_organizationId. audit_with.
  - unfold OrganizationsService.create,
      OrganizationsService.organizationRepository_insert,
      OrganizationRepository.findOne_where_organizationId. audit_with.
  - unfold OrganizationsService.update,
      OrganizationsService.organizationRepository_save,
      OrganizationRepository.findOne_where_organizationId. audit_with.
  - unfold OrganizationsService.remove,
      OrganizationRepository.findOne_where_organizationId. audit_with.
  - unfold OrganizationsService.getHierarchy. audit_with.
Qed.

Lemma appendsAtMost_Auth (c : ServiceCall) :
  match c with
  | Auth_login dto => appendsAtMost 1 (AuthService.login dto)
  | Auth_register dto => appendsAtMost 1 (AuthService.register dto)
  | Auth_validateUser payload => appendsAtMost 1 (AuthService.validateUser payload)
  | Auth_getProfile userId => appendsAtMost 1 (AuthService.getProfile userId)
  | _ => True
  end.
Proof.
  destruct c; try exact I.
  - unfold AuthService.login, UserRepository.findOne_where_email. audit_with.
  - unfold AuthService.register, UserRepository.findOne_where_email,
      UserRepository.insert. audit_with.
  - unfold AuthService.validateUser, UserRepository.findOne_where_userId.
    audit_with.
  - unfold AuthService.getProfile, UserRepository.findOne_where_userId.
    audit_with.
Qed.

Lemma appendsAtMost_Audit (c : ServiceCall) :
  match c with
  | Audit_findAll options u => appendsAtMost 1 (AuditService.findAll options u)
  | Audit_findByResource type id u =>
      appendsAtMost 1 (AuditService.findByResource type id u)
  | Audit_findByUser userId u => appendsAtMost 1 (AuditService.findByUser userId u)
  | Audit_getLoginHistory userId u =>
      appendsAtMost 1 (AuditService.getLoginHistory userId u)
  | Audit_getFailedLogins u => appendsAtMost 1 (AuditService.getFailedLogins u)
  | _ => True
  end.
Proof.
  destruct c; try exact I.
  - unfold AuditService.findAll. audit_with.
  - unfold AuditService.findByResource. audit_with.
  - unfold AuditService.findByUser. audit_with.
  - unfold AuditService.getLoginHistory. audit_with.
  - unfold AuditService.getFailedLogins. audit_with.
Qed.

(** X5.  The audit table is append-only: whatever method of the five
    services is called, by whomever and with whatever outcome, the entries
    that were in the table are still there, unchanged and in the same
    order, and at most one entry has been added after them. *)
Theorem X5_audit_trail_is_append_only (c : ServiceCall) (w : World) :
  exists added,
    audit_logs (afterService c w) = audit_logs w ++ added
    /\ List.length added <= 1.
Proof.
  pose proof (appendsAtMost_Tasks c) as HT.
  pose proof (appendsAtMost_Organizations c) as HO.
  pose proof (appendsAtMost_Auth c) as HA.
  pose proof (appendsAtMost_Audit c) as HQ.
  destruct c; simpl; try apply HT; try apply HO; try apply HA; try apply HQ.
  pose proof (appendsAtMost_Users call) as HU.
  destruct call; simpl; apply HU.
Qed.

End AppendOnly.

(** ** Reading the audit trail *)

(** X6.  What [log] writes can be read back.  When the audit table accepts
    the write, [log] returns the stored entry, and the entry is selected
    by the unfiltered [findAll] of an OWNER, and by that of another
    principal exactly when the organizationId it was logged with is the
    principal's own; an entry logged without organization (or with an
    empty one) is seen by OWNERs only. *)
Theorem X6_logged_entry_can_be_read_back
  (entry : LogEntry.t) (currentUser : IUser.t) (w : World) :
  auditStoreAvailable w = true ->
  let saved := AuditService.create entry (uuid (nextId w)) (clock w) in
  let w' := snd (AuditService.log entry w) in
  fst (AuditService.log entry w) = Ok saved
  /\ (In saved (AuditService.findAll_rows AuditQueryOptions.empty currentUser w')
      <-> IUser.role currentUser = OWNER
          \/ Js.orNull (LogEntry.organizationId entry)
             = Some (IUser.organizationId currentUser))
  /\ (Js.orNull (LogEntry.organizationId entry) = None ->
      IUser.role currentUser <> OWNER ->
      forall options,
        ~ In saved (AuditService.findAll_rows options currentUser w')).
Proof.
  intros Hup saved w'.
  destruct (log_available entry w Hup) as [w1 [Hl [Hlogs _]]].
  assert (Hw : w' = w1) by (unfold w'; now rewrite Hl).
  split; [now rewrite Hl|]. split.
  - rewrite findAll_rows_In, scopeClause_spec, Hw, Hlogs. split.
    + intros [_ [Hs _]]. exact Hs.
    + intros Hs. split; [apply in_or_app; right; now left|].
      split; [exact Hs | reflexivity].
  - intros Hnone Hrole options Hin.
    apply findAll_rows_In in Hin as [_ [Hs _]].
    apply scopeClause_spec in Hs as [Hs|Hs]; [contradiction|].
    unfold saved in Hs. simpl in Hs. congruence.
Qed.

Lemma X6_witness :
  let entry :=
    LogEntry.mk "TASK_CREATED" "task" (Some "task-9") (Some "u-admin")
      (Some "admin@engineering") (Some "org-eng") None None None None None in
  let saved := AuditService.create entry "uuid-100" 10 in
  In saved
     (AuditService.findAll_rows AuditQueryOptions.empty Sample.admin_eng
        (snd (AuditService.log entry Sample.world)))
  /\ AuditLog.success saved = true.
Proof.
  intros entry saved.
  destruct (X6_logged_entry_can_be_read_back entry Sample.admin_eng Sample.world
              eq_refl) as [_ [Hread _]].
  split; [|reflexivity]. apply Hread. right. reflexivity.
Defined.

Lemma StronglySorted_skipn {A} (R : A -> A -> Prop) (n : nat) (l : list A) :
  StronglySorted R l -> StronglySorted R (skipn n l).
Proof.
  revert l. induction n as [|n IH]; intros l Hs; [exact Hs|].
  destruct l as [|x l]; [constructor|]. simpl. apply IH.
  now inversion Hs.
Qed.

Lemma StronglySorted_firstn {A} (R : A -> A -> Prop) (n : nat) (l : list A) :
  StronglySorted R l -> StronglySorted R (firstn n l).
Proof.
  revert l. induction n as [|n IH]; intros l Hs; [constructor|].
  destruct l as [|x l]; [constructor|]. simpl.
  inversion Hs as [|? ? Hl Hx]; subst. constructor; [now apply IH|].
  rewrite Forall_forall in *. intros y Hy. apply Hx.
  now apply firstn_In in Hy.
Qed.

(** X7.  Every query of the audit service answers newest first: in the
    list returned by [findAll], [findByResource], [findByUser],
    [getLoginHistory] and [getFailedLogins], no entry is older than one
    that comes after it. *)
Theorem X7_audit_queries_answer_newest_first
  (options : AuditQueryOptions.t) (resourceType resourceId userId : string)
  (currentUser : IUser.t) (w : World) :
  (exists data total,
      fst (AuditService.findAll options currentUser w) = Ok (data, total)
      /\ newestFirst data)
  /\ (exists data,
         fst (AuditService.findByResource resourceType resourceId currentUser w)
         = Ok data /\ newestFirst data)
  /\ (exists data,
         fst (AuditService.findByUser userId currentUser w) = Ok data
         /\ newestFirst data)
  /\ (exists data,
         fst (AuditService.getLoginHistory userId currentUser w) = Ok data
         /\ newestFirst data)
  /\ (exists data,
         fst (AuditService.getFailedLogins currentUser w) = Ok data
         /\ newestFirst data).
Proof.
  unfold newestFirst.
  split; [|split; [|split; [|split]]].
  - eexists. eexists. split; [reflexivity|]. unfold paginate. cbv zeta.
    destruct (AuditService.limitOf options <? 0)%Z;
      [|apply StronglySorted_firstn]; apply StronglySorted_skipn;
      apply (orderByDesc_sorted AuditLog.createdAt).
  - eexists. split; [reflexivity|].
    apply (orderByDesc_sorted AuditLog.createdAt).
  - eexists. split; [reflexivity|]. apply StronglySorted_firstn.
    apply (orderByDesc_sorted AuditLog.createdAt).
  - eexists. split; [reflexivity|]. apply StronglySorted_firstn.
    apply (orderByDesc_sorted AuditLog.createdAt).
  - eexists. split; [reflexivity|]. apply StronglySorted_firstn.
    apply (orderByDesc_sorted AuditLog.createdAt).
Qed.

Lemma firstn_add {A} (a b : nat) (l : list A) :
  firstn (a + b) l = firstn a l ++ firstn b (skipn a l).
Proof.
  revert l. induction a as [|a IH]; intros l; [reflexivity|].
  destruct l as [|x l]; simpl.
  - now rewrite firstn_nil.
  - now rewrite IH.
Qed.

Lemma pages_concat {A} (n k : nat) (rows : list A) :
  List.concat (map (fun i => firstn n (skipn (i * n) rows)) (seq 0 k))
  = firstn (k * n) rows.
Proof.
  induction k as [|k IH]; [reflexivity|].
  rewrite seq_S, map_app, concat_app, IH. cbn [map List.concat Nat.add].
  rewrite app_nil_r. replace (S k * n) with (k * n + n) by lia.
  symmetry. apply firstn_add.
Qed.

Lemma paginate_nat {A} (i : nat) (limit : Z) (rows : list A) :
  (0 <= limit)%Z ->
  paginate (Z.of_nat i + 1) limit rows
  = firstn (Z.to_nat limit) (skipn (i * Z.to_nat limit) rows).
Proof.
  intros H. unfold paginate. cbv zeta.
  replace (limit <? 0)%Z with false by (symmetry; apply Z.ltb_ge; lia).
  replace (Z.of_nat i + 1 - 1)%Z with (Z.of_nat i) by lia.
  rewrite Z2Nat.inj_mul by lia. now rewrite Nat2Z.id.
Qed.

(** X8.  Paging loses and repeats nothing: for a limit that is not
    negative, the pages 1 to [k] of [findAll], read one after the other
    on the same table, are the first [k * limit] selected entries in their
    order, and all of them once [k * limit] reaches [total]. *)
Theorem X8_pages_partition_the_result
  (options : AuditQueryOptions.t) (currentUser : IUser.t) (w : World) (k : nat) :
  (0 <= AuditService.limitOf options)%Z ->
  let rows := AuditService.findAll_rows options currentUser w in
  let limit := Z.to_nat (AuditService.limitOf options) in
  List.concat (map (fun i => pageData options currentUser w (Z.of_nat i + 1))
            (seq 0 k))
  = firstn (k * limit) rows
  /\ (List.length rows <= k * limit ->
      List.concat (map (fun i => pageData options currentUser w (Z.of_nat i + 1))
                (seq 0 k))
      = rows).
Proof.
  intros Hlimit rows limit.
  assert (Hcat :
    List.concat (map (fun i => pageData options currentUser w (Z.of_nat i + 1))
              (seq 0 k))
    = firstn (k * limit) rows).
  { rewrite <- pages_concat. f_equal. apply map_ext. intros i.
    unfold pageData. simpl.
    change (AuditService.limitOf
              (AuditQueryOptions.withPage (Z.of_nat i + 1) options))
      with (AuditService.limitOf options).
    change (AuditService.pageOf
              (AuditQueryOptions.withPage (Z.of_nat i + 1) options))
      with (Z.of_nat i + 1)%Z.
    now rewrite paginate_nat. }
  split; [exact Hcat|]. intros Hall. rewrite Hcat. now apply firstn_all2.
Qed.

Lemma X8_witness :
  let options :=
    AuditQueryOptions.mk None None None None None None (Some 1%Z) in
  pageData options Sample.admin_eng Sample.world 1
  ++ pageData options Sample.admin_eng Sample.world 2
  = [Sample.entry_eng_login; Sample.entry_eng].
Proof.
  intros options.
  assert (Hlimit : (0 <= AuditService.limitOf options)%Z)
    by (vm_compute; discriminate).
  destruct (X8_pages_partition_the_result options Sample.admin_eng
              Sample.world 2 Hlimit) as [_ Hall].
  assert (Hfit :
    List.length (AuditService.findAll_rows options Sample.admin_eng Sample.world)
    <= 2 * Z.to_nat (AuditService.limitOf options))
    by (vm_compute; repeat constructor).
  specialize (Hall Hfit). cbn [seq map List.concat] in Hall.
  rewrite app_nil_r in Hall. exact (eq_trans Hall eq_refl).
Defined.

Lemma includes_In (l : list string) (x : string) :
  Js.includes l x = true <-> In x l.
Proof.
  unfold Js.includes. rewrite existsb_exists. split.
  - intros [y [Hy He]]. apply String.eqb_eq in He. now subst.
  - intros H. exists x. split; [assumption | apply String.eqb_refl].
Qed.

Lemma scopeClause_nonOwner (currentUser : IUser.t) (e : AuditLog.t) :
  IUser.role currentUser <> OWNER ->
  AuditService.scopeClause currentUser e = true ->
  AuditLog.organizationId e = Some (IUser.organizationId currentUser).
Proof.
  intros Hrole H. apply scopeClause_spec in H as [H|H]; [contradiction|exact H].
Qed.

(** X9.  For a principal who is not OWNER the other queries of the audit
    service stay inside the principal's own organization too.
    [findByResource] returns exactly the entries of that resource logged
    for the principal's organization; [findByUser] returns at most 100
    entries, [getLoginHistory] and [getFailedLogins] at most 50, each of
    them an entry of the table that meets the query's condition and
    belongs to the principal's organization. *)
Theorem X9_audit_queries_stay_in_own_organization
  (resourceType resourceId userId : string) (currentUser : IUser.t) (w : World) :
  IUser.role currentUser <> OWNER ->
  let own := Some (IUser.organizationId currentUser) in
  (exists data,
      fst (AuditService.findByResource resourceType resourceId currentUser w)
      = Ok data
      /\ forall e,
           In e data
           <-> In e (audit_logs w)
               /\ AuditLog.resource e = resourceType
               /\ AuditLog.resourceId e = Some resourceId
               /\ AuditLog.organizationId e = own)
  /\ (exists data,
         fst (AuditService.findByUser userId currentUser w) = Ok data
         /\ List.length data <= 100
         /\ forall e,
              In e data ->
              In e (audit_logs w)
              /\ AuditLog.userId e = Some userId
              /\ AuditLog.organizationId e = own)
  /\ (exists data,
         fst (AuditService.getLoginHistory userId currentUser w) = Ok data
         /\ List.length data <= 50
         /\ forall e,
              In e data ->
              In e (audit_logs w)
              /\ AuditLog.userId e = Some userId
              /\ In (AuditLog.action e) ["LOGIN"; "LOGOUT"; "LOGIN_FAILED"]
              /\ AuditLog.organizationId e = own)
  /\ (exists data,
         fst (AuditService.getFailedLogins currentUser w) = Ok data
         /\ List.length data <= 50
         /\ forall e,
              In e data ->
              In e (audit_logs w)
              /\ AuditLog.action e = "LOGIN_FAILED"
              /\ AuditLog.success e = false
              /\ AuditLog.organizationId e = own).
Proof.
  intros Hrole own. unfold own.
  split; [|split; [|split]].
  - eexists. split; [reflexivity|]. intros e.
    unfold AuditService.orderByCreatedAtDesc.
    rewrite orderByDesc_In, filter_In. unfold AuditService.ofResource.
    rewrite !andb_true_iff, String.eqb_eq, opt_eqb_eq, scopeClause_spec.
    intuition.
  - eexists. split; [reflexivity|]. split; [apply firstn_le_length|].
    intros e He. apply firstn_In in He.
    unfold AuditService.orderByCreatedAtDesc in He.
    apply orderByDesc_In, filter_In in He as [Hin Hc].
    apply andb_true_iff in Hc as [Hu Hs]. apply opt_eqb_eq in Hu.
    repeat split; try assumption. now apply scopeClause_nonOwner.
  - eexists. split; [reflexivity|]. split; [apply firstn_le_length|].
    intros e He. apply firstn_In in He.
    unfold AuditService.orderByCreatedAtDesc in He.
    apply orderByDesc_In, filter_In in He as [Hin Hc].
    apply andb_true_iff in Hc as [Hc Hs]. apply andb_true_iff in Hc as [Hu Ha].
    apply opt_eqb_eq in Hu. apply includes_In in Ha.
    repeat split; try assumption. now apply scopeClause_nonOwner.
  - eexists. split; [reflexivity|]. split; [apply firstn_le_length|].
    intros e He. apply firstn_In in He.
    unfold AuditService.orderByCreatedAtDesc in He.
    apply orderByDesc_In, filter_In in He as [Hin Hc].
    apply andb_true_iff in Hc as [Hf Hs].
    unfold AuditService.isFailedLogin in Hf.
    apply andb_true_iff in Hf as [Ha Hb]. apply String.eqb_eq in Ha.
    assert (Hfalse : AuditLog.success e = false)
      by (destruct (AuditLog.success e); [discriminate | reflexivity]).
    repeat split; try assumption. now apply scopeClause_nonOwner.
Qed.

Lemma X9_witness :
  fst (AuditService.findByUser "u-admin" Sample.admin_eng Sample.world)
  = Ok [Sample.entry_eng_login; Sample.entry_eng]
  /\ fst (AuditService.getFailedLogins Sample.admin_acme Sample.world) = Ok [].
Proof.
  destruct (X9_audit_queries_stay_in_own_organization
              "task" "task-2" "u-admin" Sample.admin_eng Sample.world
              ltac:(discriminate)) as [_ [[data [Hrun _]] _]].
  split; [|reflexivity]. rewrite Hrun. injection Hrun as <-. reflexivity.
Defined.

(** ** Logging in and registering *)

Lemma bind_log_available {B} (entry : LogEntry.t) (k : AuditLog.t -> M B)
  (w : World) :
  auditStoreAvailable w = true ->
  exists w1,
    bind (AuditService.log entry) k w
    = k (AuditService.create entry (uuid (nextId w)) (clock w)) w1
    /\ audit_logs w1
       = audit_logs w ++ [AuditService.create entry (uuid (nextId w)) (clock w)]
    /\ users w1 = users w /\ tasks w1 = tasks w
    /\ organizations w1 = organizations w
    /\ auditStoreAvailable w1 = true.
Proof.
  intros H. destruct (log_available entry w H) as [w1 [Hl [Ha [Hu [Ht [Ho [Hs _]]]]]]].
  exists w1. unfold bind. rewrite Hl. repeat split; assumption.
Qed.

Section Authentication.

Context {libraries : Libraries}.


End Authentication.


Lemma find_app_none {A} (f : A -> bool) (l : list A) (x : A) :
  List.find f l = None -> f x = true -> List.find f (l ++ [x]) = Some x.
Proof.
  intros Hn Hx. induction l as [|y l IH]; simpl in *.
  - now rewrite Hx.
  - destruct (f y); [discriminate | now apply IH].
Qed.

Lemma find_email_none (l : list User.t) (email : string) :
  (forall u, In u l -> User.email u <> email) ->
  List.find (UserRepository.hasEmail email) l = None.
Proof.
  intros H. destruct (List.find (UserRepository.hasEmail email) l) as [u|] eqn:E;
    [|reflexivity].
  apply find_some in E as [Hin He]. apply String.eqb_eq in He.
  now destruct (H u Hin).
Qed.

Lemma find_email_some (l : list User.t) (email : string) :
  (exists u, In u l /\ User.email u = email) ->
  exists u, List.find (UserRepository.hasEmail email) l = Some u.
Proof.
  intros [u [Hin He]].
  destruct (List.find (UserRepository.hasEmail email) l) as [u'|] eqn:E;
    [now exists u'|].
  apply (find_none _ _ E) in Hin. unfold UserRepository.hasEmail in Hin.
  rewrite He, String.eqb_refl in Hin. discriminate.
Qed.

Lemma referenced_iff (orgs : list Organization.t) (organizationId : string) :
  existsb (OrganizationRepository.hasId organizationId) orgs = true
  <-> exists o, In o orgs /\ Organization.organizationId o = organizationId.
Proof.
  rewrite existsb_exists. unfold OrganizationRepository.hasId.
  split; intros [o [Hin H]]; exists o; (split; [exact Hin|]);
    now apply String.eqb_eq.
Qed.

Lemma not_referenced (orgs : list Organization.t) (organizationId : string) :
  (forall o, In o orgs -> Organization.organizationId o <> organizationId) ->
  existsb (OrganizationRepository.hasId organizationId) orgs = false.
Proof.
  intros H. destruct (existsb _ orgs) eqn:E; [|reflexivity].
  apply referenced_iff in E as [o [Hin Hid]]. now destruct (H o Hin).
Qed.

Section Registration.

Context {libraries : Libraries}.

Lemma registered_organizationId (registerDto : RegisterDto.t) (n now : nat) :
  User.organizationId (registered registerDto n now)
  = RegisterDto.organizationId registerDto.
Proof.
  unfold registered, UserRepository.hashPasswordBeforeInsert.
  now destruct (Js.truthy _).
Qed.

Lemma register_run (registerDto : RegisterDto.t) (w : World) :
  List.find
    (UserRepository.hasEmail (Js.toLowerCase (RegisterDto.email registerDto)))
    (users w) = None ->
  existsb (OrganizationRepository.hasId (RegisterDto.organizationId registerDto))
    (organizations w) = true ->
  exists entry,
    AuthService.register registerDto w
    = bind (AuditService.log entry)
        (fun _ => ret (UsersService.toPublicUser
                         (registered registerDto (nextId w) (clock w)) None))
        (set_users (users w ++ [registered registerDto (nextId w) (clock w)])
           (set_nextId (S (nextId w)) w)).
Proof.
  intros Hfind Horg. unfold AuthService.register. unfold bind at 1.
  unfold UserRepository.findOne_where_email, gets. rewrite Hfind.
  unfold bind at 1. unfold UserRepository.insert, freshId.
  unfold bind at 1. unfold bind at 1. unfold gets at 1. cbn [fst snd].
  unfold bind at 1. unfold modify at 1. unfold bind at 1. unfold ret at 1.
  unfold bind at 1. unfold gets at 1. cbv zeta. unfold bind at 1.
  unfold gets at 1. cbn [organizations set_nextId].
  pose proof (registered_organizationId registerDto (nextId w) (clock w)) as Ho.
  unfold registered in Ho. cbn [clock set_nextId]. rewrite Ho, Horg.
  cbn [negb]. unfold bind at 1. unfold modify at 1. unfold ret at 1.
  eexists. reflexivity.
Qed.

Lemma register_refused (registerDto : RegisterDto.t) (w : World) :
  List.find
    (UserRepository.hasEmail (Js.toLowerCase (RegisterDto.email registerDto)))
    (users w) = None ->
  existsb (OrganizationRepository.hasId (RegisterDto.organizationId registerDto))
    (organizations w) = false ->
  AuthService.register registerDto w
  = (Throw (QueryFailedError "FOREIGN KEY constraint failed"),
     set_nextId (S (nextId w)) w).
Proof.
  intros Hfind Horg. unfold AuthService.register. unfold bind at 1.
  unfold UserRepository.findOne_where_email, gets. rewrite Hfind.
  unfold bind at 1. unfold UserRepository.insert, freshId.
  unfold bind, gets, modify, ret, throw. cbn [fst snd organizations set_nextId].
  pose proof (registered_organizationId registerDto (nextId w) (clock w)) as Ho.
  unfold registered in Ho. cbn [clock set_nextId]. rewrite Ho, Horg.
  reflexivity.
Qed.

Lemma register_users (registerDto : RegisterDto.t) (w : World) :
  List.find
    (UserRepository.hasEmail (Js.toLowerCase (RegisterDto.email registerDto)))
    (users w) = None ->
  existsb (OrganizationRepository.hasId (RegisterDto.organizationId registerDto))
    (organizations w) = true ->
  users (snd (AuthService.register registerDto w))
  = users w ++ [registered registerDto (nextId w) (clock w)]
  /\ auditStoreAvailable (snd (AuthService.register registerDto w))
     = auditStoreAvailable w.
Proof.
  intros Hfind Horg.
  destruct (register_run registerDto w Hfind Horg) as [entry Hrun].
  rewrite Hrun.
  destruct (log_then_ret
              (UsersService.toPublicUser
                 (registered registerDto (nextId w) (clock w)) None) entry
              (set_users
                 (users w ++ [registered registerDto (nextId w) (clock w)])
                 (set_nextId (S (nextId w)) w))) as [Hsnd _].
  rewrite Hsnd.
  destruct (log_frame entry
              (set_users
                 (users w ++ [registered registerDto (nextId w) (clock w)])
                 (set_nextId (S (nextId w)) w))) as [Hu [_ [_ [Ha _]]]].
  split; [exact Hu | exact Ha].
Qed.

Lemma registered_fields (registerDto : RegisterDto.t) (n now : nat) :
  registered registerDto n now
  = User.mk (uuid n) (Js.toLowerCase (RegisterDto.email registerDto))
      (if Js.truthy (RegisterDto.password registerDto)
       then bcrypt_hash (RegisterDto.password registerDto)
       else RegisterDto.password registerDto)
      (RegisterDto.firstName registerDto) (RegisterDto.lastName registerDto)
      VIEWER (RegisterDto.organizationId registerDto) true now now.
Proof.
  unfold registered, UserRepository.hashPasswordBeforeInsert. cbn [User.password].
  now destruct (Js.truthy (RegisterDto.password registerDto)).
Qed.

(** X11.  Self-registration can only make VIEWERs.  For an e-mail in
    ASCII: when its lower-case form is already the e-mail of a user,
    [register] throws [ConflictException] and changes nothing; when it is
    new but the organization is not in the organizations table, the
    insert fails on the foreign key, [register] throws [QueryFailedError]
    and neither a user nor an audit entry is written; otherwise it appends
    one row after those that were there, with the key the store hands
    out, the e-mail in lower case, the names and the organization of the
    request, the password hashed once by the insert hook (left as it is
    when empty), active, dated with the time of the call, and with the
    role VIEWER whatever role the request asked for. *)
Theorem X11_register_creates_an_active_viewer
  (registerDto : RegisterDto.t) (w : World) :
  Js.isAscii (RegisterDto.email registerDto) = true ->
  let email := Js.toLowerCase (RegisterDto.email registerDto) in
  let organizationId := RegisterDto.organizationId registerDto in
  let r := AuthService.register registerDto w in
  ((exists u, In u (users w) /\ User.email u = email) ->
   r = (Throw (ConflictException "Email already registered"), w))
  /\ ((forall u, In u (users w) -> User.email u <> email) ->
      (forall o, In o (organizations w) ->
                 Organization.organizationId o <> organizationId) ->
      fst r = Throw (QueryFailedError "FOREIGN KEY constraint failed")
      /\ users (snd r) = users w
      /\ audit_logs (snd r) = audit_logs w)
  /\ ((forall u, In u (users w) -> User.email u <> email) ->
      (exists o, In o (organizations w)
                 /\ Organization.organizationId o = organizationId) ->
      exists saved,
        users (snd r) = users w ++ [saved]
        /\ User.userId saved = uuid (nextId w)
        /\ User.email saved = email
        /\ User.firstName saved = RegisterDto.firstName registerDto
        /\ User.lastName saved = RegisterDto.lastName registerDto
        /\ User.role saved = VIEWER
        /\ User.organizationId saved = organizationId
        /\ User.isActive saved = true
        /\ User.createdAt saved = clock w
        /\ User.updatedAt saved = clock w
        /\ User.password saved
           = (if Js.truthy (RegisterDto.password registerDto)
              then bcrypt_hash (RegisterDto.password registerDto)
              else RegisterDto.password registerDto)).
Proof.
  intros _ email organizationId r. split; [|split].
  - intros Hused. destruct (find_email_some _ _ Hused) as [u Hfind].
    unfold r, AuthService.register. unfold bind at 1.
    unfold UserRepository.findOne_where_email, gets. fold email.
    now rewrite Hfind.
  - intros Hnew Hnone. unfold r.
    rewrite (register_refused registerDto w (find_email_none _ _ Hnew)
               (not_referenced _ _ Hnone)).
    repeat split.
  - intros Hnew Hsome. apply referenced_iff in Hsome.
    destruct (register_users registerDto w (find_email_none _ _ Hnew) Hsome)
      as [Husers _].
    exists (registered registerDto (nextId w) (clock w)).
    split; [exact Husers|]. rewrite registered_fields. repeat split.
Qed.

(** X12.  Registering and then logging in works.  When the e-mail is in
    ASCII and new, the organization is in the organizations table, the
    audit table accepts writes and the bcrypt library recognises the hash
    of the (non-empty) password, a login with the registered e-mail and
    password succeeds right after [register]: it returns the token signed
    for the new user's id, e-mail, role VIEWER and organization, and
    [JwtStrategy.validate] turns that payload into a VIEWER principal of
    the registered organization, as long as the organization id is not
    empty. *)
Theorem X12_register_then_login
  (registerDto : RegisterDto.t) (w : World) :
  Js.isAscii (RegisterDto.email registerDto) = true ->
  auditStoreAvailable w = true ->
  (forall u, In u (users w) ->
             User.email u <> Js.toLowerCase (RegisterDto.email registerDto)) ->
  (exists o, In o (organizations w)
             /\ Organization.organizationId o
                = RegisterDto.organizationId registerDto) ->
  Js.truthy (RegisterDto.password registerDto) = true ->
  bcrypt_compare (RegisterDto.password registerDto)
    (bcrypt_hash (RegisterDto.password registerDto)) = true ->
  Js.truthy (RegisterDto.organizationId registerDto) = true ->
  let w' := snd (AuthService.register registerDto w) in
  let payload :=
    IJwtPayload.mk (uuid (nextId w))
      (Js.toLowerCase (RegisterDto.email registerDto)) VIEWER
      (RegisterDto.organizationId registerDto) in
  (exists response,
      fst (AuthService.login
             (LoginDto.mk (RegisterDto.email registerDto)
                (RegisterDto.password registerDto)) w')
      = Ok response
      /\ ILoginResponse.accessToken response = jwt_sign payload
      /\ IUserPublic.role (ILoginResponse.user response) = VIEWER
      /\ IUserPublic.id (ILoginResponse.user response) = uuid (nextId w)
      /\ IUserPublic.organizationId (ILoginResponse.user response)
         = RegisterDto.organizationId registerDto)
  /\ Guards.JwtStrategy_validate payload
     = Ok (IUser.mk (uuid (nextId w))
             (Js.toLowerCase (RegisterDto.email registerDto)) VIEWER
             (RegisterDto.organizationId registerDto)).
Proof.
  intros _ Hup Hnew' Horg' Hpw Hcmp Horg w' payload.
  pose proof (find_email_none _ _ Hnew') as Hnew.
  apply referenced_iff in Horg'.
  destruct (register_users registerDto w Hnew Horg') as [Husers Hav].
  fold w' in Husers, Hav.
  assert (Hup' : auditStoreAvailable w' = true) by (now rewrite Hav).
  rewrite registered_fields, Hpw in Husers.
  set (saved := User.mk (uuid (nextId w))
                  (Js.toLowerCase (RegisterDto.email registerDto))
                  (bcrypt_hash (RegisterDto.password registerDto))
                  (RegisterDto.firstName registerDto)
                  (RegisterDto.lastName registerDto) VIEWER
                  (RegisterDto.organizationId registerDto) true
                  (clock w) (clock w)) in *.
  assert (Hfind :
    List.find
      (UserRepository.hasEmail (Js.toLowerCase (RegisterDto.email registerDto)))
      (users w') = Some saved).
  { rewrite Husers. apply find_app_none; [exact Hnew|].
    unfold UserRepository.hasEmail, saved. cbn [User.email].
    apply String.eqb_refl. }
  split.
  - unfold AuthService.login, bind, UserRepository.findOne_where_email, gets,
      ret, throw.
    cbn [LoginDto.email LoginDto.password]. rewrite Hfind.
    change (User.isActive saved) with true.
    change (User.password saved)
      with (bcrypt_hash (RegisterDto.password registerDto)).
    rewrite Hcmp. cbn [negb]. cbv zeta.
    match goal with |- context [AuditService.log ?e w'] =>
      destruct (log_available e w' Hup') as [w1 [Hb _]]; rewrite Hb end.
    eexists. split; [reflexivity|]. repeat split.
  - unfold Guards.JwtStrategy_validate, payload. simpl. rewrite Horg.
    reflexivity.
Qed.

End Registration.

Lemma X11_witness :
  @AuthService.register Sample.libraries
    (RegisterDto.mk "Admin@Engineering" "Passw0rd" "Ad" "Min" "org-eng"
       (Some OWNER)) Sample.world
  = (Throw (ConflictException "Email already registered"), Sample.world).
Proof.
  destruct (@X11_register_creates_an_active_viewer Sample.libraries
              (RegisterDto.mk "Admin@Engineering" "Passw0rd" "Ad" "Min" "org-eng"
                 (Some OWNER)) Sample.world eq_refl) as [Hused _].
  apply Hused. exists Sample.row_admin. split; [simpl; tauto | reflexivity].
Defined.

Lemma X12_witness :
  let dto :=
    RegisterDto.mk "New@Sales" "Passw0rd" "Nia" "New" "org-sales" (Some OWNER) in
  exists response,
    fst (@AuthService.login Sample.libraries (LoginDto.mk "New@Sales" "Passw0rd")
           (snd (@AuthService.register Sample.libraries dto Sample.world)))
    = Ok response
    /\ IUserPublic.role (ILoginResponse.user response) = VIEWER.
Proof.
  intros dto.
  assert (Hnew : forall u, In u (users Sample.world) ->
            User.email u <> Js.toLowerCase (RegisterDto.email dto)).
  { intros u [<-|[<-|[]]]; discriminate. }
  assert (Horg : exists o, In o (organizations Sample.world)
            /\ Organization.organizationId o = RegisterDto.organizationId dto).
  { exists Sample.sales. split; [simpl; tauto | reflexivity]. }
  destruct (@X12_register_then_login Sample.libraries dto Sample.world
              eq_refl eq_refl Hnew Horg eq_refl eq_refl eq_refl)
    as [[response [Hlogin [_ [Hrole _]]]] _].
  exists response. split; [exact Hlogin | exact Hrole].
Defined.

Section CreatedUsers.

Context {libraries : Libraries}.

Lemma created_fields (createUserDto : CreateUserDto.t) (n now : nat) :
  Js.truthy (bcrypt_hash (CreateUserDto.password createUserDto)) = true ->
  created createUserDto n now
  = User.mk (uuid n) (Js.toLowerCase (CreateUserDto.email createUserDto))
      (bcrypt_hash (bcrypt_hash (CreateUserDto.password createUserDto)))
      (CreateUserDto.firstName createUserDto)
      (CreateUserDto.lastName createUserDto)
      (CreateUserDto.role createUserDto)
      (CreateUserDto.organizationId createUserDto) true now now.
Proof.
  intros Htruthy. unfold created, UserRepository.hashPasswordBeforeInsert.
  cbn [User.password]. now rewrite Htruthy.
Qed.

Lemma create_run (createUserDto : CreateUserDto.t) (currentUser : IUser.t)
  (w : World) :
  List.find
    (UserRepository.hasEmail (Js.toLowerCase (CreateUserDto.email createUserDto)))
    (users w) = None ->
  (CreateUserDto.role createUserDto = OWNER -> IUser.role currentUser = OWNER) ->
  existsb (OrganizationRepository.hasId
             (CreateUserDto.organizationId createUserDto))
    (organizations w) = true ->
  exists entry,
    UsersService.create createUserDto currentUser w
    = bind (AuditService.log entry)
        (fun _ => ret (UsersService.toPublicUser
                         (created createUserDto (nextId w) (clock w)) None))
        (set_users (users w ++ [created createUserDto (nextId w) (clock w)])
           (set_nextId (S (nextId w)) w)).
Proof.
  intros Hfind Hrole Horg. unfold UsersService.create. unfold bind at 1.
  unfold UserRepository.findOne_where_email, gets. rewrite Hfind.
  replace (Role_eqb (CreateUserDto.role createUserDto) OWNER
           && negb (Role_eqb (IUser.role currentUser) OWNER)) with false.
  2:{ destruct (CreateUserDto.role createUserDto); try reflexivity.
      rewrite (Hrole eq_refl). reflexivity. }
  cbv zeta. unfold bind at 1. unfold UserRepository.insert, freshId.
  unfold bind at 1. unfold bind at 1. unfold gets at 1. cbn [fst snd].
  unfold bind at 1. unfold modify at 1. unfold bind at 1. unfold ret at 1.
  unfold bind at 1. unfold gets at 1. cbv zeta. unfold bind at 1.
  unfold gets at 1. cbn [organizations set_nextId clock].
  assert (Ho : User.organizationId (created createUserDto (nextId w) (clock w))
               = CreateUserDto.organizationId createUserDto).
  { unfold created, UserRepository.hashPasswordBeforeInsert.
    now destruct (Js.truthy _). }
  unfold created in Ho. rewrite Ho, Horg.
  cbn [negb]. unfold bind at 1. unfold modify at 1. unfold ret at 1.
  eexists. reflexivity.
Qed.

(** X13.  A user made by [UsersService.create] gets the hash of the hash
    of the password: [create] hashes the password and the insert hook of
    the entity hashes the stored value again.  For an e-mail in ASCII
    that is new, a role the caller may give (only an OWNER makes an
    OWNER) and an organization of the organizations table, [create]
    appends one row with the key the store hands out, the e-mail in lower
    case, the names, role and organization of the request, active, dated
    with the time of the call, and that double hash for password.  So,
    when the audit table accepts writes, a login with the e-mail and
    password the user was created with succeeds exactly when
    [bcrypt.compare] accepts the password against the double hash. *)
Theorem X13_created_user_password_is_hashed_twice
  (createUserDto : CreateUserDto.t) (currentUser : IUser.t) (w : World) :
  Js.isAscii (CreateUserDto.email createUserDto) = true ->
  auditStoreAvailable w = true ->
  (forall u, In u (users w) ->
             User.email u <> Js.toLowerCase (CreateUserDto.email createUserDto)) ->
  (CreateUserDto.role createUserDto = OWNER -> IUser.role currentUser = OWNER) ->
  (exists o, In o (organizations w)
             /\ Organization.organizationId o
                = CreateUserDto.organizationId createUserDto) ->
  Js.truthy (bcrypt_hash (CreateUserDto.password createUserDto)) = true ->
  let password := CreateUserDto.password createUserDto in
  let w' := snd (UsersService.create createUserDto currentUser w) in
  exists saved,
    users w' = users w ++ [saved]
    /\ User.userId saved = uuid (nextId w)
    /\ User.email saved = Js.toLowerCase (CreateUserDto.email createUserDto)
    /\ User.firstName saved = CreateUserDto.firstName createUserDto
    /\ User.lastName saved = CreateUserDto.lastName createUserDto
    /\ User.organizationId saved = CreateUserDto.organizationId createUserDto
    /\ User.createdAt saved = clock w
    /\ User.updatedAt saved = clock w
    /\ User.password saved = bcrypt_hash (bcrypt_hash password)
    /\ User.role saved = CreateUserDto.role createUserDto
    /\ User.isActive saved = true
    /\ isOk (fst (AuthService.login
                    (LoginDto.mk (CreateUserDto.email createUserDto) password)
                    w'))
       = bcrypt_compare password (bcrypt_hash (bcrypt_hash password)).
Proof.
  intros _ Hup Hnew' Hrole Horg' Htruthy password w'.
  pose proof (find_email_none _ _ Hnew') as Hnew.
  apply referenced_iff in Horg'.
  destruct (create_run createUserDto currentUser w Hnew Hrole Horg')
    as [entry Hrun].
  rewrite (created_fields createUserDto (nextId w) (clock w) Htruthy) in Hrun.
  fold password in Hrun.
  set (saved := User.mk (uuid (nextId w))
        (Js.toLowerCase (CreateUserDto.email createUserDto))
        (bcrypt_hash (bcrypt_hash password))
        (CreateUserDto.firstName createUserDto)
        (CreateUserDto.lastName createUserDto)
        (CreateUserDto.role createUserDto)
        (CreateUserDto.organizationId createUserDto) true (clock w) (clock w))
    in *.
  set (w0 := set_users (users w ++ [saved]) (set_nextId (S (nextId w)) w)) in *.
  destruct (log_then_ret (UsersService.toPublicUser saved None) entry w0)
    as [Hsnd _].
  destruct (log_frame entry w0) as [Hu [_ [_ [Ha _]]]].
  assert (Hw' : w' = snd (AuditService.log entry w0))
    by (unfold w'; now rewrite Hrun).
  exists saved. split; [now rewrite Hw', Hu|].
  do 10 (split; [reflexivity|]).
  assert (Hfind :
    List.find
      (UserRepository.hasEmail (Js.toLowerCase (CreateUserDto.email createUserDto)))
      (users w') = Some saved).
  { rewrite Hw', Hu. unfold w0. cbn [users set_users].
    apply find_app_none; [exact Hnew|].
    unfold UserRepository.hasEmail, saved. cbn [User.email].
    apply String.eqb_refl. }
  assert (Hup' : auditStoreAvailable w' = true) by (now rewrite Hw', Ha).
  unfold AuthService.login, bind, UserRepository.findOne_where_email, gets,
    ret, throw.
  cbn [LoginDto.email LoginDto.password]. rewrite Hfind.
  change (User.isActive saved) with true.
  change (User.password saved) with (bcrypt_hash (bcrypt_hash password)).
  cbn [negb].
  destruct (bcrypt_compare password (bcrypt_hash (bcrypt_hash password)));
    cbn [negb]; cbv zeta;
    match goal with |- context [AuditService.log ?e w'] =>
      destruct (log_available e w' Hup') as [w1 [Hb _]]; rewrite Hb end;
    reflexivity.
Qed.

(** X14.  [validateUser] answers with the user exactly when the id of the
    payload is in the table and that user is active.  Once an OWNER has
    removed a user, [validateUser] answers [null] for the user's id, while
    [getProfile] still returns the profile, now inactive. *)
Theorem X14_removed_user_is_not_validated
  (userId : string) (currentUser : IUser.t) (payload : IJwtPayload.t)
  (w : World) (target : User.t) :
  IUser.role currentUser = OWNER ->
  List.find (UserRepository.hasId userId) (users w) = Some target ->
  IJwtPayload.sub payload = userId ->
  let w' := snd (UsersService.remove userId currentUser w) in
  fst (AuthService.validateUser payload w)
  = Ok (if User.isActive target then Some target else None)
  /\ fst (AuthService.validateUser payload w') = Ok None
  /\ exists profile,
       fst (AuthService.getProfile userId w') = Ok profile
       /\ IUserPublic.id profile = userId
       /\ IUserPublic.isActive profile = false
       /\ IUserPublic.email profile = User.email target
       /\ IUserPublic.role profile = User.role target.
Proof.
  intros Hrole Hfind Hsub w'.
  assert (Hid : User.userId target = userId).
  { apply find_some in Hfind as [_ Hid]. now apply String.eqb_eq in Hid. }
  destruct (remove_run userId currentUser w target Hrole Hfind) as [entry Hrun].
  set (saved := UserRepository.setUpdatedAt (clock w)
                  (UserRepository.hashPasswordBeforeUpdate
                     (UsersService.setIsActive false target))) in *.
  set (w0 := set_users (map (UserRepository.replaceRow userId saved) (users w)) w)
    in *.
  destruct (log_then_ret tt entry w0) as [Hsnd _].
  destruct (log_frame entry w0) as [Hu [_ [Ho _]]].
  assert (Husers : users w'
                   = map (UserRepository.replaceRow userId saved) (users w)).
  { unfold w'. now rewrite Hrun, Hsnd, Hu. }
  assert (Hsid : User.userId saved = userId).
  { unfold saved. rewrite userId_saved. exact Hid. }
  assert (Hfind' : List.find (UserRepository.hasId userId) (users w') = Some saved).
  { rewrite Husers. now apply replaceRow_find with (target := target). }
  assert (Hfields : User.isActive saved = false
                    /\ User.email saved = User.email target
                    /\ User.role saved = User.role target).
  { unfold saved, UserRepository.hashPasswordBeforeUpdate.
    destruct (Js.truthy _ && negb _); repeat split. }
  destruct Hfields as [Hact [Hemail Hrl]].
  split; [|split].
  - unfold AuthService.validateUser, bind, UserRepository.findOne_where_userId,
      gets, ret.
    rewrite Hsub, Hfind. destruct (User.isActive target); reflexivity.
  - unfold AuthService.validateUser, bind, UserRepository.findOne_where_userId,
      gets, ret.
    rewrite Hsub, Hfind', Hact. reflexivity.
  - unfold AuthService.getProfile, bind, UserRepository.findOne_where_userId,
      gets, ret.
    rewrite Hfind'. eexists. split; [reflexivity|].
    cbn [UsersService.toPublicUser IUserPublic.id IUserPublic.isActive
         IUserPublic.email IUserPublic.role].
    repeat split; assumption.
Qed.

End CreatedUsers.

Lemma X13_witness :
  let dto :=
    CreateUserDto.mk "New@Sales" "Passw0rd" "Nia" "New" ADMIN "org-sales" in
  isOk (fst (@AuthService.login Sample.libraries
               (LoginDto.mk "New@Sales" "Passw0rd")
               (snd (@UsersService.create Sample.libraries dto
                       Sample.admin_acme Sample.world))))
  = false.
Proof.
  intros dto.
  assert (Hnew : forall u, In u (users Sample.world) ->
            User.email u <> Js.toLowerCase (CreateUserDto.email dto)).
  { intros u [<-|[<-|[]]]; discriminate. }
  assert (Horg : exists o, In o (organizations Sample.world)
            /\ Organization.organizationId o = CreateUserDto.organizationId dto).
  { exists Sample.sales. split; [simpl; tauto | reflexivity]. }
  destruct (@X13_created_user_password_is_hashed_twice Sample.libraries
              dto Sample.admin_acme Sample.world
              eq_refl eq_refl Hnew ltac:(discriminate) Horg eq_refl)
    as [saved [_ [_ [_ [_ [_ [_ [_ [_ [_ [_ [_ Hlogin]]]]]]]]]]]].
  exact (eq_trans Hlogin eq_refl).
Defined.

Lemma X14_witness :
  fst (AuthService.validateUser
         (IJwtPayload.mk "u-viewer" "viewer@engineering" VIEWER "org-eng")
         (snd (@UsersService.remove Sample.libraries "u-viewer"
                 Sample.owner_eng Sample.world)))
  = Ok None.
Proof.
  destruct (@X14_removed_user_is_not_validated Sample.libraries
              "u-viewer" Sample.owner_eng
              (IJwtPayload.mk "u-viewer" "viewer@engineering" VIEWER "org-eng")
              Sample.world Sample.row_viewer eq_refl eq_refl eq_refl)
    as [_ [Hafter _]].
  exact Hafter.
Defined.

(** ** Users: what a principal who is not OWNER can change *)

Lemma userKey_injective (l : list User.t) (a b : User.t) :
  NoDup (map User.userId l) -> In a l -> In b l ->
  User.userId a = User.userId b -> a = b.
Proof.
  induction l as [|x l IH]; simpl.
  - intros _ [].
  - intros Hnd Ha Hb Heq. inversion Hnd as [|? ? Hnotin Hnd']; subst.
    destruct Ha as [<-|Ha], Hb as [<-|Hb].
    + reflexivity.
    + exfalso. apply Hnotin. rewrite Heq. now apply in_map.
    + exfalso. apply Hnotin. rewrite <- Heq. now apply in_map.
    + now apply IH.
Qed.

Section UsersByOthers.

Context {libraries : Libraries}.

Lemma UsersService_findAll_reads (query : UserQueryDto.t) (currentUser : IUser.t)
  (w : World) :
  snd (UsersService.findAll query currentUser w) = w.
Proof.
  unfold UsersService.findAll, bind.
  destruct (Role_eqb (IUser.role currentUser) ADMIN); reflexivity.
Qed.

Lemma UsersService_findOne_reads (userId : string) (currentUser : IUser.t)
  (w : World) :
  snd (UsersService.findOne userId currentUser w) = w.
Proof.
  unfold UsersService.findOne. unfold bind at 1.
  unfold UserRepository.findOne_where_userId, gets.
  destruct (List.find _ (users w)) as [user|]; [|reflexivity].
  unfold bind at 1.
  pose proof (checkUserAccess_reads user currentUser read w) as Hr.
  destruct (UsersService.checkUserAccess user currentUser read w) as [[[]|e] w1];
    simpl in Hr; subst; reflexivity.
Qed.

Lemma checkUserAccess_update_nonOwner (target : User.t) (currentUser : IUser.t)
  (w : World) :
  IUser.role currentUser <> OWNER ->
  UsersService.checkUserAccess target currentUser update w
  = (if String.eqb (User.userId target) (IUser.id currentUser) then Ok tt
     else Throw (ForbiddenException "You do not have access to this user"), w).
Proof.
  intros Hrole. apply Role_eqb_neq in Hrole.
  unfold UsersService.checkUserAccess. rewrite Hrole.
  destruct (String.eqb (User.userId target) (IUser.id currentUser));
    [reflexivity|].
  unfold bind. simpl. rewrite andb_false_r. reflexivity.
Qed.

(** X15.  Without an OWNER nobody gains a role.  Let a principal who is
    not OWNER make any call of [UsersService] on a table with unique keys.
    Then the roles of the rows that were in the table are what they were,
    a row that was added is no OWNER, and every row of another user is
    still in the table exactly as it was: the only row such a principal
    can rewrite is their own, and not its role. *)
Theorem X15_no_role_is_gained_without_an_owner
  (c : UsersServiceCall) (w : World) :
  NoDup (userKeys w) ->
  IUser.role (callerOf c) <> OWNER ->
  (exists added,
      map User.role (users (afterCall c w)) = map User.role (users w) ++ added
      /\ ~ In OWNER added)
  /\ (forall u,
         In u (users w) ->
         User.userId u <> IUser.id (callerOf c) ->
         In u (users (afterCall c w))).
Proof.
  intros Hkey Hrole.
  pattern (afterCall c w).
  match goal with |- ?P _ => set (Q := P) end.
  assert (Hsame : forall w', users w' = users w -> Q w').
  { intros w' Hw'. unfold Q. rewrite Hw'. split.
    - exists []. rewrite app_nil_r. split; [reflexivity | intros []].
    - auto. }
  destruct c as [query cu|userId cu|dto cu|userId dto cu|userId cu];
    cbn [afterCall callerOf] in *.
  - apply Hsame. now rewrite UsersService_findAll_reads.
  - apply Hsame. now rewrite UsersService_findOne_reads.
  - (* create *)
    unfold UsersService.create. unfold bind at 1.
    unfold UserRepository.findOne_where_email, gets.
    destruct (List.find _ (users w)) as [existing|] eqn:Hfind;
      [apply Hsame; reflexivity|].
    destruct (Role_eqb (CreateUserDto.role dto) OWNER
              && negb (Role_eqb (IUser.role cu) OWNER)) eqn:Hcheck;
      [apply Hsame; reflexivity|].
    assert (Hnot : CreateUserDto.role dto <> OWNER).
    { intros C. rewrite C in Hcheck. apply Role_eqb_neq in Hrole.
      rewrite Hrole in Hcheck. discriminate. }
    unfold UserRepository.insert, freshId, bind, gets, modify, ret, throw.
    cbn [fst snd].
    match goal with |- context [negb ?b] => destruct b end; cbn [negb];
      [|apply Hsame; reflexivity].
    match goal with |- context [AuditService.log ?e ?w0] =>
      pose proof (log_frame e w0) as [Hu _];
      destruct (AuditService.log e w0) as [[a|ex] w1] end;
      unfold Q; cbn [fst snd users set_users set_nextId] in *; rewrite Hu;
      (split;
       [ eexists; rewrite map_app; split; [reflexivity|];
         unfold UserRepository.hashPasswordBeforeInsert;
         destruct (Js.truthy _); cbn; intros [C|[]]; congruence
       | intros u Hin _; apply in_or_app; now left ]).
  - (* update *)
    unfold UsersService.update. unfold bind at 1.
    unfold UserRepository.findOne_where_userId, gets.
    destruct (List.find _ (users w)) as [user|] eqn:Hfind;
      [|apply Hsame; reflexivity].
    unfold bind at 1. rewrite (checkUserAccess_update_nonOwner user cu w Hrole).
    destruct (String.eqb_spec (User.userId user) (IUser.id cu)) as [Hself|Hother];
      [|apply Hsame; reflexivity].
    assert (Hin : In user (users w)) by (apply find_some in Hfind; tauto).
    assert (Hroles : forall saved w',
      User.userId saved = User.userId user -> User.role saved = User.role user ->
      users w' = map (UserRepository.replaceRow (User.userId user) saved) (users w) ->
      Q w').
    { intros saved w' Hsid Hsrole Hw'. unfold Q. rewrite Hw'. split.
      - exists []. rewrite app_nil_r. split; [|intros []].
        rewrite map_map. apply map_ext_in. intros u Hu.
        unfold UserRepository.replaceRow, UserRepository.hasId.
        destruct (String.eqb_spec (User.userId u) (User.userId user)) as [E|E];
          [|reflexivity].
        rewrite (userKey_injective (users w) u user Hkey Hu Hin E). exact Hsrole.
      - intros u Hu Hne. apply in_map_iff. exists u. split; [|exact Hu].
        unfold UserRepository.replaceRow, UserRepository.hasId.
        destruct (String.eqb_spec (User.userId u) (User.userId user)) as [E|E];
          [congruence | reflexivity]. }
    assert (Hgo : forall (user' : User.t),
      User.userId user' = User.userId user -> User.role user' = User.role user ->
      forall (B : Type) (k : User.t -> M B),
        (forall a w0, users (snd (k a w0)) = users w0) ->
        Q (snd (bind (UserRepository.save user') k w))).
    { intros user' Hid' Hrole' B k Hk.
      apply (Hroles (UserRepository.setUpdatedAt (clock w)
                       (UserRepository.hashPasswordBeforeUpdate user'))).
      - rewrite userId_saved. exact Hid'.
      - unfold UserRepository.hashPasswordBeforeUpdate.
        destruct (Js.truthy _ && negb _); exact Hrole'.
      - unfold bind. rewrite save_run. rewrite Hk. cbn [users set_users].
        rewrite Hid'. reflexivity. }
    destruct (UpdateUserDto.role dto) as [r|] eqn:Hdto.
    + destruct (negb (Role_eqb r (User.role user))
                && negb (Role_eqb (IUser.role cu) OWNER)) eqn:Hcheck;
        [apply Hsame; reflexivity|].
      assert (Hr : r = User.role user).
      { apply Role_eqb_neq in Hrole. rewrite Hrole, andb_true_r in Hcheck.
        apply negb_false_iff, Role_eqb_eq in Hcheck. exact Hcheck. }
      cbv zeta.
      apply Hgo.
      * destruct (UpdateUserDto.password dto) as [p|];
          [destruct (Js.truthy p)|]; reflexivity.
      * destruct (UpdateUserDto.password dto) as [p|];
          [destruct (Js.truthy p)|]; cbn; now rewrite Hdto.
      * intros a w0. unfold bind.
        match goal with |- context [AuditService.log ?e w0] =>
          destruct (log_frame e w0) as [Hu _];
          destruct (AuditService.log e w0) as [[x|ex] w1] end; exact Hu.
    + cbv zeta.
      apply Hgo.
      * destruct (UpdateUserDto.password dto) as [p|];
          [destruct (Js.truthy p)|]; reflexivity.
      * destruct (UpdateUserDto.password dto) as [p|];
          [destruct (Js.truthy p)|]; cbn; now rewrite Hdto.
      * intros a w0. unfold bind.
        match goal with |- context [AuditService.log ?e w0] =>
          destruct (log_frame e w0) as [Hu _];
          destruct (AuditService.log e w0) as [[x|ex] w1] end; exact Hu.
  - (* remove *)
    unfold UsersService.remove. unfold bind at 1.
    unfold UserRepository.findOne_where_userId, gets.
    destruct (List.find _ (users w)) as [user|];
      [|apply Hsame; reflexivity].
    apply Role_eqb_neq in Hrole. rewrite Hrole. apply Hsame. reflexivity.
Qed.

End UsersByOthers.

Lemma X15_witness :
  In Sample.row_viewer
    (users (@afterCall Sample.libraries
              (CallUpdate "u-admin"
                 (UpdateUserDto.mk (Some "Eve"%string) None (Some ADMIN) None None)
                 Sample.admin_eng)
              Sample.world)).
Proof.
  apply (@X15_no_role_is_gained_without_an_owner Sample.libraries
           (CallUpdate "u-admin"
              (UpdateUserDto.mk (Some "Eve"%string) None (Some ADMIN) None None)
              Sample.admin_eng)
           Sample.world).
  - vm_compute. repeat constructor; simpl; intuition discriminate.
  - discriminate.
  - simpl. tauto.
  - discriminate.
Defined.

(** ** Tasks: creating, reading, changing and deleting *)

Lemma checkTaskAccess_run (task : Task.t) (user : IUser.t) (action : TaskAction)
  (w : World) :
  TasksService.checkTaskAccess task user action w
  = (if Role_eqb (IUser.role user) OWNER then Ok tt
     else if Role_eqb (IUser.role user) VIEWER then
       if negb (String.eqb (Task.userId task) (IUser.id user)) then
         Throw (ForbiddenException "You do not have access to this task")
       else if negb (TaskAction_eqb action read) then
         Throw (ForbiddenException "Viewers cannot modify tasks")
       else Ok tt
     else if negb (Js.includes
                     (IUser.organizationId user
                      :: map Organization.organizationId
                           (filter (OrganizationRepository.hasParent
                                      (IUser.organizationId user))
                              (organizations w)))
                     (Task.organizationId task)) then
       Throw (ForbiddenException "You do not have access to this task")
     else Ok tt, w).
Proof.
  unfold TasksService.checkTaskAccess.
  destruct (Role_eqb (IUser.role user) OWNER) eqn:Ho; [reflexivity|].
  destruct (Role_eqb (IUser.role user) VIEWER); [|].
  - destruct (negb (String.eqb (Task.userId task) (IUser.id user)));
      [reflexivity|].
    destruct (negb (TaskAction_eqb action read)); reflexivity.
  - unfold bind. rewrite TasksService_scope_nonOwner
      by (intros C; rewrite C in Ho; discriminate).
    destruct (negb (Js.includes _ _)); reflexivity.
Qed.

Lemma findOne_run (taskId : string) (user : IUser.t) (w : World) :
  TasksService.findOne taskId user w
  = (match List.find (TasksService.hasId taskId) (tasks w) with
     | None => Throw (NotFoundException "Task not found")
     | Some task =>
         match fst (TasksService.checkTaskAccess task user read w) with
         | Ok _ => Ok task
         | Throw e => Throw e
         end
     end, w).
Proof.
  unfold TasksService.findOne, bind, gets.
  destruct (List.find _ (tasks w)) as [task|]; [|reflexivity].
  rewrite checkTaskAccess_run. cbn [fst].
  repeat match goal with |- context [if ?b then _ else _] => destruct b end;
    reflexivity.
Qed.

Lemma create_world (createTaskDto : CreateTaskDto.t) (user : IUser.t)
  (w : World) :
  tasks (snd (TasksService.create createTaskDto user w))
  = tasks w ++ [createdTask createTaskDto user w]
  /\ organizations (snd (TasksService.create createTaskDto user w))
     = organizations w.
Proof.
  unfold TasksService.create, TasksService.taskRepository_insert, freshId.
  unfold bind, gets, modify, ret. cbn [fst snd].
  match goal with |- context [AuditService.log ?e ?w0] =>
    destruct (log_frame e w0) as [_ [Ht [Ho _]]];
    destruct (AuditService.log e w0) as [[a|ex] w1] end;
    cbn [fst snd] in *; rewrite Ht, Ho; split; reflexivity.
Qed.

Lemma maxPosition_fold (l : list Task.t) :
  forall acc : option Z,
    match fold_left
            (fun acc t =>
               match acc with
               | None => Some (Task.position t)
               | Some m => Some (Z.max m (Task.position t))
               end) l acc with
    | None => acc = None /\ l = []
    | Some m =>
        (acc = Some m \/ exists t, In t l /\ Task.position t = m)
        /\ (forall a, acc = Some a -> (a <= m)%Z)
        /\ (forall t, In t l -> (Task.position t <= m)%Z)
    end.
Proof.
  induction l as [|x l IH]; intros acc; cbn [fold_left].
  - destruct acc as [m|]; [|now split].
    split; [now left|]. split; [|intros t []].
    intros a E. injection E as ->. lia.
  - specialize (IH (match acc with
                    | None => Some (Task.position x)
                    | Some m => Some (Z.max m (Task.position x))
                    end)).
    destruct (fold_left _ l _) as [m|].
    + destruct IH as [Hat [Hacc Hall]]. split; [|split].
      * destruct Hat as [E|[t [Hin Ht]]].
        -- destruct acc as [a|]; injection E as E.
           ++ destruct (Z.max_spec a (Task.position x)) as [[_ Hm]|[_ Hm]].
              ** right. exists x. split; [now left | congruence].
              ** left. congruence.
           ++ right. exists x. split; [now left | exact E].
        -- right. exists t. split; [now right | exact Ht].
      * intros a ->. specialize (Hacc _ eq_refl). lia.
      * intros t [<-|Hin]; [|now apply Hall].
        destruct acc as [a|]; specialize (Hacc _ eq_refl); lia.
    + destruct IH as [E _]. destruct acc; discriminate.
Qed.

Lemma maxPosition_spec (orgId : string) (w : World) :
  match TasksService.maxPosition orgId w with
  | None => forall t, In t (tasks w) -> Task.organizationId t <> orgId
  | Some m =>
      (exists t, In t (tasks w) /\ Task.organizationId t = orgId
                 /\ Task.position t = m)
      /\ (forall t, In t (tasks w) -> Task.organizationId t = orgId ->
                    (Task.position t <= m)%Z)
  end.
Proof.
  unfold TasksService.maxPosition.
  pose proof (maxPosition_fold
                (filter (TasksService.inOrganization orgId) (tasks w)) None) as H.
  assert (Hin : forall t,
            In t (filter (TasksService.inOrganization orgId) (tasks w))
            <-> In t (tasks w) /\ Task.organizationId t = orgId).
  { intros t. rewrite filter_In. unfold TasksService.inOrganization.
    now rewrite String.eqb_eq. }
  destruct (fold_left _ _ None) as [m|].
  - destruct H as [[E|[t [Ht Hm]]] [_ Hall]]; [discriminate|].
    apply Hin in Ht as [Ht Ho]. split; [now exists t|].
    intros t' Ht' Ho'. apply Hall, Hin. now split.
  - destruct H as [_ Hnil]. intros t Ht Ho.
    assert (C : In t (filter (TasksService.inOrganization orgId) (tasks w)))
      by (now apply Hin).
    rewrite Hnil in C. destruct C.
Qed.

Lemma toDouble_safe (z : Z) :
  (- 9007199254740992 <= z <= 9007199254740992)%Z -> Js.toDouble z = z.
Proof.
  intros Hz. unfold Js.toDouble. cbv zeta.
  destruct (Z.ltb_spec (Z.abs z) 9007199254740992) as [_|Hge]; [reflexivity|].
  assert (E : z = 9007199254740992%Z \/ z = (- 9007199254740992)%Z) by lia.
  destruct E as [-> | ->]; reflexivity.
Qed.

Lemma nextPosition_safe (m : Z) :
  (- 9007199254740991 <= m <= 9007199254740991)%Z ->
  TasksService.nextPosition (Some m) = (m + 1)%Z.
Proof.
  intros Hm. unfold TasksService.nextPosition.
  rewrite (toDouble_safe m) by lia.
  destruct (Z.eqb_spec m 0) as [->|_]; [reflexivity|].
  apply toDouble_safe. lia.
Qed.

(** X16.  A new task goes last in its organization and its creator can
    read it back.  Let the caller's user row and organization be in the
    tables (the task refers to both) and let the key the store hands out
    be unused.  Then [create] appends one row: with that key, the title,
    the description and the due date of the request, its priority and
    category or else "medium" and "work", status "todo", owned by the
    caller in the caller's organization, both dates the time of the
    call; and [findOne] with that key answers the creator, whatever
    their role, with exactly that row.  When the positions of the
    organization's tasks are safe integers of JavaScript (at most
    [2 ^ 53 - 1] in absolute value), the position of the new row is 1 if
    the organization had no task and otherwise one more than the largest
    position there, so strictly above every task the organization had.
    Past that range the sum is rounded: when the largest position is
    [2 ^ 53], the new task gets [2 ^ 53] again. *)
Theorem X16_created_task_goes_last_and_is_readable
  (createTaskDto : CreateTaskDto.t) (user : IUser.t) (w : World) :
  ~ In (uuid (nextId w)) (taskKeys w) ->
  (exists u, In u (users w) /\ User.userId u = IUser.id user) ->
  (exists o, In o (organizations w)
             /\ Organization.organizationId o = IUser.organizationId user) ->
  let w' := snd (TasksService.create createTaskDto user w) in
  let ownTask t :=
    In t (tasks w) /\ Task.organizationId t = IUser.organizationId user in
  exists position,
    let saved :=
      Task.mk (uuid (nextId w))
        (CreateTaskDto.title createTaskDto)
        (CreateTaskDto.description createTaskDto)
        "todo"
        (match CreateTaskDto.priority createTaskDto with
         | Some priority => priority
         | None => "medium"%string
         end)
        (match CreateTaskDto.category createTaskDto with
         | Some category => category
         | None => "work"%string
         end)
        position
        (CreateTaskDto.dueDate createTaskDto)
        (IUser.id user) (IUser.organizationId user) (clock w) (clock w) in
    tasks w' = tasks w ++ [saved]
    /\ TasksService.findOne (uuid (nextId w)) user w' = (Ok saved, w')
    /\ ((forall t, ownTask t ->
                   (- 9007199254740991 <= Task.position t
                    <= 9007199254740991)%Z) ->
        (forall t, ownTask t -> (Task.position t < position)%Z)
        /\ ((forall t, ~ ownTask t) -> position = 1%Z)
        /\ (forall t, ownTask t ->
                      exists last,
                        ownTask last
                        /\ position = (Task.position last + 1)%Z))
    /\ ((forall t, ownTask t -> (Task.position t <= 9007199254740992)%Z) ->
        (exists t, ownTask t /\ Task.position t = 9007199254740992%Z) ->
        position = 9007199254740992%Z).
Proof.
  intros Hfresh _ _ w' ownTask.
  destruct (create_world createTaskDto user w) as [Htasks Horgs].
  fold w' in Htasks, Horgs.
  exists (TasksService.nextPosition
            (TasksService.maxPosition (IUser.organizationId user) w)).
  cbv zeta.
  change (Task.mk (uuid (nextId w)) _ _ _ _ _ _ _ _ _ _ _)
    with (createdTask createTaskDto user w).
  set (saved := createdTask createTaskDto user w) in *.
  pose proof (maxPosition_spec (IUser.organizationId user) w) as Hmax.
  split; [exact Htasks|]. split; [|split].
  - rewrite findOne_run. f_equal.
    assert (Hfind : List.find (TasksService.hasId (uuid (nextId w))) (tasks w')
                    = Some saved).
    { rewrite Htasks. clear Htasks Hmax ownTask. unfold taskKeys in Hfresh.
      induction (tasks w) as [|x l IH]; cbn [List.find app].
      - unfold TasksService.hasId at 1. cbn [saved createdTask Task.taskId].
        now rewrite String.eqb_refl.
      - unfold TasksService.hasId at 1.
        destruct (String.eqb_spec (Task.taskId x) (uuid (nextId w))) as [E|E].
        + exfalso. apply Hfresh. left. exact E.
        + apply IH. intros C. apply Hfresh. right. exact C. }
    rewrite Hfind, checkTaskAccess_run. cbn [fst].
    destruct (Role_eqb (IUser.role user) OWNER); [reflexivity|].
    destruct (Role_eqb (IUser.role user) VIEWER).
    + cbn. now rewrite String.eqb_refl.
    + cbn [Js.includes existsb saved createdTask Task.organizationId].
      unfold Js.includes. cbn [existsb]. now rewrite String.eqb_refl.
  - intros Hsafe.
    destruct (TasksService.maxPosition (IUser.organizationId user) w) as [m|].
    + destruct Hmax as [[last [Hl [Ho Hm]]] Hall].
      rewrite nextPosition_safe
        by (rewrite <- Hm; apply Hsafe; now split).
      split; [|split].
      * intros t [Hin Horg]. specialize (Hall t Hin Horg). lia.
      * intros Hnone. now destruct (Hnone last).
      * intros t _. exists last. split; [now split | now rewrite Hm].
    + split; [|split].
      * intros t [Hin Horg]. now destruct (Hmax t Hin).
      * reflexivity.
      * intros t [Hin Horg]. now destruct (Hmax t Hin).
  - intros Hbound [t [[Hin Horg] Hpos]].
    destruct (TasksService.maxPosition (IUser.organizationId user) w) as [m|];
      [|now destruct (Hmax t Hin)].
    destruct Hmax as [[last [Hl [Ho Hm]]] Hall].
    assert (E : m = 9007199254740992%Z).
    { specialize (Hall t Hin Horg).
      specialize (Hbound last (conj Hl Ho)). lia. }
    rewrite E. reflexivity.
Qed.

Lemma X16_witness :
  let dto := CreateTaskDto.mk "Ship release" None None None None in
  let w' := snd (TasksService.create dto Sample.viewer_eng Sample.world) in
  exists position,
    TasksService.findOne "uuid-100" Sample.viewer_eng w'
    = (Ok (Task.mk "uuid-100" "Ship release" None "todo" "medium" "work"
             position None "u-viewer" "org-eng" 10 10), w')
    /\ position = 3%Z.
Proof.
  intros dto w'.
  assert (Hfresh : ~ In (uuid (nextId Sample.world)) (taskKeys Sample.world)).
  { vm_compute. intuition discriminate. }
  assert (Huser : exists u, In u (users Sample.world)
            /\ User.userId u = IUser.id Sample.viewer_eng).
  { exists Sample.row_viewer. split; [simpl; tauto | reflexivity]. }
  assert (Horg : exists o, In o (organizations Sample.world)
            /\ Organization.organizationId o
               = IUser.organizationId Sample.viewer_eng).
  { exists Sample.engineering. split; [simpl; tauto | reflexivity]. }
  destruct (X16_created_task_goes_last_and_is_readable
              dto Sample.viewer_eng Sample.world Hfresh Huser Horg)
    as [position [_ [Hread [Hlast _]]]].
  exists position. split; [exact Hread|].
  destruct Hlast as [_ [_ Hlast]].
  { intros t [[<-|[<-|[<-|[]]]] _]; cbn; lia. }
  destruct (Hlast Sample.task_admin) as [last [[Hin Ho] Hp]];
    [split; [simpl; tauto | reflexivity]|].
  destruct Hin as [<-|[<-|[<-|[]]]]; try discriminate Ho; exact Hp.
Defined.

(** X17.  A VIEWER cannot change or delete a task.  For a principal with
    the role VIEWER, [update] and [remove] throw, for every key and every
    request, [NotFoundException] or [ForbiddenException], and the database
    is left exactly as it was: no row is written and the refusal is not
    even put in the audit trail. *)
Theorem X17_viewer_cannot_modify_tasks
  (taskId : string) (updateTaskDto : UpdateTaskDto.t) (user : IUser.t)
  (w : World) :
  IUser.role user = VIEWER ->
  (exists e,
      TasksService.update taskId updateTaskDto user w = (Throw e, w)
      /\ (e = NotFoundException "Task not found"
          \/ e = ForbiddenException "You do not have access to this task"
          \/ e = ForbiddenException "Viewers cannot modify tasks"))
  /\ (exists e,
         TasksService.remove taskId user w = (Throw e, w)
         /\ (e = NotFoundException "Task not found"
             \/ e = ForbiddenException "You do not have access to this task"
             \/ e = ForbiddenException "Viewers cannot modify tasks")).
Proof.
  intros Hrole. split.
  - unfold TasksService.update. unfold bind at 1. unfold gets.
    destruct (List.find _ (tasks w)) as [task|];
      [|eexists; split; [reflexivity|tauto]].
    unfold bind at 1. rewrite checkTaskAccess_run, Hrole.
    cbn [Role_eqb Role_value]. cbn.
    destruct (String.eqb (Task.userId task) (IUser.id user));
      eexists; (split; [reflexivity|tauto]).
  - unfold TasksService.remove. unfold bind at 1. unfold gets.
    destruct (List.find _ (tasks w)) as [task|];
      [|eexists; split; [reflexivity|tauto]].
    unfold bind at 1. rewrite checkTaskAccess_run, Hrole. cbn.
    destruct (String.eqb (Task.userId task) (IUser.id user));
      eexists; (split; [reflexivity|tauto]).
Qed.

Lemma X17_witness :
  exists e,
    TasksService.remove "task-1" Sample.viewer_eng Sample.world
    = (Throw e, Sample.world).
Proof.
  destruct (X17_viewer_cannot_modify_tasks "task-1"
              (UpdateTaskDto.mk None None None None None None None None)
              Sample.viewer_eng Sample.world eq_refl) as [_ [e [H _]]].
  exists e. exact H.
Defined.

Lemma checkTaskAccess_ok (task : Task.t) (user : IUser.t) (action : TaskAction)
  (w : World) :
  fst (TasksService.checkTaskAccess task user action w) = Ok tt ->
  TasksService.checkTaskAccess task user action w = (Ok tt, w).
Proof.
  rewrite checkTaskAccess_run. cbn [fst]. now intros ->.
Qed.

Lemma checkTaskAccess_refused (task : Task.t) (user : IUser.t)
  (action : TaskAction) (w : World) :
  fst (TasksService.checkTaskAccess task user action w) <> Ok tt ->
  exists e, TasksService.checkTaskAccess task user action w = (Throw e, w).
Proof.
  rewrite checkTaskAccess_run. cbn [fst]. intros H.
  match goal with |- context [(?r, w)] => destruct r as [[]|e] end;
    [contradiction | now exists e].
Qed.

(** X18.  A deleted task is gone.  When the key names a task the caller
    may delete, [remove] takes every row with that key out of the table and
    leaves all other rows as they are; afterwards [findOne] with that key
    answers every principal with [NotFoundException].  When the audit table
    accepts the write, [remove] returns and the trail gets one
    [TASK_DELETED] entry that names the key and the caller (an empty
    string is recorded as [null]). *)
Theorem X18_removed_task_is_gone
  (taskId : string) (user : IUser.t) (w : World) (task : Task.t) :
  List.find (TasksService.hasId taskId) (tasks w) = Some task ->
  fst (TasksService.checkTaskAccess task user delete w) = Ok tt ->
  let w' := snd (TasksService.remove taskId user w) in
  tasks w' = filter (fun t => negb (TasksService.hasId taskId t)) (tasks w)
  /\ (forall t, In t (tasks w) -> Task.taskId t <> taskId -> In t (tasks w'))
  /\ (forall anyone,
         TasksService.findOne taskId anyone w'
         = (Throw (NotFoundException "Task not found"), w'))
  /\ (auditStoreAvailable w = true ->
      fst (TasksService.remove taskId user w) = Ok tt
      /\ exists entry,
           audit_logs w' = audit_logs w ++ [entry]
           /\ AuditLog.action entry = "TASK_DELETED"%string
           /\ AuditLog.resourceId entry = Js.orNull (Some taskId)
           /\ AuditLog.userId entry = Js.orNull (Some (IUser.id user))).
Proof.
  intros Hfind Hacc w'.
  assert (Hid : Task.taskId task = taskId).
  { apply find_some in Hfind as [_ H]. now apply String.eqb_eq in H. }
  assert (Hrun : exists entry,
    TasksService.remove taskId user w
    = bind (AuditService.log entry) (fun _ => ret tt)
        (set_tasks
           (filter (fun t => negb (TasksService.hasId taskId t)) (tasks w)) w)
    /\ LogEntry.action entry = "TASK_DELETED"%string
    /\ LogEntry.resourceId entry = Some taskId
    /\ LogEntry.userId entry = Some (IUser.id user)).
  { unfold TasksService.remove. unfold bind at 1. unfold gets. rewrite Hfind.
    unfold bind at 1. rewrite (checkTaskAccess_ok _ _ _ _ Hacc).
    unfold bind at 1. unfold TasksService.taskRepository_remove, modify.
    rewrite Hid. eexists. split; [reflexivity|]. repeat split. }
  destruct Hrun as [entry [Hrun [Haction [Hres Huser]]]].
  set (w1 := set_tasks
               (filter (fun t => negb (TasksService.hasId taskId t)) (tasks w)) w)
    in *.
  destruct (log_then_ret tt entry w1) as [Hsnd Hfst].
  destruct (log_frame entry w1) as [_ [Ht [_ [_ Hlogs]]]].
  assert (Htasks : tasks w'
                   = filter (fun t => negb (TasksService.hasId taskId t)) (tasks w)).
  { unfold w'. rewrite Hrun, Hsnd, Ht. reflexivity. }
  split; [exact Htasks|]. split; [|split].
  - intros t Hin Hne. rewrite Htasks. apply filter_In. split; [exact Hin|].
    unfold TasksService.hasId.
    destruct (String.eqb_spec (Task.taskId t) taskId); [contradiction|reflexivity].
  - intros anyone. rewrite findOne_run.
    destruct (List.find (TasksService.hasId taskId) (tasks w')) as [t|] eqn:E;
      [|reflexivity].
    apply find_some in E as [Hin Hhas]. rewrite Htasks in Hin.
    apply filter_In in Hin as [_ Hno]. rewrite Hhas in Hno. discriminate.
  - intros Hup. rewrite Hrun, Hfst. unfold w'. rewrite Hrun, Hsnd, Hlogs.
    change (auditStoreAvailable w1) with (auditStoreAvailable w). rewrite Hup.
    split; [reflexivity|]. eexists. split; [reflexivity|].
    unfold AuditService.create. cbn. rewrite Haction, Hres, Huser. repeat split.
Qed.

Lemma X18_witness :
  TasksService.findOne "task-2" Sample.owner_eng
    (snd (TasksService.remove "task-2" Sample.admin_eng Sample.world))
  = (Throw (NotFoundException "Task not found"),
     snd (TasksService.remove "task-2" Sample.admin_eng Sample.world)).
Proof.
  destruct (X18_removed_task_is_gone "task-2" Sample.admin_eng Sample.world
              Sample.task_admin eq_refl eq_refl) as [_ [_ [Hgone _]]].
  exact (Hgone Sample.owner_eng).
Defined.

Lemma taskKey_injective (l : list Task.t) (a b : Task.t) :
  NoDup (map Task.taskId l) -> In a l -> In b l ->
  Task.taskId a = Task.taskId b -> a = b.
Proof.
  induction l as [|x l IH]; simpl.
  - intros _ [].
  - intros Hnd Ha Hb Heq. inversion Hnd as [|? ? Hnotin Hnd']; subst.
    destruct Ha as [<-|Ha], Hb as [<-|Hb].
    + reflexivity.
    + exfalso. apply Hnotin. rewrite Heq. now apply in_map.
    + exfalso. apply Hnotin. rewrite <- Heq. now apply in_map.
    + now apply IH.
Qed.

Lemma taskRepository_save_loaded (task loaded : Task.t) (w : World) :
  List.find (TasksService.hasId (Task.taskId task)) (tasks w) = Some loaded ->
  TasksService.taskRepository_save task w
  = if TasksService.sameColumns loaded task then (Ok task, w)
    else (Ok (TasksService.setUpdatedAt (clock w) task),
          set_tasks
            (map (TasksService.replaceRow (Task.taskId task)
                    (TasksService.setUpdatedAt (clock w) task)) (tasks w)) w).
Proof.
  intros Hfind. unfold TasksService.taskRepository_save.
  unfold bind at 1. unfold gets at 1. rewrite Hfind.
  destruct (TasksService.sameColumns loaded task); reflexivity.
Qed.

(** X19.  [update] changes a task in place and nothing else.  On a table
    with unique keys, whatever the request and whoever the caller, after
    [update] the table has the same keys in the same order, every task has
    the owner, the organization and the creation date it had, and every
    task with another key is exactly as it was: a task cannot be moved to
    another user or another organization through [update]. *)
Theorem X19_update_keeps_task_identity
  (taskId : string) (updateTaskDto : UpdateTaskDto.t) (user : IUser.t)
  (w : World) :
  NoDup (taskKeys w) ->
  let w' := snd (TasksService.update taskId updateTaskDto user w) in
  map Task.taskId (tasks w') = map Task.taskId (tasks w)
  /\ map Task.userId (tasks w') = map Task.userId (tasks w)
  /\ map Task.organizationId (tasks w') = map Task.organizationId (tasks w)
  /\ map Task.createdAt (tasks w') = map Task.createdAt (tasks w)
  /\ (forall t, In t (tasks w) -> Task.taskId t <> taskId -> In t (tasks w')).
Proof.
  intros Hkey w'. unfold w'. clear w'.
  pattern (snd (TasksService.update taskId updateTaskDto user w)).
  match goal with |- ?P _ => set (Q := P) end.
  assert (Hsame : forall w0, tasks w0 = tasks w -> Q w0).
  { intros w0 H0. unfold Q. rewrite H0. repeat split; auto. }
  unfold TasksService.update. unfold bind at 1. unfold gets.
  destruct (List.find _ (tasks w)) as [task|] eqn:Hfind;
    [|apply Hsame; reflexivity].
  unfold bind at 1.
  destruct (TasksService.checkTaskAccess task user update w) as [[[]|e] w0]
    eqn:Hcheck.
  2:{ pose proof (checkTaskAccess_run task user update w) as Hr.
      rewrite Hcheck in Hr. apply Hsame.
      change w0 with (snd (Throw (A:=unit) e, w0)). now rewrite Hr. }
  assert (Hw0 : w0 = w).
  { pose proof (checkTaskAccess_run task user update w) as Hr.
    rewrite Hcheck in Hr. change w0 with (snd (Ok tt, w0)). now rewrite Hr. }
  subst w0. cbv zeta.
  assert (Hin : In task (tasks w)) by (apply find_some in Hfind; tauto).
  assert (Hid : Task.taskId task = taskId)
    by (apply find_some in Hfind as [_ H]; now apply String.eqb_eq in H).
  unfold bind at 1.
  rewrite (taskRepository_save_loaded (TasksService.assign task updateTaskDto)
             task w)
    by (cbn [TasksService.assign Task.taskId]; now rewrite Hid).
  destruct (TasksService.sameColumns task
              (TasksService.assign task updateTaskDto)).
  { cbv beta iota. unfold bind.
    match goal with |- context [AuditService.log ?e w] =>
      destruct (log_frame e w) as [_ [Ht _]];
      destruct (AuditService.log e w) as [[a|ex] w2] end;
      unfold gets, ret; cbn [fst snd] in *; apply Hsame; exact Ht. }
  set (saved := TasksService.setUpdatedAt (clock w)
                  (TasksService.assign task updateTaskDto)).
  cbn [TasksService.assign Task.taskId]. cbv beta iota.
  set (w1 := set_tasks _ w).
  unfold bind.
  match goal with |- context [AuditService.log ?e w1] =>
    destruct (log_frame e w1) as [_ [Ht _]];
    destruct (AuditService.log e w1) as [[a|ex] w2] end;
    unfold gets, ret; cbn [fst snd] in *; unfold Q; rewrite Ht; unfold w1;
    cbn [tasks set_tasks TasksService.assign Task.taskId].
  all: assert (Hrow : forall (B : Type) (f : Task.t -> B),
         f saved = f task ->
         map f (map (TasksService.replaceRow (Task.taskId task) saved) (tasks w))
         = map f (tasks w)).
  1,3: intros B f Hf; rewrite map_map; apply map_ext_in; intros t Hint;
       unfold TasksService.replaceRow, TasksService.hasId;
       destruct (String.eqb_spec (Task.taskId t) (Task.taskId task)) as [E|E];
       [ rewrite (taskKey_injective (tasks w) t task Hkey Hint Hin E); exact Hf
       | reflexivity ].
  all: repeat split; try (apply Hrow; reflexivity).
  all: intros t Hint Hne; apply in_map_iff; exists t; split; [|exact Hint];
       unfold TasksService.replaceRow, TasksService.hasId;
       destruct (String.eqb_spec (Task.taskId t) (Task.taskId task)) as [E|E];
       [congruence | reflexivity].
Qed.

Lemma X19_witness :
  map Task.organizationId
    (tasks (snd (TasksService.update "task-2"
                   (UpdateTaskDto.mk (Some "Review"%string) None
                      (Some "done"%string) None None None None None)
                   Sample.admin_eng Sample.world)))
  = map Task.organizationId (tasks Sample.world).
Proof.
  assert (Hkey : NoDup (taskKeys Sample.world)).
  { vm_compute. repeat constructor; simpl; intuition discriminate. }
  destruct (X19_update_keeps_task_identity "task-2"
              (UpdateTaskDto.mk (Some "Review"%string) None
                 (Some "done"%string) None None None None None)
              Sample.admin_eng Sample.world Hkey) as [_ [_ [Horg _]]].
  exact Horg.
Defined.

Lemma insertAsc_In {A} (key : A -> Z) (e x : A) (l : list A) :
  In x (insertAsc key e l) <-> x = e \/ In x l.
Proof.
  induction l as [|y l IH]; simpl.
  - intuition.
  - destruct (Z.ltb (key e) (key y)); simpl; [intuition|].
    rewrite IH. intuition.
Qed.

Lemma orderByAsc_In {A} (key : A -> Z) (x : A) (l : list A) :
  In x (orderByAsc key l) <-> In x l.
Proof.
  unfold orderByAsc. induction l as [|y l IH]; simpl; [reflexivity|].
  rewrite insertAsc_In, IH. intuition.
Qed.

Lemma paginate_length {A} (page limit : Z) (rows : list A) :
  List.length (paginate page limit rows) <= List.length rows.
Proof.
  unfold paginate. cbv zeta. destruct (limit <? 0)%Z;
    [|rewrite length_firstn]; rewrite length_skipn; lia.
Qed.

Lemma orderByAsc_length {A} (key : A -> Z) (l : list A) :
  List.length (orderByAsc key l) = List.length l.
Proof.
  unfold orderByAsc. induction l as [|y l IH]; simpl; [reflexivity|].
  rewrite <- IH. generalize (fold_right (insertAsc key) [] l). intros r.
  induction r as [|z r IHr]; simpl; [reflexivity|].
  destruct (Z.ltb (key y) (key z)); simpl; [reflexivity|]. now rewrite IHr.
Qed.

Lemma taskScope_run (user : IUser.t) (w : World) :
  TasksService.getAccessibleOrganizationIds user w = (Ok (taskScope user w), w).
Proof.
  unfold taskScope. destruct (Role_eqb (IUser.role user) OWNER) eqn:E.
  - apply Role_eqb_eq in E. now rewrite (TasksService_scope_owner user w E).
  - assert (H : IUser.role user <> OWNER)
      by (intros C; rewrite C in E; discriminate).
    now rewrite (TasksService_scope_nonOwner user w H).
Qed.

Lemma find_task_by_key (l : list Task.t) (t : Task.t) :
  NoDup (map Task.taskId l) -> In t l ->
  List.find (TasksService.hasId (Task.taskId t)) l = Some t.
Proof.
  intros Hkey Hin.
  destruct (List.find (TasksService.hasId (Task.taskId t)) l) as [t'|] eqn:E.
  - apply find_some in E as [Hin' Hid]. apply String.eqb_eq in Hid.
    f_equal. now apply (taskKey_injective l t' t Hkey).
  - apply (find_none _ _ E) in Hin. unfold TasksService.hasId in Hin.
    now rewrite String.eqb_refl in Hin.
Qed.

Section TaskQueries.

Context {libraries : Libraries}.

Lemma Tasks_findAll_run (query : TaskQueryDto.t) (user : IUser.t) (w : World) :
  TasksService.findAll query user w
  = (Ok (map (fun t => TasksService.toTaskResponse t w)
           (paginate
              (match TaskQueryDto.page query with Some p => p | None => 1%Z end)
              (match TaskQueryDto.limit query with Some l => l | None => 20%Z end)
              (TasksService.findAll_rows query user (taskScope user w) w)),
         List.length (TasksService.findAll_rows query user (taskScope user w) w)),
     w).
Proof.
  unfold TasksService.findAll. cbv zeta. unfold bind at 1.
  rewrite taskScope_run. reflexivity.
Qed.

(** X20.  What [findAll] lists, [findOne] opens.  On a table with unique
    keys, [findAll] always answers, with no more rows than the total it
    reports, and each listed task is a row of the table that [findOne]
    returns to the same principal under the listed id.  A VIEWER is shown
    own tasks only; anybody else only tasks of the organizations
    [getAccessibleOrganizationIds] resolves for them. *)
Theorem X20_listed_tasks_can_be_read
  (query : TaskQueryDto.t) (user : IUser.t) (w : World) :
  NoDup (taskKeys w) ->
  exists data total,
    TasksService.findAll query user w = (Ok (data, total), w)
    /\ List.length data <= total
    /\ forall item, In item data ->
         exists t,
           In t (tasks w)
           /\ item = TasksService.toTaskResponse t w
           /\ TasksService.findOne (ITask.id item) user w = (Ok t, w)
           /\ (IUser.role user = VIEWER -> Task.userId t = IUser.id user)
           /\ (IUser.role user <> VIEWER ->
               In (Task.organizationId t) (taskScope user w)).
Proof.
  intros Hkey. rewrite Tasks_findAll_run. eexists. eexists.
  split; [reflexivity|]. split.
  - rewrite length_map. etransitivity; [apply paginate_length|]. reflexivity.
  - intros item Hitem. apply in_map_iff in Hitem as [t [<- Hin]].
    apply paginate_In in Hin. unfold TasksService.findAll_rows in Hin.
    apply orderByAsc_In in Hin. apply filter_In in Hin as [Hin Hvis].
    apply andb_true_iff in Hvis as [Hvis _].
    exists t. split; [exact Hin|]. split; [reflexivity|].
    unfold TasksService.visibleTo in Hvis.
    cbn [TasksService.toTaskResponse ITask.id].
    rewrite findOne_run, (find_task_by_key (tasks w) t Hkey Hin).
    rewrite checkTaskAccess_run. cbn [fst].
    destruct (Role_eqb (IUser.role user) VIEWER) eqn:Ev.
    + apply Role_eqb_eq in Ev. rewrite Ev. cbn.
      rewrite Hvis. cbn. split; [reflexivity|]. split.
      * intros _. now apply String.eqb_eq.
      * intros C. contradiction.
    + assert (Hnv : IUser.role user <> VIEWER)
        by (intros C; rewrite C in Ev; discriminate).
      split; [|split; [contradiction | intros _; now apply includes_In]].
      destruct (Role_eqb (IUser.role user) OWNER) eqn:Eo; [reflexivity|].
      assert (Hno : IUser.role user <> OWNER)
        by (intros C; rewrite C in Eo; discriminate).
      unfold taskScope in Hvis.
      rewrite (TasksService_scope_nonOwner user w Hno) in Hvis. cbn [fst] in Hvis.
      rewrite Hvis. reflexivity.
Qed.

End TaskQueries.

Lemma X20_witness :
  exists data total,
    @TasksService.findAll Sample.libraries TaskQueryDto.empty Sample.admin_eng
      Sample.world
    = (Ok (data, total), Sample.world)
    /\ List.length data <= total.
Proof.
  assert (Hkey : NoDup (taskKeys Sample.world)).
  { vm_compute. repeat constructor; simpl; intuition discriminate. }
  destruct (@X20_listed_tasks_can_be_read Sample.libraries TaskQueryDto.empty
              Sample.admin_eng Sample.world Hkey)
    as [data [total [Hrun [Hlen _]]]].
  exists data, total. split; [exact Hrun | exact Hlen].
Defined.

(** ** Tasks: statistics *)

Lemma setOwn_sum (key : string) (record : list (string * TaskStats.Count)) :
  forall n,
    sumCounts record = Some n ->
    match TasksService.getOwn key record with
    | Some v =>
        sumCounts (TasksService.setOwn key (TasksService.orZeroPlusOne v) record)
        = Some (S n)
    | None =>
        sumCounts (TasksService.setOwn key (TaskStats.Number 1) record)
        = Some (S n)
    end.
Proof.
  induction record as [|[k v] rest IH]; intros n Hsum.
  - cbn in *. injection Hsum as <-. reflexivity.
  - cbn [TasksService.getOwn TasksService.setOwn].
    destruct v as [m|s]; [|discriminate].
    cbn [sumCounts] in Hsum.
    destruct (sumCounts rest) as [r|] eqn:Hrest; [|discriminate].
    injection Hsum as <-.
    destruct (String.eqb k key).
    + cbn. rewrite Hrest. reflexivity.
    + specialize (IH r eq_refl).
      destruct (TasksService.getOwn key rest) as [v|];
        cbn [sumCounts]; rewrite IH; cbn; f_equal; lia.
Qed.

Lemma increment_sum (key : string) (record : list (string * TaskStats.Count))
  (n : nat) :
  TasksService.inherited key = None ->
  sumCounts record = Some n ->
  sumCounts (TasksService.increment key record) = Some (S n).
Proof.
  intros Hkey Hsum. unfold TasksService.increment. rewrite Hkey.
  pose proof (setOwn_sum key record n Hsum) as H.
  destruct (TasksService.getOwn key record); exact H.
Qed.

Lemma getStats_loop_sums (now : nat) (l : list Task.t) :
  (forall t, In t l ->
     TasksService.inherited (Task.status t) = None
     /\ TasksService.inherited (Task.priority t) = None) ->
  forall byStatus byPriority overdue n m,
    sumCounts byStatus = Some n ->
    sumCounts byPriority = Some m ->
    exists byStatus' byPriority',
      TasksService.getStats_loop now l byStatus byPriority overdue
      = (byStatus', byPriority',
         overdue + List.length (filter (TasksService.isOverdue now) l))
      /\ sumCounts byStatus' = Some (n + List.length l)
      /\ sumCounts byPriority' = Some (m + List.length l).
Proof.
  induction l as [|t l IH]; intros Hl byStatus byPriority overdue n m Hs Hp.
  - exists byStatus, byPriority. cbn. rewrite !Nat.add_0_r. auto.
  - cbn [TasksService.getStats_loop].
    destruct (Hl t (or_introl eq_refl)) as [Hst Hpr].
    destruct (IH (fun t' H => Hl t' (or_intror H))
                (TasksService.increment (Task.status t) byStatus)
                (TasksService.increment (Task.priority t) byPriority)
                (if TasksService.isOverdue now t then S overdue else overdue)
                (S n) (S m)
                (increment_sum _ _ _ Hst Hs) (increment_sum _ _ _ Hpr Hp))
      as [bs [bp [Hrun [Hbs Hbp]]]].
    exists bs, bp. rewrite Hrun. cbn [filter List.length].
    split; [|split].
    + f_equal. destruct (TasksService.isOverdue now t); cbn [List.length]; lia.
    + rewrite Hbs. f_equal. lia.
    + rewrite Hbp. f_equal. lia.
Qed.

Section TaskStatistics.

Context {libraries : Libraries}.

(** X21.  The statistics add up.  When no task carries a status or a
    priority that is the name of a member of [Object.prototype], [getStats]
    answers with numbers only: the counters by status sum to the total, so
    do the counters by priority, the overdue tasks are among the counted
    ones, and the total is the total [findAll] reports to the same
    principal for a query without filters. *)
Theorem X21_task_statistics_add_up (user : IUser.t) (w : World) :
  (forall t, In t (tasks w) ->
     TasksService.inherited (Task.status t) = None
     /\ TasksService.inherited (Task.priority t) = None) ->
  exists stats,
    TasksService.getStats user w = (Ok stats, w)
    /\ sumCounts (TaskStats.byStatus stats) = Some (TaskStats.total stats)
    /\ sumCounts (TaskStats.byPriority stats) = Some (TaskStats.total stats)
    /\ TaskStats.overdue stats <= TaskStats.total stats
    /\ exists data,
         TasksService.findAll TaskQueryDto.empty user w
         = (Ok (data, TaskStats.total stats), w).
Proof.
  intros Hplain. unfold TasksService.getStats. unfold bind at 1.
  rewrite taskScope_run. unfold bind, gets.
  set (visible := filter (TasksService.visibleTo user (taskScope user w))
                    (tasks w)).
  destruct (getStats_loop_sums (clock w) visible
              (fun t H => Hplain t (proj1 (proj1 (filter_In _ _ _) H)))
              [("TODO"%string, TaskStats.Number 0);
               ("IN_PROGRESS"%string, TaskStats.Number 0);
               ("DONE"%string, TaskStats.Number 0)]
              [("LOW"%string, TaskStats.Number 0);
               ("MEDIUM"%string, TaskStats.Number 0);
               ("HIGH"%string, TaskStats.Number 0);
               ("URGENT"%string, TaskStats.Number 0)]
              0 0 0 eq_refl eq_refl)
    as [bs [bp [Hrun [Hbs Hbp]]]].
  rewrite Hrun. eexists. split; [reflexivity|].
  cbn [TaskStats.byStatus TaskStats.byPriority TaskStats.total TaskStats.overdue
       Nat.add] in *.
  split; [exact Hbs|]. split; [exact Hbp|]. split.
  - apply filter_length_le.
  - rewrite Tasks_findAll_run. eexists. f_equal. f_equal. f_equal.
    unfold TasksService.findAll_rows. rewrite orderByAsc_length.
    unfold visible. f_equal. apply filter_ext. intros t.
    unfold TasksService.matchesQuery. cbn. now rewrite andb_true_r.
Qed.

End TaskStatistics.

Lemma X21_witness :
  exists stats,
    TasksService.getStats Sample.admin_eng Sample.world = (Ok stats, Sample.world)
    /\ sumCounts (TaskStats.byStatus stats) = Some (TaskStats.total stats).
Proof.
  assert (Hplain : forall t, In t (tasks Sample.world) ->
            TasksService.inherited (Task.status t) = None
            /\ TasksService.inherited (Task.priority t) = None).
  { intros t [<-|[<-|[<-|[]]]]; split; reflexivity. }
  destruct (@X21_task_statistics_add_up Sample.libraries Sample.admin_eng
              Sample.world Hplain) as [stats [Hrun [Hsum _]]].
  exists stats. split; [exact Hrun | exact Hsum].
Defined.

(** ** Which call writes which table *)

Lemma keeps_ret {T A} (column : World -> T) (a : A) : keeps column (ret a).
Proof. intros w. reflexivity. Qed.

Lemma keeps_throw {T A} (column : World -> T) (e : Exception) :
  keeps column (@throw A e).
Proof. intros w. reflexivity. Qed.

Lemma keeps_gets {T A} (column : World -> T) (f : World -> A) :
  keeps column (gets f).
Proof. intros w. reflexivity. Qed.

Lemma keeps_modify {T} (column : World -> T) (f : World -> World) :
  (forall w, column (f w) = column w) -> keeps column (modify f).
Proof. intros H w. apply H. Qed.

Lemma keeps_bind {T A B} (column : World -> T) (c : M A) (k : A -> M B) :
  keeps column c -> (forall a, keeps column (k a)) -> keeps column (bind c k).
Proof.
  intros Hc Hk w. unfold bind. specialize (Hc w).
  destruct (c w) as [[a|e] w1]; cbn [snd] in *.
  - now rewrite Hk.
  - exact Hc.
Qed.

Lemma keeps_log_users (entry : LogEntry.t) : keeps users (AuditService.log entry).
Proof. intros w. now destruct (log_frame entry w) as [H _]. Qed.

Lemma keeps_log_tasks (entry : LogEntry.t) : keeps tasks (AuditService.log entry).
Proof. intros w. now destruct (log_frame entry w) as [_ [H _]]. Qed.

Lemma keeps_log_organizations (entry : LogEntry.t) :
  keeps organizations (AuditService.log entry).
Proof. intros w. now destruct (log_frame entry w) as [_ [_ [H _]]]. Qed.

Lemma keeps_reorder_loop {T} (column : World -> T) (taskIds : list string) :
  (forall l w, column (set_tasks l w) = column w) ->
  forall i, keeps column (TasksService.reorder_loop i taskIds).
Proof.
  intros Hcol. induction taskIds as [|x rest IH]; intros i; simpl.
  - apply keeps_ret.
  - apply keeps_bind; [|intros; apply IH].
    unfold TasksService.taskRepository_update.
    destruct (negb (Js.truthy x)); [apply keeps_throw|].
    apply keeps_modify. intros w. apply Hcol.
Qed.

Ltac frame :=
  repeat first
    [ apply keeps_ret
    | apply keeps_throw
    | apply keeps_gets
    | apply keeps_log_users
    | apply keeps_log_tasks
    | apply keeps_log_organizations
    | apply keeps_reorder_loop; intros; reflexivity
    | apply keeps_modify; intros; reflexivity
    | apply keeps_bind; [|intros]
    | match goal with
      | |- keeps _ (match ?x with _ => _ end) => destruct x
      | |- keeps _ (let _ := _ in _) => cbv zeta
      end ].

Create HintDb services.

#[local] Hint Unfold
  freshId
  OrganizationRepository.find OrganizationRepository.find_where_parentId
  OrganizationRepository.findOne_where_organizationId
  UserRepository.findOne_where_userId UserRepository.findOne_where_email
  UserRepository.insert UserRepository.save
  TasksService.create TasksService.taskRepository_insert TasksService.findAll
  TasksService.findOne TasksService.checkTaskAccess
  TasksService.getAccessibleOrganizationIds TasksService.update
  TasksService.taskRepository_save TasksService.remove
  TasksService.taskRepository_remove TasksService.reorder TasksService.getStats
  UsersService.findAll UsersService.findOne UsersService.create
  UsersService.update UsersService.remove UsersService.checkUserAccess
  UsersService.getAccessibleOrganizationIds
  OrganizationsService.findAll OrganizationsService.findOne
  OrganizationsService.create OrganizationsService.update
  OrganizationsService.remove OrganizationsService.getHierarchy
  OrganizationsService.getAccessibleOrganizationIds
  OrganizationsService.organizationRepository_insert
  OrganizationsService.organizationRepository_save
  AuthService.login AuthService.register AuthService.validateUser
  AuthService.getProfile
  AuditService.findAll AuditService.findByResource AuditService.findByUser
  AuditService.getLoginHistory AuditService.getFailedLogins : services.

Ltac frame_call :=
  match goal with
  | |- ?column (snd (?m ?w)) = ?column ?w =>
      revert w; change (keeps column m); autounfold with services; frame
  end.

Section Writers.

Context {libraries : Libraries}.

Lemma organizations_frame (c : ServiceCall) (w : World) :
  writesOrganizations c = false ->
  organizations (afterService c w) = organizations w.
Proof.
  destruct c as [| | | | | | |call| | | | | | | | | | | | | | |];
    cbn [afterService writesOrganizations]; intros Hw;
    try (destruct call; cbn [afterCall]);
    try (frame_call; fail).
  - unfold OrganizationsService.create. rewrite Hw. reflexivity.
  - unfold OrganizationsService.update. rewrite Hw. reflexivity.
  - unfold OrganizationsService.remove. rewrite Hw. reflexivity.
Qed.

Lemma tasks_frame (c : ServiceCall) (w : World) :
  writesTasks c = false -> tasks (afterService c w) = tasks w.
Proof.
  destruct c as [| | | | | | |call| | | | | | | | | | | | | | |];
    cbn [afterService writesTasks]; intros Hw; try discriminate;
    try (destruct call; cbn [afterCall]);
    frame_call.
Qed.

Lemma users_frame (c : ServiceCall) (w : World) :
  writesUsers c = false -> users (afterService c w) = users w.
Proof.
  destruct c as [| | | | | | |call| | | | | | | | | | | | | | |];
    cbn [afterService writesUsers]; intros Hw;
    try (destruct call; cbn [afterCall]); try discriminate;
    frame_call.
Qed.

(** X22.  Each table has its writers.  The organizations table is
    changed only by [create], [update] and [remove] of
    [OrganizationsService] called by an OWNER; the tasks table only by
    [create], [update], [remove] and [reorder] of [TasksService]; the users
    table only by [create], [update] and [remove] of [UsersService] and by
    [AuthService.register].  Every other call of the five services, every
    query and [login] among them, leaves the table as it was, whether the
    call returns or throws. *)
Theorem X22_each_table_has_its_writers (c : ServiceCall) (w : World) :
  (writesOrganizations c = false ->
   organizations (afterService c w) = organizations w)
  /\ (writesTasks c = false -> tasks (afterService c w) = tasks w)
  /\ (writesUsers c = false -> users (afterService c w) = users w).
Proof.
  split; [|split].
  - apply organizations_frame.
  - apply tasks_frame.
  - apply users_frame.
Qed.

End Writers.

Lemma X22_witness :
  organizations
    (@afterService Sample.libraries
       (Organizations_remove "org-sales" Sample.admin_acme) Sample.world)
  = organizations Sample.world.
Proof.
  destruct (@X22_each_table_has_its_writers Sample.libraries
              (Organizations_remove "org-sales" Sample.admin_acme) Sample.world)
    as [Horg _].
  apply Horg. reflexivity.
Defined.

(** ** Organizations: the hierarchy stays two levels deep *)

Lemma NoDup_snoc {A} (l : list A) (x : A) :
  NoDup l -> ~ In x l -> NoDup (l ++ [x]).
Proof.
  induction l as [|y l IH]; intros Hnd Hx; simpl.
  - repeat constructor. intros [].
  - inversion Hnd as [|? ? Hy Hl]; subst. constructor.
    + intros C. apply in_app_or in C as [C|[C|[]]]; [contradiction|].
      apply Hx. now left.
    + apply IH; [exact Hl|]. intros C. apply Hx. now right.
Qed.

Lemma NoDup_map_filter {Row Key} (key : Row -> Key) (keep : Row -> bool)
  (rows : list Row) :
  NoDup (map key rows) -> NoDup (map key (filter keep rows)).
Proof.
  induction rows as [|row rows IH]; simpl; intros Hnd; [constructor|].
  inversion Hnd as [|? ? Hrow Hrows]; subst.
  destruct (keep row); simpl; [|now apply IH].
  constructor; [|now apply IH].
  intros C. apply Hrow. apply in_map_iff in C as [other [Hkey Hin]].
  apply filter_In in Hin as [Hin _]. apply in_map_iff. now exists other.
Qed.

Lemma hierarchy_same (w w' : World) :
  organizations w' = organizations w -> hierarchy w -> hierarchy w'.
Proof.
  unfold hierarchy, organizationKey, twoLevels, parentsExist.
  now intros ->.
Qed.

(** A new row under a root, or with no parent. *)
Lemma hierarchy_insert (w w' : World) (n : Organization.t) :
  organizations w' = organizations w ++ [n] ->
  ~ In (Organization.organizationId n)
      (map Organization.organizationId (organizations w)) ->
  (Organization.parentId n = None
   \/ exists p parent,
        Organization.parentId n = Some p
        /\ List.find (OrganizationRepository.hasId p) (organizations w)
           = Some parent
        /\ Organization.parentId parent = None) ->
  hierarchy w -> hierarchy w'.
Proof.
  intros Hw' Hfresh Hparent [Hkey [Htwo Hfk]].
  unfold hierarchy, organizationKey, twoLevels, parentsExist. rewrite Hw'.
  split; [|split].
  - rewrite map_app. now apply NoDup_snoc.
  - intros o c Ho Hc Hhas.
    apply in_app_or in Ho as [Ho|[<-|[]]];
      apply in_app_or in Hc as [Hc|[<-|[]]].
    + now apply Htwo.
    + destruct Hparent as [Hnone|[p [parent [Hp [Hfind Hroot]]]]];
        [rewrite Hnone; discriminate|].
      rewrite Hp. intros C. injection C as ->.
      apply find_some in Hfind as [Hin Hid]. apply String.eqb_eq in Hid.
      apply Hhas.
      rewrite <- (key_injective w parent o Hkey Hin Ho Hid). exact Hroot.
    + intros C. apply Hfresh. now apply (Hfk c).
    + destruct Hparent as [Hnone|[p [parent [Hp [Hfind Hroot]]]]];
        [contradiction|].
      rewrite Hp. intros C. injection C as ->.
      apply find_some in Hfind as [Hin Hid]. apply String.eqb_eq in Hid.
      apply Hfresh. rewrite <- Hid. now apply in_map.
  - intros c p Hc Hp. rewrite map_app. apply in_or_app.
    apply in_app_or in Hc as [Hc|[<-|[]]].
    + left. now apply (Hfk c).
    + left. destruct Hparent as [Hnone|[q [parent [Hq [Hfind _]]]]];
        [congruence|].
      rewrite Hq in Hp. injection Hp as ->.
      apply find_some in Hfind as [Hin Hid]. apply String.eqb_eq in Hid.
      rewrite <- Hid. now apply in_map.
Qed.

(** A row rewritten with the key and the parent it had. *)
Lemma hierarchy_rewrite (w w' : World) (org saved : Organization.t) :
  organizations w'
  = map (OrganizationsService.replaceRow (Organization.organizationId org) saved)
      (organizations w) ->
  In org (organizations w) ->
  Organization.organizationId saved = Organization.organizationId org ->
  Organization.parentId saved = Organization.parentId org ->
  hierarchy w -> hierarchy w'.
Proof.
  intros Hw' Hin Hid Hpar [Hkey [Htwo Hfk]].
  assert (Hrow : forall o', In o' (organizations w') ->
            exists o, In o (organizations w)
                      /\ Organization.organizationId o'
                         = Organization.organizationId o
                      /\ Organization.parentId o' = Organization.parentId o).
  { intros o' Ho'. rewrite Hw' in Ho'. apply in_map_iff in Ho' as [o [<- Ho]].
    unfold OrganizationsService.replaceRow, OrganizationRepository.hasId.
    destruct (String.eqb_spec (Organization.organizationId o)
                (Organization.organizationId org)) as [E|E].
    - exists org. auto.
    - exists o. auto. }
  assert (Hids : map Organization.organizationId (organizations w')
                 = map Organization.organizationId (organizations w)).
  { rewrite Hw', map_map. apply map_ext_in. intros o Ho.
    unfold OrganizationsService.replaceRow, OrganizationRepository.hasId.
    destruct (String.eqb_spec (Organization.organizationId o)
                (Organization.organizationId org)) as [E|E];
      [congruence | reflexivity]. }
  unfold hierarchy, organizationKey, twoLevels, parentsExist.
  rewrite Hids. split; [exact Hkey|]. split.
  - intros o c Ho Hc.
    destruct (Hrow o Ho) as [o0 [Ho0 [Eo Po]]].
    destruct (Hrow c Hc) as [c0 [Hc0 [Ec Pc]]].
    rewrite Po, Pc, Eo. now apply Htwo.
  - intros c p Hc Hp. destruct (Hrow c Hc) as [c0 [Hc0 [_ Pc]]].
    apply (Hfk c0 p Hc0). congruence.
Qed.

(** A row without children taken out. *)
Lemma hierarchy_delete (w w' : World) (org : Organization.t) :
  organizations w'
  = filter (fun o => negb (OrganizationRepository.hasId
                             (Organization.organizationId org) o))
      (organizations w) ->
  OrganizationsService.childrenOf org w = [] ->
  hierarchy w -> hierarchy w'.
Proof.
  intros Hw' Hnone [Hkey [Htwo Hfk]].
  unfold hierarchy, organizationKey, twoLevels, parentsExist. rewrite Hw'.
  split; [|split].
  - now apply NoDup_map_filter.
  - intros o c Ho Hc. apply filter_In in Ho as [Ho _].
    apply filter_In in Hc as [Hc _]. now apply Htwo.
  - intros c p Hc Hp. apply filter_In in Hc as [Hc _].
    pose proof (Hfk c p Hc Hp) as Hin.
    apply in_map_iff in Hin as [o [Hid Ho]].
    apply in_map_iff. exists o. split; [exact Hid|].
    apply filter_In. split; [exact Ho|].
    unfold OrganizationRepository.hasId. rewrite Hid.
    destruct (String.eqb_spec p (Organization.organizationId org)) as [E|E];
      [|reflexivity].
    exfalso. assert (Hchild : In c (OrganizationsService.childrenOf org w)).
    { unfold OrganizationsService.childrenOf. apply filter_In.
      split; [exact Hc|]. unfold OrganizationRepository.hasParent.
      apply opt_eqb_eq. now rewrite Hp, E. }
    rewrite Hnone in Hchild. exact Hchild.
Qed.

Lemma Organizations_create_run (data : CreateOrgDto.t) (currentUser : IUser.t)
  (w : World) :
  let w' := snd (OrganizationsService.create data currentUser w) in
  let saved := createdOrganization data w in
  organizations w' = organizations w
  \/ (IUser.role currentUser = OWNER
      /\ organizations w' = organizations w ++ [saved]
      /\ (Organization.parentId saved = None
          \/ exists p parent,
               Organization.parentId saved = Some p
               /\ List.find (OrganizationRepository.hasId p) (organizations w)
                  = Some parent
               /\ Organization.parentId parent = None)).
Proof.
  intros w' saved. subst w'.
  unfold OrganizationsService.create.
  destruct (Role_eqb (IUser.role currentUser) OWNER) eqn:Hrole;
    cbn [negb]; [|now left].
  apply Role_eqb_eq in Hrole.
  assert (Htail : forall check : M unit,
    (check w = (Ok tt, w)) ->
    forall k : Organization.t -> M IOrganization.t,
      (forall o w0, organizations (snd (k o w0)) = organizations w0) ->
      organizations
        (snd (bind check
                (fun _ =>
                   bind (OrganizationsService.organizationRepository_insert
                           (CreateOrgDto.name data)
                           (CreateOrgDto.description data)
                           (Js.orNull (CreateOrgDto.parentId data))) k) w))
      = organizations w ++ [saved]).
  { intros check Hcheck k Hk. unfold bind at 1. rewrite Hcheck.
    unfold OrganizationsService.organizationRepository_insert, freshId.
    unfold bind, gets, modify, ret. cbn [fst snd]. rewrite Hk. reflexivity. }
  match goal with
  | |- context [bind ?c (fun _ =>
                  bind (OrganizationsService.organizationRepository_insert _ _ _) _)] =>
      set (check := c)
  end.
  assert (Hcheck :
    (exists e, check w = (Throw e, w))
    \/ (check w = (Ok tt, w)
        /\ (Organization.parentId saved = None
            \/ exists p parent,
                 Organization.parentId saved = Some p
                 /\ List.find (OrganizationRepository.hasId p) (organizations w)
                    = Some parent
                 /\ Organization.parentId parent = None))).
  { subst check. unfold saved, createdOrganization.
    cbn [Organization.parentId].
    destruct (CreateOrgDto.parentId data) as [p|]; cbn [Js.orNull];
      [|right; split; [reflexivity | now left]].
    destruct (Js.truthy p);
      [|right; split; [reflexivity | now left]].
    unfold bind, OrganizationRepository.findOne_where_organizationId, gets.
    destruct (List.find (OrganizationRepository.hasId p) (organizations w))
      as [parent|] eqn:Hfind; [|left; eexists; reflexivity].
    destruct (Organization.parentId parent) as [gp|] eqn:Hgp;
      [left; eexists; reflexivity|].
    right. split; [reflexivity|]. right. exists p, parent. auto. }
  destruct Hcheck as [[e Hthrow]|[Hok Hparent]].
  - left. unfold bind at 1. now rewrite Hthrow.
  - right. split; [exact Hrole|]. split; [|exact Hparent].
    apply Htail; [exact Hok|]. intros o w0. unfold bind.
    match goal with |- context [AuditService.log ?e w0] =>
      destruct (log_frame e w0) as [_ [_ [Ho _]]];
      destruct (AuditService.log e w0) as [[a|ex] w1] end; exact Ho.
Qed.

Lemma Organizations_update_run (organizationId : string) (data : UpdateOrgDto.t)
  (currentUser : IUser.t) (w : World) :
  let w' := snd (OrganizationsService.update organizationId data currentUser w) in
  organizations w' = organizations w
  \/ (IUser.role currentUser = OWNER
      /\ exists org saved,
           List.find (OrganizationRepository.hasId organizationId)
             (organizations w) = Some org
           /\ organizations w'
              = map (OrganizationsService.replaceRow
                       (Organization.organizationId org) saved)
                  (organizations w)
           /\ Organization.organizationId saved = Organization.organizationId org
           /\ Organization.parentId saved = Organization.parentId org).
Proof.
  intros w'. subst w'. unfold OrganizationsService.update.
  destruct (Role_eqb (IUser.role currentUser) OWNER) eqn:Hrole;
    cbn [negb]; [|now left].
  apply Role_eqb_eq in Hrole.
  destruct (List.find (OrganizationRepository.hasId organizationId)
              (organizations w)) as [org|] eqn:Hfind.
  2:{ left. unfold bind at 1.
      unfold OrganizationRepository.findOne_where_organizationId, gets at 1.
      now rewrite Hfind. }
  right. split; [exact Hrole|]. exists org. eexists.
  split; [reflexivity|].
  unfold bind at 1.
  unfold OrganizationRepository.findOne_where_organizationId, gets at 1.
  rewrite Hfind.
  unfold bind at 1. unfold gets at 1. cbv zeta.
  unfold OrganizationsService.organizationRepository_save.
  unfold bind, gets, modify, ret. cbn [fst snd].
  match goal with |- context [AuditService.log ?e ?w0] =>
    destruct (log_frame e w0) as [_ [_ [Ho _]]];
    destruct (AuditService.log e w0) as [[a|ex] w1] end;
    cbn [fst snd] in *; rewrite Ho;
    (split; [reflexivity | split; reflexivity]).
Qed.

Lemma existsb_filter_nil {Row} (keep : Row -> bool) (rows : list Row) :
  filter keep rows = [] -> existsb keep rows = false.
Proof.
  induction rows as [|x rows IH]; cbn [filter existsb]; [reflexivity|].
  destruct (keep x); [discriminate | exact IH].
Qed.

Lemma Organizations_remove_run (organizationId : string) (currentUser : IUser.t)
  (w : World) (org : Organization.t) :
  IUser.role currentUser = OWNER ->
  List.find (OrganizationRepository.hasId organizationId) (organizations w)
  = Some org ->
  exists entry,
    OrganizationsService.remove organizationId currentUser w
    = (match OrganizationsService.childrenOf org w with
       | _ :: _ =>
           (Throw (BadRequestException
                     "Cannot delete organization with child organizations"), w)
       | [] =>
           if Nat.ltb 0 (OrganizationsService.userCount organizationId w) then
             (Throw (BadRequestException
                       "Cannot delete organization with users"), w)
           else if existsb
                     (fun t => String.eqb (Task.organizationId t) organizationId)
                     (tasks w) then
             (Throw (QueryFailedError "FOREIGN KEY constraint failed"), w)
           else
             bind (AuditService.log entry) (fun _ => ret tt)
               (OrganizationsService.set_organizations
                  (filter (fun o =>
                             negb (OrganizationRepository.hasId
                                     (Organization.organizationId org) o))
                     (organizations w)) w)
       end)
    /\ LogEntry.action entry = "ORGANIZATION_DELETED"%string.
Proof.
  intros Hrole Hfind.
  exists (LogEntry.mk "ORGANIZATION_DELETED" "organization"
            (Some organizationId)
            (Some (IUser.id currentUser))
            (Some (IUser.email currentUser))
            (Some (IUser.organizationId currentUser))
            (Some (Js.stringify
                     (Js.JObject
                        (Js.JField "name"
                           (Js.JString (Organization.name org))
                         Js.JEnd))))
            None None
            (Some true)
            None).
  split; [|reflexivity].
  unfold OrganizationsService.remove.
  rewrite Hrole.
  replace (negb (Role_eqb OWNER OWNER)) with false by reflexivity.
  unfold bind at 1.
  unfold OrganizationRepository.findOne_where_organizationId, gets at 1.
  assert (Hid : Organization.organizationId org = organizationId).
  { apply find_some in Hfind as [_ H]. now apply String.eqb_eq in H. }
  rewrite Hfind. unfold bind at 1. unfold gets at 1.
  destruct (OrganizationsService.childrenOf org w) as [|c l] eqn:Hchildren;
    [|reflexivity].
  change (Nat.ltb 0 (List.length (@nil Organization.t))) with false.
  cbv iota. unfold bind at 1. unfold gets at 1.
  destruct (Nat.ltb 0 (OrganizationsService.userCount organizationId w))
    eqn:Hcount; [reflexivity|].
  unfold bind at 1. unfold OrganizationsService.organizationRepository_remove.
  unfold bind at 1. unfold gets at 1.
  unfold OrganizationsService.referenced. rewrite Hid.
  rewrite (existsb_filter_nil
             (fun u => String.eqb (User.organizationId u) organizationId)
             (users w)).
  2:{ unfold OrganizationsService.userCount in Hcount.
      destruct (filter _ (users w)); [reflexivity | discriminate]. }
  rewrite (existsb_filter_nil
             (OrganizationRepository.hasParent organizationId) (organizations w))
    by (unfold OrganizationsService.childrenOf in Hchildren;
        now rewrite Hid in Hchildren).
  rewrite orb_false_r. cbn [orb].
  destruct (existsb _ (tasks w)); reflexivity.
Qed.

Section OrganizationHierarchy.

Context {libraries : Libraries}.

(** X23.  The hierarchy stays a forest of depth two.  Let the
    organizations have unique keys, no organization with a parent have a
    child, and every parent be a row of the table.  Then this still holds
    after any call of the five services, as long as the key the store
    hands out next is not the key of an organization: [create] accepts a
    parent only if it is a root of the table, [update] does not touch
    [parentId], and [remove] deletes only an organization without
    children. *)
Theorem X23_hierarchy_is_preserved (c : ServiceCall) (w : World) :
  ~ In (uuid (nextId w)) (map Organization.organizationId (organizations w)) ->
  hierarchy w ->
  hierarchy (afterService c w).
Proof.
  intros Hfresh Hinv.
  destruct (writesOrganizations c) eqn:Hwrites.
  2:{ apply (hierarchy_same w); [|exact Hinv].
      now apply organizations_frame. }
  destruct c; try discriminate; cbn [afterService writesOrganizations] in *.
  - destruct (Organizations_create_run data currentUser w)
      as [Hsame|[_ [Happ Hparent]]].
    + now apply (hierarchy_same w).
    + now apply (hierarchy_insert w _ (createdOrganization data w)).
  - destruct (Organizations_update_run organizationId data currentUser w)
      as [Hsame|[_ [org [saved [Hfind [Hmap [Hid Hpar]]]]]]].
    + now apply (hierarchy_same w).
    + apply (hierarchy_rewrite w _ org saved); try assumption.
      apply find_some in Hfind. tauto.
  - apply Role_eqb_eq in Hwrites.
    destruct (List.find (OrganizationRepository.hasId organizationId)
                (organizations w)) as [org|] eqn:Hfind.
    + destruct (Organizations_remove_run organizationId currentUser w org
                  Hwrites Hfind) as [entry [Hrun _]].
      rewrite Hrun.
      destruct (OrganizationsService.childrenOf org w) as [|x l] eqn:Hchildren;
        [|exact Hinv].
      destruct (Nat.ltb 0 (OrganizationsService.userCount organizationId w));
        [exact Hinv|].
      destruct (existsb _ (tasks w)); [exact Hinv|].
      apply (hierarchy_delete w _ org); [|exact Hchildren|exact Hinv].
      destruct (log_then_ret tt entry
                  (OrganizationsService.set_organizations
                     (filter (fun o =>
                                negb (OrganizationRepository.hasId
                                        (Organization.organizationId org) o))
                        (organizations w)) w)) as [Hsnd _].
      rewrite Hsnd.
      now destruct (log_frame entry
                      (OrganizationsService.set_organizations
                         (filter (fun o =>
                                    negb (OrganizationRepository.hasId
                                            (Organization.organizationId org) o))
                            (organizations w)) w)) as [_ [_ [Ho _]]].
    + apply (hierarchy_same w); [|exact Hinv].
      unfold OrganizationsService.remove. rewrite Hwrites.
      unfold bind, OrganizationRepository.findOne_where_organizationId, gets.
      cbn. now rewrite Hfind.
Qed.

End OrganizationHierarchy.

Lemma Sample_hierarchy : hierarchy Sample.world.
Proof.
  split; [exact Sample_organizationKey|]. split; [exact Sample_twoLevels|].
  intros c p Hc. simpl in Hc.
  destruct Hc as [<-|[<-|[<-|[]]]]; simpl; intros Hp;
    try discriminate; injection Hp as <-; tauto.
Qed.

Lemma X23_witness :
  hierarchy
    (@afterService Sample.libraries
       (Organizations_create
          (CreateOrgDto.mk "Support" None (Some "org-acme"%string))
          Sample.owner_eng)
       Sample.world).
Proof.
  apply (@X23_hierarchy_is_preserved Sample.libraries).
  - vm_compute. intuition discriminate.
  - exact Sample_hierarchy.
Defined.

(** X24.  An organization in use is not deleted.  Let an OWNER call
    [remove] on an organization of the table.  If some organization has
    it as parent, [remove] throws [BadRequestException] "Cannot delete
    organization with child organizations"; if none has but some user
    belongs to it, [BadRequestException] "Cannot delete organization with
    users"; if neither but some task belongs to it, the store refuses the
    delete and [remove] throws its [QueryFailedError].  In all three cases
    the database is unchanged, audit trail included.  Only when no
    organization, user or task refers to it is the row deleted: its key
    is no longer in the table, the other organizations, the users and the
    tasks are untouched, and [remove] returns when the audit table
    accepts the entry. *)
Theorem X24_organization_in_use_is_not_removed
  (organizationId : string) (currentUser : IUser.t) (w : World)
  (org : Organization.t) :
  IUser.role currentUser = OWNER ->
  List.find (OrganizationRepository.hasId organizationId) (organizations w)
  = Some org ->
  let r := OrganizationsService.remove organizationId currentUser w in
  let hasChild :=
    exists c, In c (organizations w)
              /\ Organization.parentId c = Some organizationId in
  let hasUser :=
    exists u, In u (users w) /\ User.organizationId u = organizationId in
  let hasTask :=
    exists t, In t (tasks w) /\ Task.organizationId t = organizationId in
  (hasChild ->
   r = (Throw (BadRequestException
                 "Cannot delete organization with child organizations"), w))
  /\ (~ hasChild -> hasUser ->
      r = (Throw (BadRequestException "Cannot delete organization with users"),
           w))
  /\ (~ hasChild -> ~ hasUser -> hasTask ->
      r = (Throw (QueryFailedError "FOREIGN KEY constraint failed"), w))
  /\ (~ hasChild -> ~ hasUser -> ~ hasTask ->
      organizations (snd r)
      = filter (fun o => negb (String.eqb (Organization.organizationId o)
                                 organizationId))
          (organizations w)
      /\ ~ In organizationId
           (map Organization.organizationId (organizations (snd r)))
      /\ users (snd r) = users w
      /\ tasks (snd r) = tasks w
      /\ (auditStoreAvailable w = true -> fst r = Ok tt)).
Proof.
  intros Hrole Hfind r hasChild hasUser hasTask.
  assert (Hid : Organization.organizationId org = organizationId).
  { apply find_some in Hfind as [_ H]. now apply String.eqb_eq in H. }
  assert (Hchild : match OrganizationsService.childrenOf org w with
                   | [] => ~ hasChild
                   | _ :: _ => hasChild
                   end).
  { unfold OrganizationsService.childrenOf, hasChild.
    destruct (filter _ (organizations w)) as [|x l] eqn:E.
    - intros [c [Hc Hp]].
      assert (Hin : In c (filter (OrganizationRepository.hasParent
                                    (Organization.organizationId org))
                            (organizations w))).
      { apply filter_In. split; [exact Hc|].
        unfold OrganizationRepository.hasParent. apply opt_eqb_eq.
        now rewrite Hid. }
      rewrite E in Hin. destruct Hin.
    - assert (Hin : In x (x :: l)) by now left.
      rewrite <- E in Hin. apply filter_In in Hin as [Hx Hp].
      unfold OrganizationRepository.hasParent in Hp.
      apply opt_eqb_eq in Hp. rewrite Hid in Hp. now exists x. }
  assert (Huser : if Nat.ltb 0 (OrganizationsService.userCount organizationId w)
                  then hasUser else ~ hasUser).
  { unfold OrganizationsService.userCount, hasUser.
    destruct (filter _ (users w)) as [|x l] eqn:E; cbn.
    - intros [u [Hu Horg]].
      assert (Hin : In u (filter (fun u => String.eqb (User.organizationId u)
                                             organizationId) (users w))).
      { apply filter_In. split; [exact Hu|]. rewrite Horg.
        apply String.eqb_refl. }
      rewrite E in Hin. destruct Hin.
    - assert (Hin : In x (x :: l)) by now left.
      rewrite <- E in Hin. apply filter_In in Hin as [Hx Horg].
      apply String.eqb_eq in Horg. now exists x. }
  assert (Htask : if existsb (fun t => String.eqb (Task.organizationId t)
                                         organizationId) (tasks w)
                  then hasTask else ~ hasTask).
  { unfold hasTask. destruct (existsb _ (tasks w)) eqn:E.
    - apply existsb_exists in E as [t [Ht Horg]].
      apply String.eqb_eq in Horg. now exists t.
    - intros [t [Ht Horg]].
      assert (C : existsb (fun t => String.eqb (Task.organizationId t)
                                      organizationId) (tasks w) = true).
      { apply existsb_exists. exists t. split; [exact Ht|].
        rewrite Horg. apply String.eqb_refl. }
      rewrite E in C. discriminate. }
  destruct (Organizations_remove_run organizationId currentUser w org Hrole Hfind)
    as [entry [Hrun _]].
  fold r in Hrun.
  destruct (OrganizationsService.childrenOf org w) as [|x l].
  2:{ split; [intros _; exact Hrun|]. split; [|split]; intros C; now destruct C. }
  split; [intros C; now destruct Hchild|].
  destruct (Nat.ltb 0 (OrganizationsService.userCount organizationId w)).
  { split; [intros _ _; exact Hrun|].
    split; intros _ C; now destruct C. }
  split; [intros _ C; now destruct Huser|].
  destruct (existsb _ (tasks w)).
  { split; [intros _ _ _; exact Hrun|]. intros _ _ C. now destruct C. }
  split; [intros _ _ C; now destruct Htask|].
  intros _ _ _. rewrite Hrun, Hid.
  set (w1 := OrganizationsService.set_organizations _ w).
  destruct (log_then_ret tt entry w1) as [Hsnd Hfst].
  destruct (log_frame entry w1) as [Hu [Ht [Ho _]]].
  rewrite Hsnd, Hfst, Hu, Ht, Ho. unfold w1.
  cbn [organizations users tasks auditStoreAvailable
       OrganizationsService.set_organizations].
  split; [reflexivity|]. split; [|split; [reflexivity|split; [reflexivity|]]].
  + intros C. apply in_map_iff in C as [o [Ho' Hin]].
    apply filter_In in Hin as [_ Hno].
    unfold OrganizationRepository.hasId in Hno. rewrite Ho' in Hno.
    now rewrite String.eqb_refl in Hno.
  + now intros ->.
Qed.

Lemma X24_witness :
  OrganizationsService.remove "org-sales" Sample.owner_eng Sample.world
  = (Throw (QueryFailedError "FOREIGN KEY constraint failed"), Sample.world).
Proof.
  destruct (X24_organization_in_use_is_not_removed "org-sales" Sample.owner_eng
              Sample.world Sample.sales eq_refl eq_refl)
    as [_ [_ [Htask _]]].
  apply Htask.
  - intros [c [[<-|[<-|[<-|[]]]] Hp]]; discriminate.
  - intros [u [[<-|[<-|[]]] Ho]]; discriminate.
  - exists Sample.task_viewer. split; [simpl; tauto | reflexivity].
Defined.

(** ** Organizations: what is listed can be opened *)

Lemma organizationScope_run (user : IUser.t) (w : World) :
  OrganizationsService.getAccessibleOrganizationIds user w
  = (Ok (organizationScope user w), w).
Proof.
  unfold organizationScope, OrganizationsService.getAccessibleOrganizationIds,
    OrganizationRepository.findOne_where_organizationId,
    OrganizationRepository.find_where_parentId, bind, gets, ret.
  destruct (List.find _ (organizations w)) as [userOrg|]; [|reflexivity].
  destruct (Organization.parentId userOrg) as [p|]; [|reflexivity].
  destruct (Js.truthy p); reflexivity.
Qed.

Lemma find_organization_by_key (w : World) (org : Organization.t) :
  organizationKey w -> In org (organizations w) ->
  List.find (OrganizationRepository.hasId (Organization.organizationId org))
    (organizations w) = Some org.
Proof.
  intros Hkey Hin.
  destruct (List.find _ (organizations w)) as [o|] eqn:E.
  - apply find_some in E as [Hin' Hid]. apply String.eqb_eq in Hid.
    f_equal. now apply (key_injective w o org Hkey).
  - apply (find_none _ _ E) in Hin. unfold OrganizationRepository.hasId in Hin.
    now rewrite String.eqb_refl in Hin.
Qed.

Lemma Organizations_findOne_run (organizationId : string) (currentUser : IUser.t)
  (w : World) :
  OrganizationsService.findOne organizationId currentUser w
  = (match List.find (OrganizationRepository.hasId organizationId)
             (organizations w) with
     | None => Throw (NotFoundException "Organization not found")
     | Some organization =>
         if negb (Role_eqb (IUser.role currentUser) OWNER)
            && negb (Js.includes (organizationScope currentUser w) organizationId)
         then Throw (ForbiddenException
                       "You do not have access to this organization")
         else Ok organization
     end, w).
Proof.
  unfold OrganizationsService.findOne. unfold bind at 1.
  unfold OrganizationRepository.findOne_where_organizationId, gets.
  destruct (List.find _ (organizations w)) as [organization|]; [|reflexivity].
  destruct (Role_eqb (IUser.role currentUser) OWNER); cbn [negb andb];
    [reflexivity|].
  unfold bind. rewrite organizationScope_run.
  destruct (Js.includes _ _); reflexivity.
Qed.

(** X25.  What [findAll] and [getHierarchy] list, [findOne] opens.  On a
    table with unique keys both always answer, and every organization they
    list is a row of the table that [findOne] returns to the same
    principal under the listed id.  [getHierarchy] lists roots only, each
    at level 0 and without its [parent] relation; for a principal who is
    not OWNER both list only organizations that
    [getAccessibleOrganizationIds] resolves. *)
Theorem X25_listed_organizations_can_be_opened
  (currentUser : IUser.t) (w : World) :
  organizationKey w ->
  let opens (item : IOrganization.t) :=
    exists org,
      In org (organizations w)
      /\ IOrganization.id item = Organization.organizationId org
      /\ IOrganization.parentId item = Organization.parentId org
      /\ OrganizationsService.findOne (IOrganization.id item) currentUser w
         = (Ok org, w)
      /\ (IUser.role currentUser <> OWNER ->
          In (IOrganization.id item) (organizationScope currentUser w)) in
  (exists all,
      OrganizationsService.findAll currentUser w = (Ok all, w)
      /\ forall item, In item all -> opens item)
  /\ (exists roots,
         OrganizationsService.getHierarchy currentUser w = (Ok roots, w)
         /\ forall item, In item roots ->
              opens item
              /\ IOrganization.parentId item = None
              /\ IOrganization.level item = 0
              /\ IOrganization.parent item = None).
Proof.
  intros Hkey opens.
  assert (Hopen : forall org,
    In org (organizations w) ->
    (IUser.role currentUser <> OWNER ->
     Js.includes (organizationScope currentUser w)
       (Organization.organizationId org) = true) ->
    forall item,
      IOrganization.id item = Organization.organizationId org ->
      IOrganization.parentId item = Organization.parentId org ->
      opens item).
  { intros org Hin Hscope item Hid Hpar. exists org.
    split; [exact Hin|]. split; [exact Hid|]. split; [exact Hpar|]. split.
    - rewrite Hid, Organizations_findOne_run,
        (find_organization_by_key w org Hkey Hin).
      destruct (Role_eqb (IUser.role currentUser) OWNER) eqn:E; [reflexivity|].
      rewrite Hscope; [reflexivity|]. intros C. rewrite C in E. discriminate.
    - intros Hno. rewrite Hid. apply includes_In. now apply Hscope. }
  split.
  - unfold OrganizationsService.findAll.
    destruct (Role_eqb (IUser.role currentUser) OWNER) eqn:E.
    + eexists. split; [reflexivity|]. intros item Hitem.
      apply in_map_iff in Hitem as [org [<- Hin]].
      apply orderByAsc_In in Hin.
      apply (Hopen org Hin); [|reflexivity|reflexivity].
      intros C. apply Role_eqb_eq in E. contradiction.
    + unfold bind at 1. rewrite organizationScope_run.
      eexists. split; [reflexivity|]. intros item Hitem.
      apply in_map_iff in Hitem as [org [<- Hin]].
      apply filter_In in Hin as [Hin Hscope].
      apply (Hopen org Hin); [|reflexivity|reflexivity]. now intros _.
  - unfold OrganizationsService.getHierarchy. unfold bind at 1. unfold gets at 1.
    cbv zeta.
    destruct (Role_eqb (IUser.role currentUser) OWNER) eqn:E; cbn [negb].
    + eexists. split; [reflexivity|]. intros item Hitem.
      apply in_map_iff in Hitem as [org [<- Hin]].
      apply orderByAsc_In in Hin. apply filter_In in Hin as [Hin Hroot].
      unfold OrganizationsService.isRoot in Hroot.
      destruct (Organization.parentId org) eqn:Hp; [discriminate|].
      split; [|cbn; rewrite Hp; auto].
      apply (Hopen org Hin); [|reflexivity|reflexivity].
      intros C. apply Role_eqb_eq in E. contradiction.
    + unfold bind. rewrite organizationScope_run.
      eexists. split; [reflexivity|]. intros item Hitem.
      apply in_map_iff in Hitem as [org [<- Hin]].
      apply filter_In in Hin as [Hin Hscope].
      apply orderByAsc_In in Hin. apply filter_In in Hin as [Hin Hroot].
      unfold OrganizationsService.isRoot in Hroot.
      destruct (Organization.parentId org) eqn:Hp; [discriminate|].
      split; [|cbn; rewrite Hp; auto].
      apply (Hopen org Hin); [|reflexivity|reflexivity]. now intros _.
Qed.

Lemma X25_witness :
  exists roots,
    OrganizationsService.getHierarchy Sample.admin_eng Sample.world
    = (Ok roots, Sample.world)
    /\ forall item, In item roots -> IOrganization.level item = 0.
Proof.
  destruct (X25_listed_organizations_can_be_opened Sample.admin_eng
              Sample.world Sample_organizationKey) as [_ [roots [Hrun Hroots]]].
  exists roots. split; [exact Hrun|].
  intros item Hitem. destruct (Hroots item Hitem) as [_ [_ [Hlevel _]]].
  exact Hlevel.
Defined.

(** ** Users: what is listed can be read *)


Section UserQueries.

Context {libraries : Libraries}.


End UserQueries.


(** ** Tasks: changes can be read back, and who may make them *)

Lemma find_replaced (l : list Task.t) (taskId : string) (saved : Task.t) :
  Task.taskId saved = taskId ->
  (exists t, In t l /\ TasksService.hasId taskId t = true) ->
  List.find (TasksService.hasId taskId)
    (map (TasksService.replaceRow taskId saved) l) = Some saved.
Proof.
  intros Hsaved. induction l as [|x l IH]; intros [t [Hin Hhas]];
    [destruct Hin|].
  cbn [map List.find].
  destruct (TasksService.hasId taskId x) eqn:Hx.
  - assert (TasksService.replaceRow taskId saved x = saved) as ->
      by (unfold TasksService.replaceRow; now rewrite Hx).
    unfold TasksService.hasId. rewrite Hsaved.
    now rewrite String.eqb_refl.
  - assert (TasksService.replaceRow taskId saved x = x) as ->
      by (unfold TasksService.replaceRow; now rewrite Hx).
    rewrite Hx. apply IH. exists t. split; [|exact Hhas].
    destruct Hin as [->|Hin]; [congruence | exact Hin].
Qed.

Lemma date_eqb_eq (a b : option nat) :
  TasksService.date_eqb a b = true <-> a = b.
Proof.
  destruct a as [x|], b as [y|]; cbn; split; intros H;
    try discriminate; try reflexivity.
  - apply Nat.eqb_eq in H. now subst.
  - injection H as ->. apply Nat.eqb_refl.
Qed.

Lemma sameColumns_true (a b : Task.t) :
  TasksService.sameColumns a b = true
  <-> Task.title a = Task.title b
      /\ Task.description a = Task.description b
      /\ Task.status a = Task.status b
      /\ Task.priority a = Task.priority b
      /\ Task.category a = Task.category b
      /\ Task.position a = Task.position b
      /\ Task.dueDate a = Task.dueDate b.
Proof.
  unfold TasksService.sameColumns.
  rewrite !andb_true_iff, !String.eqb_eq, opt_eqb_eq, Z.eqb_eq, date_eqb_eq.
  tauto.
Qed.

Lemma sameColumns_false (a b : Task.t) :
  TasksService.sameColumns a b = false
  <-> Task.title a <> Task.title b
      \/ Task.description a <> Task.description b
      \/ Task.status a <> Task.status b
      \/ Task.priority a <> Task.priority b
      \/ Task.category a <> Task.category b
      \/ Task.position a <> Task.position b
      \/ Task.dueDate a <> Task.dueDate b.
Proof.
  split.
  - unfold TasksService.sameColumns. rewrite !andb_false_iff.
    rewrite !String.eqb_neq, Z.eqb_neq.
    rewrite <- (not_true_iff_false (Js.opt_eqb _ _)), opt_eqb_eq.
    rewrite <- (not_true_iff_false (TasksService.date_eqb _ _)), date_eqb_eq.
    tauto.
  - intros H. apply not_true_iff_false. rewrite sameColumns_true. tauto.
Qed.

Lemma update_world (taskId : string) (updateTaskDto : UpdateTaskDto.t)
  (user : IUser.t) (w : World) (task : Task.t) :
  List.find (TasksService.hasId taskId) (tasks w) = Some task ->
  fst (TasksService.checkTaskAccess task user update w) = Ok tt ->
  let w' := snd (TasksService.update taskId updateTaskDto user w) in
  let assigned := TasksService.assign task updateTaskDto in
  organizations w' = organizations w
  /\ tasks w'
     = if TasksService.sameColumns task assigned then tasks w
       else map (TasksService.replaceRow taskId
                   (TasksService.setUpdatedAt (clock w) assigned)) (tasks w).
Proof.
  intros Hfind Hacc w' assigned.
  assert (Hid : Task.taskId task = taskId).
  { apply find_some in Hfind as [_ H]. now apply String.eqb_eq in H. }
  pattern w'. match goal with |- ?P _ => set (Q := P) end.
  unfold w', TasksService.update. unfold bind at 1. unfold gets at 1.
  rewrite Hfind. unfold bind at 1.
  rewrite (checkTaskAccess_ok _ _ _ _ Hacc). cbv zeta.
  unfold bind at 1.
  rewrite (taskRepository_save_loaded (TasksService.assign task updateTaskDto)
             task w)
    by (cbn [TasksService.assign Task.taskId]; now rewrite Hid).
  fold assigned.
  destruct (TasksService.sameColumns task assigned); cbv beta iota;
    unfold bind, gets, ret;
    match goal with |- context [AuditService.log ?e ?w0] =>
      destruct (log_frame e w0) as [_ [Ht [Ho _]]];
      destruct (AuditService.log e w0) as [[a|ex] w1] end;
    unfold Q; cbn [fst snd] in *; rewrite Ht, Ho;
    cbn [tasks organizations set_tasks];
    unfold assigned; cbn [TasksService.assign Task.taskId]; rewrite ?Hid;
    split; reflexivity.
Qed.

(** X27.  An update can be read back.  When the key names a task the
    caller may update, [update] leaves in the table, under that key, the
    row with the fields of the request over the old ones: the title, the
    description, the status, the priority, the category, the position
    and the due date of the request where it gives one (a due date of
    [null] clears the column), the old value where it does not; the key,
    the owner, the organization and the creation date are the old ones.
    [updatedAt] is the time of the write when one of those columns got
    another value, and the old date when the request changed nothing, no
    row being written then.  [findOne] then returns exactly that row to
    the same caller. *)
Theorem X27_updated_task_can_be_read_back
  (taskId : string) (updateTaskDto : UpdateTaskDto.t) (user : IUser.t)
  (w : World) (task : Task.t) :
  List.find (TasksService.hasId taskId) (tasks w) = Some task ->
  fst (TasksService.checkTaskAccess task user update w) = Ok tt ->
  let w' := snd (TasksService.update taskId updateTaskDto user w) in
  let title :=
    match UpdateTaskDto.title updateTaskDto with
    | Some x => x | None => Task.title task end in
  let description :=
    match UpdateTaskDto.description updateTaskDto with
    | Some x => Some x | None => Task.description task end in
  let status :=
    match UpdateTaskDto.status updateTaskDto with
    | Some x => x | None => Task.status task end in
  let priority :=
    match UpdateTaskDto.priority updateTaskDto with
    | Some x => x | None => Task.priority task end in
  let category :=
    match UpdateTaskDto.category updateTaskDto with
    | Some x => x | None => Task.category task end in
  let position :=
    match UpdateTaskDto.position updateTaskDto with
    | Some x => x | None => Task.position task end in
  let dueDate :=
    match UpdateTaskDto.dueDate updateTaskDto with
    | Some x => x | None => Task.dueDate task end in
  let changed :=
    title <> Task.title task \/ description <> Task.description task
    \/ status <> Task.status task \/ priority <> Task.priority task
    \/ category <> Task.category task \/ position <> Task.position task
    \/ dueDate <> Task.dueDate task in
  exists updatedAt,
    TasksService.findOne taskId user w'
    = (Ok (Task.mk taskId title description status priority category position
             dueDate (Task.userId task) (Task.organizationId task)
             (Task.createdAt task) updatedAt), w')
    /\ (changed -> updatedAt = clock w)
    /\ (~ changed -> updatedAt = Task.updatedAt task
                     /\ tasks w' = tasks w).
Proof.
  intros Hfind Hacc w' title description status priority category position
    dueDate changed.
  assert (Hin : In task (tasks w)) by (apply find_some in Hfind; tauto).
  assert (Hid : Task.taskId task = taskId).
  { apply find_some in Hfind as [_ H]. now apply String.eqb_eq in H. }
  destruct (update_world taskId updateTaskDto user w task Hfind Hacc)
    as [Horgs Htasks].
  fold w' in Horgs, Htasks.
  set (assigned := TasksService.assign task updateTaskDto) in *.
  assert (Hchanged : TasksService.sameColumns task assigned = false <-> changed).
  { rewrite sameColumns_false. unfold changed, assigned.
    cbn [TasksService.assign Task.title Task.description Task.status
         Task.priority Task.category Task.position Task.dueDate].
    fold title description status priority category position dueDate.
    split; intros H; repeat (destruct H as [H|H]; [left|right]); congruence. }
  assert (Hread : forall row : Task.t,
            List.find (TasksService.hasId taskId) (tasks w') = Some row ->
            Task.userId row = Task.userId task ->
            Task.organizationId row = Task.organizationId task ->
            TasksService.findOne taskId user w' = (Ok row, w')).
  { intros row Hrow Hu Ho. rewrite findOne_run, Hrow. f_equal.
    rewrite checkTaskAccess_run in Hacc. rewrite checkTaskAccess_run.
    cbn [fst] in *. rewrite Horgs, Hu, Ho.
    destruct (Role_eqb (IUser.role user) OWNER); [reflexivity|].
    destruct (Role_eqb (IUser.role user) VIEWER).
    - destruct (negb (String.eqb (Task.userId task) (IUser.id user)));
        [discriminate|]. cbn in Hacc. discriminate.
    - destruct (negb (Js.includes _ (Task.organizationId task)));
        [discriminate | reflexivity]. }
  destruct (TasksService.sameColumns task assigned) eqn:Hsame.
  - exists (Task.updatedAt task).
    assert (Hno : ~ changed).
    { intros C. apply Hchanged in C. discriminate. }
    apply sameColumns_true in Hsame.
    unfold assigned in Hsame.
    cbn [TasksService.assign Task.title Task.description Task.status
         Task.priority Task.category Task.position Task.dueDate] in Hsame.
    fold title description status priority category position dueDate in Hsame.
    destruct Hsame as [<- [<- [<- [<- [<- [<- <-]]]]]].
    split; [|split; [intros C; now destruct (Hno C) | intros _; now split]].
    rewrite <- Hid. replace (Task.mk _ _ _ _ _ _ _ _ _ _ _ _) with task
      by (now destruct task).
    rewrite Hid. apply Hread; [now rewrite Htasks | reflexivity | reflexivity].
  - exists (clock w).
    split; [|split; [reflexivity | intros C; destruct C; now apply Hchanged]].
    apply Hread; [|reflexivity|reflexivity].
    rewrite Htasks.
    replace (Task.mk _ _ _ _ _ _ _ _ _ _ _ _)
      with (TasksService.setUpdatedAt (clock w) assigned)
      by (unfold assigned, TasksService.setUpdatedAt;
          cbn [TasksService.assign Task.taskId Task.title Task.description
               Task.status Task.priority Task.category Task.position
               Task.dueDate Task.userId Task.organizationId Task.createdAt];
          now rewrite Hid).
    apply find_replaced.
    + unfold assigned. cbn [TasksService.setUpdatedAt TasksService.assign
                            Task.taskId]. exact Hid.
    + exists task. split; [exact Hin|].
      unfold TasksService.hasId. rewrite Hid. apply String.eqb_refl.
Qed.

Lemma X27_witness :
  let dto := UpdateTaskDto.mk None None (Some "done"%string) None None None
               None None in
  let w' := snd (TasksService.update "task-2" dto Sample.admin_eng Sample.world) in
  TasksService.findOne "task-2" Sample.admin_eng w'
  = (Ok (Task.mk "task-2" (Task.title Sample.task_admin)
           (Task.description Sample.task_admin) "done"
           (Task.priority Sample.task_admin) (Task.category Sample.task_admin)
           (Task.position Sample.task_admin) (Task.dueDate Sample.task_admin)
           (Task.userId Sample.task_admin)
           (Task.organizationId Sample.task_admin)
           (Task.createdAt Sample.task_admin) 10), w').
Proof.
  intros dto w'.
  destruct (X27_updated_task_can_be_read_back "task-2" dto Sample.admin_eng
              Sample.world Sample.task_admin eq_refl eq_refl)
    as [updatedAt [Hread [Hnew _]]].
  rewrite (Hnew ltac:(right; right; left; discriminate)) in Hread.
  exact Hread.
Defined.

(** X28.  What an ADMIN may do with a task depends on its organization
    only.  For an ADMIN, [checkTaskAccess] lets [read], [update] and
    [delete] through alike, and it does so exactly when the task belongs to
    the ADMIN's organization or to an organization whose parent that is;
    otherwise it throws [ForbiddenException].  Who owns the task plays no
    part, and the database is not changed. *)
Theorem X28_admin_task_access_goes_by_organization
  (task : Task.t) (user : IUser.t) (action : TaskAction) (w : World) :
  IUser.role user = ADMIN ->
  (TasksService.checkTaskAccess task user action w = (Ok tt, w)
   <-> Task.organizationId task = IUser.organizationId user
       \/ exists o, In o (organizations w)
                    /\ Organization.organizationId o = Task.organizationId task
                    /\ Organization.parentId o = Some (IUser.organizationId user))
  /\ (TasksService.checkTaskAccess task user action w = (Ok tt, w)
      \/ TasksService.checkTaskAccess task user action w
         = (Throw (ForbiddenException "You do not have access to this task"), w)).
Proof.
  intros Hrole. rewrite checkTaskAccess_run, Hrole.
  change (Role_eqb ADMIN OWNER) with false.
  change (Role_eqb ADMIN VIEWER) with false. cbv iota.
  set (scope := IUser.organizationId user
                :: map Organization.organizationId
                     (filter (OrganizationRepository.hasParent
                                (IUser.organizationId user)) (organizations w))).
  assert (Hscope : In (Task.organizationId task) scope
                   <-> Task.organizationId task = IUser.organizationId user
                       \/ exists o, In o (organizations w)
                            /\ Organization.organizationId o
                               = Task.organizationId task
                            /\ Organization.parentId o
                               = Some (IUser.organizationId user)).
  { unfold scope. cbn [In]. rewrite in_map_iff. split.
    - intros [H|[o [Hid Hin]]]; [left; now symmetry|right].
      apply filter_In in Hin as [Hin Hp]. exists o.
      unfold OrganizationRepository.hasParent in Hp. apply opt_eqb_eq in Hp.
      auto.
    - intros [H|[o [Hin [Hid Hp]]]]; [left; now symmetry|right].
      exists o. split; [exact Hid|]. apply filter_In. split; [exact Hin|].
      unfold OrganizationRepository.hasParent. now apply opt_eqb_eq. }
  rewrite <- Hscope, <- includes_In.
  destruct (Js.includes scope (Task.organizationId task)); cbn [negb].
  - split; [tauto | now left].
  - split; [|now right]. split; intros H; discriminate.
Qed.

Lemma X28_witness :
  TasksService.checkTaskAccess Sample.task_viewer Sample.admin_acme delete
    Sample.world
  = (Ok tt, Sample.world).
Proof.
  destruct (X28_admin_task_access_goes_by_organization Sample.task_viewer
              Sample.admin_acme delete Sample.world eq_refl) as [Hiff _].
  apply Hiff. right. exists Sample.sales. split; [|split; reflexivity].
  simpl. tauto.
Defined.
